(** * LinkedIn MCP server: dispatch, validation and response shaping

    A shallow embedding of [src/index.ts] (the TOON / data-cleaner
    implementation): the data cleaners, [makeRequest], [saveData],
    [formatResponse], the seventeen tool handlers and the
    [CallToolRequestSchema] handler, followed by the properties of the
    specification that concern them.

    JavaScript values are embedded as [jsval]; tool arguments and outbound
    query parameters ([Record<string, any>]) as [gmap string jsval]; the
    remote API, the file system, the clock and the TOON encoder are the
    fields of a [World]. *)

From Stdlib Require Import ZArith String Ascii List Bool Lia.
From stdpp Require Import base option list strings gmap pretty.

Local Open Scope string_scope.
Local Open Scope Z_scope.

Set Warnings "-register-all".

(** ** JavaScript values *)

(** JSON-shaped JavaScript values. Numbers are restricted to integers: the
    tool schemas declare every numeric argument as [integer], and the
    numeric fields the cleaners touch are counts and amounts. A string is
    held in its UTF-8 encoding, one [ascii] a byte. Object fields are kept in
    insertion order. *)
Inductive jsval : Type :=
  | JUndef
  | JNull
  | JBool (b : bool)
  | JNum (z : Z)
  | JStr (s : string)
  | JArr (l : list jsval)
  | JObj (fields : list (string * jsval)).

(** The error codes of the MCP SDK. *)
Inductive ErrorCode : Type :=
  | ParseError | InvalidRequest | MethodNotFound | InvalidParams | InternalError.

(** The numeric codes of the MCP SDK's [ErrorCode] enum. *)
Definition code_number (c : ErrorCode) : Z :=
  match c with
  | ParseError => -32700
  | InvalidRequest => -32600
  | MethodNotFound => -32601
  | InvalidParams => -32602
  | InternalError => -32603
  end.

(** Exceptions that travel through the handlers. The message of a
    [TypeError] depends on the JavaScript engine and is indicative only;
    [OutOfModel] marks a conversion that the embedding does not cover. *)
Inductive exn : Type :=
  | McpError (code : ErrorCode) (message : string)
  | Error (message : string)
  | TypeError (message : string)
  | OutOfModel (what : string).

(** The outcome of code that may throw. *)
Inductive result (A : Type) : Type :=
  | Ok (a : A)
  | Throw (e : exn).
Arguments Ok {A} a.
Arguments Throw {A} e.

Module JS.

(** ToBoolean. *)
Definition truthy (v : jsval) : bool :=
  match v with
  | JUndef | JNull => false
  | JBool b => b
  | JNum z => negb (z =? 0)
  | JStr s => negb (String.eqb s "")
  | JArr _ | JObj _ => true
  end.

(** [a || b] and [a && b] (both operands here are values, evaluation of
    the right operand has no effect in the code modelled). *)
Definition or (a b : jsval) : jsval := if truthy a then a else b.
Definition and (a b : jsval) : jsval := if truthy a then b else a.

Fixpoint assoc (k : string) (fields : list (string * jsval)) : jsval :=
  match fields with
  | [] => JUndef
  | (k', v) :: rest => if String.eqb k k' then v else assoc k rest
  end.

Definition is_nullish (v : jsval) : bool :=
  match v with JUndef | JNull => true | _ => false end.

(** The length of a string in UTF-16 code units, from its UTF-8 encoding:
    a continuation byte counts for nothing, the first byte of a sequence of
    four for two (a surrogate pair), any other byte for one. *)
Fixpoint utf16_length (s : string) : nat :=
  match s with
  | EmptyString => 0
  | String c rest =>
      let n := nat_of_ascii c in
      ((if (128 <=? n)%nat && (n <=? 191)%nat then 0
        else if (240 <=? n)%nat then 2 else 1) + utf16_length rest)%nat
  end.

(** [v.k] where [v] is known not to be null or undefined: own fields of an
    object, [length] of an array or a string, [undefined] otherwise (none of
    the property names read by the code is a prototype member). *)
Definition field (v : jsval) (k : string) : jsval :=
  match v with
  | JObj fields => assoc k fields
  | JArr l => if String.eqb k "length" then JNum (Z.of_nat (length l)) else JUndef
  | JStr s => if String.eqb k "length" then JNum (Z.of_nat (utf16_length s)) else JUndef
  | _ => JUndef
  end.

(** [v.k]: a TypeError on null and undefined. *)
Definition get (v : jsval) (k : string) : result jsval :=
  if is_nullish v
  then Throw (TypeError ("Cannot read properties of null or undefined (reading '" +:+ k +:+ "')"))
  else Ok (field v k).

(** [v?.k]. *)
Definition opt (v : jsval) (k : string) : jsval :=
  if is_nullish v then JUndef else field v k.

(** [v?.[0]]. The code indexes [raw.locations] only where it is falsy or
    an array; of a non-empty string, which it does not reach, the first byte
    stands for the first character. *)
Definition opt_index0 (v : jsval) : jsval :=
  match v with
  | JArr (x :: _) => x
  | JObj fields => assoc "0" fields
  | JStr (String c _) => JStr (String c EmptyString)
  | _ => JUndef
  end.

(** The object has a field of its own under the key. *)
Fixpoint has_own (k : string) (fields : list (string * jsval)) : bool :=
  match fields with
  | [] => false
  | (k', _) :: rest => String.eqb k k' || has_own k rest
  end.

(** ToPrimitive on an object of JSON shape. Its [toString] is the one of
    [Object.prototype], unless the object has a field of that name: the field
    holds no function, and the [valueOf] that is tried next gives back the
    object itself, or is no function either, so that the conversion ends in a
    TypeError. *)
Definition object_to_primitive (fields : list (string * jsval)) : result string :=
  if has_own "toString" fields
  then Throw (TypeError "Cannot convert object to primitive value")
  else Ok "[object Object]".

(** The integers that [Number.prototype.toString] prints digit by digit and
    that every number of that size is: up to [Number.MAX_SAFE_INTEGER]. *)
Definition safe_integer (z : Z) : bool := Z.abs z <=? 9007199254740991.

(** String conversion of a template literal [`${v}`]. An array is joined
    with commas, its null and undefined entries left empty; the conversion
    of a number beyond the safe integers (exponents, rounded digits) is not
    covered. *)
Fixpoint to_string (v : jsval) : result string :=
  match v with
  | JUndef => Ok "undefined"
  | JNull => Ok "null"
  | JBool true => Ok "true"
  | JBool false => Ok "false"
  | JNum z =>
      if safe_integer z then Ok (pretty z)
      else Throw (OutOfModel "number beyond the safe integers")
  | JStr s => Ok s
  | JArr l =>
      (fix join (l : list jsval) : result string :=
         match l with
         | [] => Ok ""
         | x :: rest =>
             match (if is_nullish x then Ok "" else to_string x) with
             | Throw e => Throw e
             | Ok s =>
                 match rest with
                 | [] => Ok s
                 | _ :: _ =>
                     match join rest with
                     | Throw e => Throw e
                     | Ok t => Ok (s +:+ "," +:+ t)
                     end
                 end
             end
         end) l
  | JObj fields => object_to_primitive fields
  end.

(** The white space and the line terminators that [String.prototype.trim]
    strips, in their UTF-8 encoding: of one byte (tab, line feed, vertical
    tab, form feed, carriage return, space), of two (U+00A0) and of three
    (U+1680, U+2000 to U+200A, U+2028, U+2029, U+202F, U+205F, U+3000,
    U+FEFF). *)
Definition is_space (c : ascii) : bool :=
  let n := nat_of_ascii c in
  ((9 <=? n)%nat && (n <=? 13)%nat) || (n =? 32)%nat.

Definition is_space2 (c1 c2 : ascii) : bool :=
  (nat_of_ascii c1 =? 194)%nat && (nat_of_ascii c2 =? 160)%nat.

Definition is_space3 (c1 c2 c3 : ascii) : bool :=
  let a := nat_of_ascii c1 in
  let b := nat_of_ascii c2 in
  let c := nat_of_ascii c3 in
  ((b =? 154)%nat && ((a =? 225)%nat && (c =? 128)%nat)) ||
  ((b =? 128)%nat &&
   (((a =? 226)%nat &&
     (((128 <=? c)%nat && (c <=? 138)%nat) || (c =? 168)%nat || (c =? 169)%nat ||
      (c =? 175)%nat)) ||
    ((a =? 227)%nat && (c =? 128)%nat))) ||
  ((b =? 129)%nat && ((a =? 226)%nat && (c =? 159)%nat)) ||
  ((b =? 187)%nat && ((a =? 239)%nat && (c =? 191)%nat)).

(** The string starts with white space, of one, two or three bytes; [p2] and
    [p3] recognise the white space of two and of three bytes. *)
Definition space_ahead (p2 : ascii -> ascii -> bool) (p3 : ascii -> ascii -> ascii -> bool)
    (s : string) : bool :=
  match s with
  | EmptyString => false
  | String c1 r1 =>
      is_space c1 ||
      match r1 with
      | EmptyString => false
      | String c2 r2 =>
          p2 c1 c2 ||
          match r2 with
          | EmptyString => false
          | String c3 _ => p3 c1 c2 c3
          end
      end
  end.

Fixpoint trim_start_by (p2 : ascii -> ascii -> bool) (p3 : ascii -> ascii -> ascii -> bool)
    (s : string) : string :=
  match s with
  | EmptyString => s
  | String c1 r1 =>
      if is_space c1 then trim_start_by p2 p3 r1 else
      match r1 with
      | EmptyString => s
      | String c2 r2 =>
          if p2 c1 c2 then trim_start_by p2 p3 r2 else
          match r2 with
          | EmptyString => s
          | String c3 r3 => if p3 c1 c2 c3 then trim_start_by p2 p3 r3 else s
          end
      end
  end.

Definition trim_start (s : string) : string := trim_start_by is_space2 is_space3 s.

Definition rev_string (s : string) : string :=
  string_of_list_ascii (List.rev (list_ascii_of_string s)).

(** The white space of two and of three bytes, read from its last byte. *)
Definition is_space2_rev (c2 c1 : ascii) : bool := is_space2 c1 c2.
Definition is_space3_rev (c3 c2 c1 : ascii) : bool := is_space3 c1 c2 c3.

(** [String.prototype.trim]: the white space at the start, then the white
    space at the end, which is at the start of the reversed string. *)
Definition trim (s : string) : string :=
  rev_string (trim_start_by is_space2_rev is_space3_rev (rev_string (trim_start s))).

(** [s.replace(/^-|-$/g, '')]: one leading and then one trailing dash. *)
Definition strip_dash_start (s : string) : string :=
  match s with
  | String "-" rest => rest
  | _ => s
  end.

Definition strip_dashes (s : string) : string :=
  rev_string (strip_dash_start (rev_string (strip_dash_start s))).

(** [s.replace(/[:.]/g, '-')]. *)
Fixpoint dash_colons_dots (s : string) : string :=
  match s with
  | EmptyString => EmptyString
  | String c rest =>
      String (if (Ascii.eqb c ":" || Ascii.eqb c ".")%bool then "-"%char else c)
             (dash_colons_dots rest)
  end.

(** [v > 0] after ToNumber, on the values whose conversion does not go
    through the string-to-number grammar: an object converts to the string
    of [object_to_primitive], which is no number. *)
Definition gt_zero (v : jsval) : result bool :=
  match v with
  | JNum z => Ok (0 <? z)
  | JBool b => Ok b
  | JUndef | JNull => Ok false
  | JObj fields =>
      match object_to_primitive fields with
      | Ok _ => Ok false
      | Throw e => Throw e
      end
  | JStr _ | JArr _ => Throw (OutOfModel "string to number conversion")
  end.

(** [obj.k = v] on an object literal: an existing field keeps its place. *)
Fixpoint set_field (k : string) (v : jsval) (fields : list (string * jsval))
  : list (string * jsval) :=
  match fields with
  | [] => [(k, v)]
  | (k', v') :: rest =>
      if String.eqb k k' then (k, v) :: rest else (k', v') :: set_field k v rest
  end.

(** [l.slice(0, e)] for an integer [e]: a negative end counts from the
    back of the array. *)
Definition slice0 {A : Type} (l : list A) (e : Z) : list A :=
  if e <? 0
  then take (Z.to_nat (Z.max (Z.of_nat (length l) + e) 0)) l
  else take (Z.to_nat e) l.

(** ToIntegerOrInfinity on the values whose conversion does not go
    through the string-to-number grammar. *)
Definition to_integer (v : jsval) : result Z :=
  match v with
  | JUndef | JNull => Ok 0
  | JBool b => Ok (if b then 1 else 0)
  | JNum z => Ok z
  | JObj fields =>
      match object_to_primitive fields with
      | Ok _ => Ok 0
      | Throw e => Throw e
      end
  | JStr _ | JArr _ => Throw (OutOfModel "string to number conversion")
  end.

End JS.

(** ** The error monad of the cleaners *)

#[global] Instance result_ret : MRet result := fun _ a => Ok a.
#[global] Instance result_bind : MBind result :=
  fun _ _ f m => match m with Ok a => f a | Throw e => Throw e end.

Definition is_ok {A : Type} (r : result A) : bool :=
  match r with Ok _ => true | Throw _ => false end.

(** [Array.prototype.map] with a callback that may throw: elements are
    visited from left to right and the first exception ends the loop. *)
Fixpoint map_result {A B : Type} (f : A -> result B) (l : list A) : result (list B) :=
  match l with
  | [] => Ok []
  | x :: rest =>
      y ← f x;
      ys ← map_result f rest;
      Ok (y :: ys)
  end.

(** [v.map(f)]: only an array has a [map] method. *)
Definition array_map (v : jsval) (f : jsval -> result jsval) : result jsval :=
  match v with
  | JArr l => l' ← map_result f l; Ok (JArr l')
  | _ => Throw (TypeError "map is not a function")
  end.

(** [v.find(p)], with a predicate that may throw. *)
Fixpoint find_result (p : jsval -> result bool) (l : list jsval) : result jsval :=
  match l with
  | [] => Ok JUndef
  | x :: rest =>
      b ← p x;
      if b : bool then Ok x else find_result p rest
  end.

Definition array_find (v : jsval) (p : jsval -> result bool) : result jsval :=
  match v with
  | JArr l => find_result p l
  | _ => Throw (TypeError "find is not a function")
  end.

(** ** Data cleaners *)

Module DataCleaners.

Import JS.

Definition clean_experience (e : jsval) : result jsval :=
  position ← get e "position";
  Ok (JObj [ ("position", position);
             ("company", field e "companyName");
             ("location", field e "location");
             ("duration", field e "duration");
             ("startDate", opt (field e "startDate") "text");
             ("endDate", opt (field e "endDate") "text");
             ("description", field e "description") ]).

(** [e.period || `${e.startDate?.year || ''}-${e.endDate?.year || ''}`.replace(/^-|-$/g, '')] *)
Definition education_period (e : jsval) : result jsval :=
  if truthy (field e "period") then Ok (field e "period") else
  startYear ← to_string (or (opt (field e "startDate") "year") (JStr ""));
  endYear ← to_string (or (opt (field e "endDate") "year") (JStr ""));
  Ok (JStr (strip_dashes (startYear +:+ "-" +:+ endYear))).

Definition clean_education (e : jsval) : result jsval :=
  schoolName ← get e "schoolName";
  period ← education_period e;
  Ok (JObj [ ("school", or schoolName (field e "title"));
             ("degree", field e "degree");
             ("field", field e "fieldOfStudy");
             ("period", period) ]).

Definition clean_certification (c : jsval) : result jsval :=
  title ← get c "title";
  Ok (JObj [ ("title", title);
             ("issuedBy", field c "issuedBy");
             ("issuedAt", field c "issuedAt") ]).

Definition cleanProfile (raw : jsval) : result jsval :=
  if negb (truthy raw) then Ok JNull else
  exp ← array_map (or (field raw "experience") (JArr [])) clean_experience;
  edu ← array_map (or (field raw "education") (JArr [])) clean_education;
  skills ← array_map (or (field raw "skills") (JArr [])) (fun s => get s "name");
  certs ← array_map (or (field raw "certifications") (JArr [])) clean_certification;
  firstName ← to_string (or (field raw "firstName") (JStr ""));
  lastName ← to_string (or (field raw "lastName") (JStr ""));
  Ok (JObj [ ("id", field raw "id");
             ("publicIdentifier", field raw "publicIdentifier");
             ("linkedinUrl", field raw "linkedinUrl");
             ("name", JStr (trim (firstName +:+ " " +:+ lastName)));
             ("headline", field raw "headline");
             ("about", field raw "about");
             ("location", opt (field raw "location") "linkedinText");
             ("photo", or (field raw "photo") (opt (field raw "profilePicture") "url"));
             ("premium", field raw "premium");
             ("influencer", field raw "influencer");
             ("verified", field raw "verified");
             ("openToWork", field raw "openToWork");
             ("hiring", field raw "hiring");
             ("connections", field raw "connectionsCount");
             ("followers", field raw "followerCount");
             ("experience", exp);
             ("education", edu);
             ("skills", skills);
             ("certifications", certs) ]).

Definition cleanProfileSearchResult (raw : jsval) : result jsval :=
  if negb (truthy raw) then Ok JNull else
  Ok (JObj [ ("id", field raw "id");
             ("name", field raw "name");
             ("position", field raw "position");
             ("location", opt (field raw "location") "linkedinText");
             ("linkedinUrl", field raw "linkedinUrl");
             ("publicIdentifier", field raw "publicIdentifier") ]).

(** [(raw.locations || []).find((l) => l.headquarter) || raw.locations?.[0]] *)
Definition headquarters_entry (raw : jsval) : result jsval :=
  found ← array_find (or (field raw "locations") (JArr []))
                     (fun l => h ← get l "headquarter"; Ok (truthy h));
  Ok (or found (opt_index0 (field raw "locations"))).

Definition cleanCompany (raw : jsval) : result jsval :=
  if negb (truthy raw) then Ok JNull else
  hq ← headquarters_entry raw;
  Ok (JObj [ ("id", field raw "id");
             ("universalName", field raw "universalName");
             ("linkedinUrl", field raw "linkedinUrl");
             ("name", field raw "name");
             ("website", field raw "website");
             ("logo", field raw "logo");
             ("description", field raw "description");
             ("employeeCount", field raw "employeeCount");
             ("followers", field raw "followerCount");
             ("headquarter", or (opt (opt hq "parsed") "text") (opt hq "city")) ]).

(** [raw.salary?.text || (raw.salary?.min && raw.salary?.max
      ? `${raw.salary.min}-${raw.salary.max} ${raw.salary.currency || ''}` : null)] *)
Definition job_salary (raw : jsval) : result jsval :=
  let salary := field raw "salary" in
  if truthy (opt salary "text") then Ok (opt salary "text")
  else if truthy (and (opt salary "min") (opt salary "max"))
  then min ← to_string (field salary "min");
       max ← to_string (field salary "max");
       currency ← to_string (or (field salary "currency") (JStr ""));
       Ok (JStr (min +:+ "-" +:+ max +:+ " " +:+ currency))
  else Ok JNull.

Definition cleanJob (raw : jsval) : result jsval :=
  if negb (truthy raw) then Ok JNull else
  salary ← job_salary raw;
  Ok (JObj [ ("id", field raw "id");
             ("title", field raw "title");
             ("linkedinUrl", or (field raw "linkedinUrl") (field raw "url"));
             ("state", field raw "jobState");
             ("postedDate", field raw "postedDate");
             ("location", opt (field raw "location") "linkedinText");
             ("company", or (opt (field raw "company") "name") (field raw "companyName"));
             ("companyUrl", or (opt (field raw "company") "linkedinUrl") (field raw "companyLink"));
             ("salary", salary);
             ("employmentType", field raw "employmentType");
             ("workplaceType", field raw "workplaceType");
             ("easyApply", field raw "easyApply");
             ("description", field raw "descriptionText") ]).

Definition cleanJobSearchResult (raw : jsval) : result jsval :=
  if negb (truthy raw) then Ok JNull else
  Ok (JObj [ ("id", field raw "id");
             ("title", field raw "title");
             ("url", field raw "url");
             ("postedDate", field raw "postedDate");
             ("company", opt (field raw "company") "name");
             ("location", opt (field raw "location") "linkedinText");
             ("easyApply", field raw "easyApply") ]).

Definition cleanPost (raw : jsval) : result jsval :=
  if negb (truthy raw) then Ok JNull else
  hasImages ← gt_zero (or (opt (field raw "postImages") "length") (JNum 0));
  Ok (JObj [ ("id", field raw "id");
             ("linkedinUrl", field raw "linkedinUrl");
             ("content", field raw "content");
             ("authorName", opt (field raw "author") "name");
             ("authorType", opt (field raw "author") "type");
             ("postedAgo", or (opt (field raw "postedAt") "postedAgoText")
                              (opt (field raw "postedAt") "postedAgoShort"));
             ("likes", opt (field raw "engagement") "likes");
             ("comments", opt (field raw "engagement") "comments");
             ("shares", opt (field raw "engagement") "shares");
             ("hasVideo", JBool (truthy (field raw "postVideo")));
             ("hasImages", JBool hasImages) ]).

Definition cleanGroup (raw : jsval) : result jsval :=
  if negb (truthy raw) then Ok JNull else
  Ok (JObj [ ("id", field raw "id");
             ("linkedinUrl", field raw "linkedinUrl");
             ("name", field raw "name");
             ("members", or (field raw "members") (field raw "memberCount"));
             ("summary", or (field raw "summary") (field raw "description")) ]).

Definition cleanGeoId (raw : jsval) : result jsval :=
  if negb (truthy raw) then Ok JNull else
  Ok (JObj [ ("geoId", field raw "geoId");
             ("title", field raw "title") ]).

Definition cleanComment (raw : jsval) : result jsval :=
  if negb (truthy raw) then Ok JNull else
  Ok (JObj [ ("id", field raw "id");
             ("content", field raw "content");
             ("authorName", opt (field raw "author") "name");
             ("postedAgo", opt (field raw "postedAt") "postedAgoText");
             ("likes", opt (field raw "engagement") "likes") ]).

Definition cleanReaction (raw : jsval) : result jsval :=
  if negb (truthy raw) then Ok JNull else
  Ok (JObj [ ("name", field raw "name");
             ("headline", field raw "headline");
             ("reactionType", field raw "reactionType");
             ("linkedinUrl", field raw "linkedinUrl") ]).

End DataCleaners.

(** ** The environment of a call *)

(** What the axios client answers to a GET: the body of a 2xx response, an
    axios error (with the status and body of the response, when there is
    one), or some other exception. *)
Inductive http_reply : Type :=
  | HttpData (data : jsval)
  | HttpAxiosError (response : option (jsval * jsval)) (message : string)
  | HttpFailure (e : exn).

(** What lies outside the server: the remote API behind the axios client
    ([apiClient.get]), the file system ([fs.existsSync], [fs.mkdirSync],
    [fs.writeFileSync], each giving the exception it throws, if any),
    [path.join], the clock ([new Date().toISOString()]),
    [JSON.stringify(data, null, 2)] and the TOON [encode]. *)
Record World : Type := {
  api_get : string -> gmap string jsval -> http_reply;
  exists_sync : jsval -> bool;
  mkdir_sync : jsval -> option exn;
  write_file_sync : string -> string -> option exn;
  path_join : jsval -> string -> result string;
  now_iso_string : string;
  json_stringify : jsval -> string;
  encode : jsval -> string;
}.

(** The effects of a call, in the order they happen. *)
Inductive event : Type :=
  | HttpGet (endpoint : string) (params : gmap string jsval)
  | Mkdir (dir : jsval)
  | WriteFile (path : string) (content : string).

(** A computation with effects: the events it performed and how it ended. *)
Definition io (A : Type) : Type := (list event * result A)%type.

#[global] Instance io_ret : MRet io := fun _ a => ([], Ok a).
#[global] Instance io_bind : MBind io :=
  fun _ _ f m =>
    match m with
    | (evs, Ok a) => let '(evs', r) := f a in ((evs ++ evs')%list, r)
    | (evs, Throw e) => (evs, Throw e)
    end.

Definition lift {A : Type} (r : result A) : io A := ([], r).
Definition throw {A : Type} (e : exn) : io A := ([], Throw e).
Definition emit (ev : event) : io unit := ([ev], Ok tt).

(** [try { m } catch (e) { h(e) }] *)
Definition try_catch {A : Type} (m : io A) (h : exn -> io A) : io A :=
  match m with
  | (evs, Ok a) => (evs, Ok a)
  | (evs, Throw e) => let '(evs', r) := h e in ((evs ++ evs')%list, r)
  end.

(** [`${e}`] for a caught exception, and [e.message]. *)
Definition exn_message (e : exn) : string :=
  match e with
  | McpError code message => "MCP error " +:+ pretty (code_number code) +:+ ": " +:+ message
  | Error message | TypeError message => message
  | OutOfModel what => what
  end.

Definition exn_to_string (e : exn) : string :=
  match e with
  | McpError _ _ => "McpError: " +:+ exn_message e
  | Error message => "Error: " +:+ message
  | TypeError message => "TypeError: " +:+ message
  | OutOfModel what => what
  end.

Definition newline : string := String "010"%char EmptyString.

Record CallToolResult : Type := { content_text : string }.

Record FormatOptions : Type := {
  saveDir : jsval;
  toolName : string;
  pagination : jsval;
}.

(** [args.k] and [params.k] on a [Record<string, any>]. *)
Definition prop (o : gmap string jsval) (k : string) : jsval :=
  default JUndef (o !! k).

(** [if (args.k) params.k = args.k;] *)
Definition copy_if_truthy (args : gmap string jsval) (k : string)
    (params : gmap string jsval) : gmap string jsval :=
  if JS.truthy (prop args k) then <[k := prop args k]> params else params.

(** [if (args.k !== undefined) params.k = args.k;] *)
Definition copy_if_defined (args : gmap string jsval) (k : string)
    (params : gmap string jsval) : gmap string jsval :=
  match prop args k with
  | JUndef => params
  | v => <[k := v]> params
  end.

Section Server.

Context (w : World).

(** [makeRequest]: the API key header does not depend on the call and is
    left out of the event. *)
Definition makeRequest (endpoint : string) (params : gmap string jsval) : io jsval :=
  _ ← emit (HttpGet endpoint params);
  match api_get w endpoint params with
  | HttpData data => mret data
  | HttpAxiosError response message =>
      let status := match response with Some (s, _) => s | None => JUndef end in
      let data := match response with Some (_, d) => d | None => JUndef end in
      let statusCode := JS.or status (JNum 500) in
      let errorMessage :=
        JS.or (JS.or (JS.opt data "message") (JS.opt data "error")) (JStr message) in
      statusText ← lift (JS.to_string statusCode);
      messageText ← lift (JS.to_string errorMessage);
      throw (Error ("HarvestAPI error (" +:+ statusText +:+ "): " +:+ messageText))
  | HttpFailure e => throw e
  end.

Definition saveData (data : jsval) (dir : jsval) (toolName : string) : io string :=
  try_catch
    (_ ← (if negb (exists_sync w dir)
          then _ ← emit (Mkdir dir);
               match mkdir_sync w dir with
               | Some e => throw e
               | None => mret tt
               end
          else mret tt);
     let timestamp := JS.dash_colons_dots (now_iso_string w) in
     let filename := toolName +:+ "_" +:+ timestamp +:+ ".json" in
     filepath ← lift (path_join w dir filename);
     let text := json_stringify w data in
     _ ← emit (WriteFile filepath text);
     match write_file_sync w filepath text with
     | Some e => throw e
     | None => mret filepath
     end)
    (fun e => mret ("Error saving: " +:+ exn_to_string e)).

(** The [output] object of [formatResponse]. *)
Definition format_output (cleanedData : jsval) (pagination : jsval) : jsval :=
  if JS.truthy pagination
  then JObj [ ("data", cleanedData);
              ("pagination",
               JObj [ ("page", JS.field pagination "pageNumber");
                      ("totalPages", JS.field pagination "totalPages");
                      ("totalElements", JS.field pagination "totalElements") ]) ]
  else JObj [ ("data", cleanedData) ].

Definition formatResponse (cleanedData : jsval) (options : FormatOptions)
  : io CallToolResult :=
  let output := format_output cleanedData (pagination options) in
  savedPath ← (if JS.truthy (saveDir options) && negb (String.eqb (toolName options) "")
               then saveData output (saveDir options) (toolName options)
               else mret "");
  let toonString := encode w output in
  let text :=
    if negb (String.eqb savedPath "")
    then toonString +:+ newline +:+ newline +:+ "[Cleaned data saved to: " +:+ savedPath +:+ "]"
    else toonString in
  mret {| content_text := text |}.

(** The two lines shared by every listing handler:
    [const maxItems = args.max_items || d;]
    [const cleaned = (data.elements || []).slice(0, maxItems).map(cleaner);] *)
Definition bounded_elements (max_items : jsval) (d : Z) (elements : jsval)
    (cleaner : jsval -> result jsval) : result jsval :=
  let maxItems := JS.or max_items (JNum d) in
  match JS.or elements (JArr []) with
  | JArr l =>
      e ← JS.to_integer maxItems;
      l' ← map_result cleaner (JS.slice0 l e);
      Ok (JArr l')
  | _ => Throw (TypeError "slice(...).map is not a function")
  end.

(** [if (cleaned.k) cleaned.k = cleaned.k.slice(0, maxItems);] *)
Definition slice_field (k : string) (maxItems : jsval) (cleaned : jsval) : result jsval :=
  if JS.truthy (JS.field cleaned k) then
    match JS.field cleaned k, cleaned with
    | JArr l, JObj fields =>
        e ← JS.to_integer maxItems;
        Ok (JObj (JS.set_field k (JArr (JS.slice0 l e)) fields))
    | JStr _, _ => Throw (OutOfModel "String.prototype.slice")
    | _, _ => Throw (TypeError "slice is not a function")
    end
  else Ok cleaned.

(** The shaping lines of [getProfile]:
    [const maxItems = args.max_items || 5;]
    [const cleaned = DataCleaners.cleanProfile(data.element);]
    [if (cleaned) { ... four sub-lists sliced ... }] *)
Definition bounded_profile (max_items : jsval) (element : jsval) : result jsval :=
  let maxItems := JS.or max_items (JNum 5) in
  cleaned ← DataCleaners.cleanProfile element;
  if JS.truthy cleaned then
    cleaned ← slice_field "experience" maxItems cleaned;
    cleaned ← slice_field "education" maxItems cleaned;
    cleaned ← slice_field "skills" maxItems cleaned;
    slice_field "certifications" maxItems cleaned
  else Ok cleaned.

(** The tail of a listing handler, from the request to the reply. *)
Definition listing (args : gmap string jsval) (endpoint : string)
    (params : gmap string jsval) (cleaner : jsval -> result jsval)
    (tool : string) (with_pagination : bool) : io CallToolResult :=
  data ← makeRequest endpoint params;
  elements ← lift (JS.get data "elements");
  cleaned ← lift (bounded_elements (prop args "max_items") 10 elements cleaner);
  formatResponse cleaned
    {| saveDir := prop args "save_dir";
       toolName := tool;
       pagination := if with_pagination then JS.field data "pagination" else JUndef |}.

(** The tail of a single-entity handler. *)
Definition single (args : gmap string jsval) (endpoint : string)
    (params : gmap string jsval) (cleaner : jsval -> result jsval)
    (tool : string) : io CallToolResult :=
  data ← makeRequest endpoint params;
  element ← lift (JS.get data "element");
  cleaned ← lift (cleaner element);
  formatResponse cleaned
    {| saveDir := prop args "save_dir"; toolName := tool; pagination := JUndef |}.

(** *** Profile methods *)

Definition getProfile_params (args : gmap string jsval) : gmap string jsval :=
  let params : gmap string jsval := ∅ in
  let params := copy_if_truthy args "url" params in
  let params := copy_if_truthy args "publicIdentifier" params in
  let params := copy_if_truthy args "profileId" params in
  let params := copy_if_truthy args "findEmail" params in
  let params := copy_if_truthy args "includeAboutProfile" params in
  params.

Definition getProfile (args : gmap string jsval) : io CallToolResult :=
  let params := getProfile_params args in
  if negb (JS.truthy (prop params "url")) &&
     negb (JS.truthy (prop params "publicIdentifier")) &&
     negb (JS.truthy (prop params "profileId"))
  then throw (Error "At least one of url, publicIdentifier, or profileId is required")
  else
    data ← makeRequest "/profile" params;
    element ← lift (JS.get data "element");
    cleaned ← lift (bounded_profile (prop args "max_items") element);
    formatResponse cleaned
      {| saveDir := prop args "save_dir"; toolName := "get_profile"; pagination := JUndef |}.

Definition searchProfiles_params (args : gmap string jsval) : gmap string jsval :=
  let params : gmap string jsval := {[ "search" := prop args "search" ]} in
  let params := copy_if_truthy args "currentCompany" params in
  let params := copy_if_truthy args "pastCompany" params in
  let params := copy_if_truthy args "school" params in
  let params := copy_if_truthy args "firstName" params in
  let params := copy_if_truthy args "lastName" params in
  let params := copy_if_truthy args "title" params in
  let params := copy_if_truthy args "location" params in
  let params := copy_if_truthy args "geoId" params in
  let params := copy_if_truthy args "industryId" params in
  let params := copy_if_truthy args "page" params in
  params.

Definition searchProfiles (args : gmap string jsval) : io CallToolResult :=
  listing args "/profile-search" (searchProfiles_params args)
          DataCleaners.cleanProfileSearchResult "search_profiles" true.

Definition getProfilePosts_params (args : gmap string jsval) : gmap string jsval :=
  let params : gmap string jsval := ∅ in
  let params := copy_if_truthy args "profile" params in
  let params := copy_if_truthy args "profileId" params in
  let params := copy_if_truthy args "profilePublicIdentifier" params in
  let params := copy_if_truthy args "postedLimit" params in
  let params := copy_if_truthy args "page" params in
  let params := copy_if_truthy args "paginationToken" params in
  params.

Definition getProfilePosts (args : gmap string jsval) : io CallToolResult :=
  let params := getProfilePosts_params args in
  if negb (JS.truthy (prop params "profile")) &&
     negb (JS.truthy (prop params "profileId")) &&
     negb (JS.truthy (prop params "profilePublicIdentifier"))
  then throw (Error "At least one of profile, profileId, or profilePublicIdentifier is required")
  else listing args "/profile-posts" params DataCleaners.cleanPost "get_profile_posts" true.

Definition getProfileComments_params (args : gmap string jsval) : gmap string jsval :=
  let params : gmap string jsval := ∅ in
  let params := copy_if_truthy args "profile" params in
  let params := copy_if_truthy args "profileId" params in
  let params := copy_if_truthy args "postedLimit" params in
  let params := copy_if_truthy args "page" params in
  let params := copy_if_truthy args "paginationToken" params in
  params.

Definition getProfileComments (args : gmap string jsval) : io CallToolResult :=
  let params := getProfileComments_params args in
  if negb (JS.truthy (prop params "profile")) &&
     negb (JS.truthy (prop params "profileId"))
  then throw (Error "At least one of profile or profileId is required")
  else listing args "/profile-comments" params DataCleaners.cleanComment
               "get_profile_comments" true.

Definition getProfileReactions_params (args : gmap string jsval) : gmap string jsval :=
  let params : gmap string jsval := ∅ in
  let params := copy_if_truthy args "profile" params in
  let params := copy_if_truthy args "profileId" params in
  let params := copy_if_truthy args "page" params in
  let params := copy_if_truthy args "paginationToken" params in
  params.

Definition getProfileReactions (args : gmap string jsval) : io CallToolResult :=
  let params := getProfileReactions_params args in
  if negb (JS.truthy (prop params "profile")) &&
     negb (JS.truthy (prop params "profileId"))
  then throw (Error "At least one of profile or profileId is required")
  else listing args "/profile-reactions" params DataCleaners.cleanReaction
               "get_profile_reactions" true.

(** *** Company methods *)

Definition getCompany_params (args : gmap string jsval) : gmap string jsval :=
  let params : gmap string jsval := ∅ in
  let params := copy_if_truthy args "url" params in
  let params := copy_if_truthy args "universalName" params in
  let params := copy_if_truthy args "search" params in
  params.

Definition getCompany (args : gmap string jsval) : io CallToolResult :=
  let params := getCompany_params args in
  if negb (JS.truthy (prop params "url")) &&
     negb (JS.truthy (prop params "universalName")) &&
     negb (JS.truthy (prop params "search"))
  then throw (Error "At least one of url, universalName, or search is required")
  else single args "/company" params DataCleaners.cleanCompany "get_company".

Definition searchCompanies_params (args : gmap string jsval) : gmap string jsval :=
  let params : gmap string jsval := {[ "search" := prop args "search" ]} in
  let params := copy_if_truthy args "location" params in
  let params := copy_if_truthy args "geoId" params in
  let params := copy_if_truthy args "companySize" params in
  let params := copy_if_truthy args "page" params in
  params.

Definition searchCompanies (args : gmap string jsval) : io CallToolResult :=
  listing args "/company-search" (searchCompanies_params args)
          DataCleaners.cleanCompany "search_companies" true.

Definition getCompanyPosts_params (args : gmap string jsval) : gmap string jsval :=
  let params : gmap string jsval := ∅ in
  let params := copy_if_truthy args "company" params in
  let params := copy_if_truthy args "companyId" params in
  let params := copy_if_truthy args "companyUniversalName" params in
  let params := copy_if_truthy args "postedLimit" params in
  let params := copy_if_truthy args "page" params in
  let params := copy_if_truthy args "paginationToken" params in
  params.

Definition getCompanyPosts (args : gmap string jsval) : io CallToolResult :=
  let params := getCompanyPosts_params args in
  if negb (JS.truthy (prop params "company")) &&
     negb (JS.truthy (prop params "companyId")) &&
     negb (JS.truthy (prop params "companyUniversalName"))
  then throw (Error "At least one of company, companyId, or companyUniversalName is required")
  else listing args "/company-posts" params DataCleaners.cleanPost "get_company_posts" true.

(** *** Job methods *)

Definition getJob_params (args : gmap string jsval) : gmap string jsval :=
  let params : gmap string jsval := ∅ in
  let params := copy_if_truthy args "jobId" params in
  let params := copy_if_truthy args "url" params in
  params.

Definition getJob (args : gmap string jsval) : io CallToolResult :=
  let params := getJob_params args in
  if negb (JS.truthy (prop params "jobId")) &&
     negb (JS.truthy (prop params "url"))
  then throw (Error "At least one of jobId or url is required")
  else single args "/job" params DataCleaners.cleanJob "get_job".

Definition searchJobs_params (args : gmap string jsval) : gmap string jsval :=
  let params : gmap string jsval := ∅ in
  let params := copy_if_truthy args "search" params in
  let params := copy_if_truthy args "companyId" params in
  let params := copy_if_truthy args "location" params in
  let params := copy_if_truthy args "geoId" params in
  let params := copy_if_truthy args "sortBy" params in
  let params := copy_if_truthy args "workplaceType" params in
  let params := copy_if_truthy args "employmentType" params in
  let params := copy_if_truthy args "salary" params in
  let params := copy_if_truthy args "postedLimit" params in
  let params := copy_if_truthy args "experienceLevel" params in
  let params := copy_if_truthy args "industryId" params in
  let params := copy_if_truthy args "functionId" params in
  let params := copy_if_truthy args "under10Applicants" params in
  let params := copy_if_defined args "easyApply" params in
  let params := copy_if_truthy args "page" params in
  params.

Definition searchJobs (args : gmap string jsval) : io CallToolResult :=
  listing args "/job-search" (searchJobs_params args)
          DataCleaners.cleanJobSearchResult "search_jobs" true.

(** *** Post methods *)

Definition getPost_params (args : gmap string jsval) : gmap string jsval :=
  {[ "url" := prop args "url" ]}.

Definition getPost (args : gmap string jsval) : io CallToolResult :=
  single args "/post" (getPost_params args) DataCleaners.cleanPost "get_post".

Definition searchPosts_params (args : gmap string jsval) : gmap string jsval :=
  let params : gmap string jsval := ∅ in
  let params := copy_if_truthy args "search" params in
  let params := copy_if_truthy args "profile" params in
  let params := copy_if_truthy args "profileId" params in
  let params := copy_if_truthy args "company" params in
  let params := copy_if_truthy args "companyId" params in
  let params := copy_if_truthy args "authorsCompany" params in
  let params := copy_if_truthy args "authorsCompanyId" params in
  let params := copy_if_truthy args "group" params in
  let params := copy_if_truthy args "postedLimit" params in
  let params := copy_if_truthy args "sortBy" params in
  let params := copy_if_truthy args "page" params in
  let params := copy_if_truthy args "paginationToken" params in
  params.

Definition searchPosts (args : gmap string jsval) : io CallToolResult :=
  listing args "/post-search" (searchPosts_params args)
          DataCleaners.cleanPost "search_posts" true.

Definition getPostComments_params (args : gmap string jsval) : gmap string jsval :=
  let params : gmap string jsval := {[ "post" := prop args "post" ]} in
  let params := copy_if_truthy args "sortBy" params in
  let params := copy_if_truthy args "page" params in
  let params := copy_if_truthy args "paginationToken" params in
  params.

Definition getPostComments (args : gmap string jsval) : io CallToolResult :=
  listing args "/post-comments" (getPostComments_params args)
          DataCleaners.cleanComment "get_post_comments" true.

Definition getPostReactions_params (args : gmap string jsval) : gmap string jsval :=
  let params : gmap string jsval := {[ "post" := prop args "post" ]} in
  let params := copy_if_truthy args "page" params in
  params.

Definition getPostReactions (args : gmap string jsval) : io CallToolResult :=
  listing args "/post-reactions" (getPostReactions_params args)
          DataCleaners.cleanReaction "get_post_reactions" true.

(** *** Group methods *)

Definition getGroup_params (args : gmap string jsval) : gmap string jsval :=
  let params : gmap string jsval := ∅ in
  let params := copy_if_truthy args "url" params in
  let params := copy_if_truthy args "groupId" params in
  params.

Definition getGroup (args : gmap string jsval) : io CallToolResult :=
  let params := getGroup_params args in
  if negb (JS.truthy (prop params "url")) &&
     negb (JS.truthy (prop params "groupId"))
  then throw (Error "At least one of url or groupId is required")
  else single args "/group" params DataCleaners.cleanGroup "get_group".

Definition searchGroups_params (args : gmap string jsval) : gmap string jsval :=
  let params : gmap string jsval := {[ "search" := prop args "search" ]} in
  let params := copy_if_truthy args "page" params in
  params.

Definition searchGroups (args : gmap string jsval) : io CallToolResult :=
  listing args "/group-search" (searchGroups_params args)
          DataCleaners.cleanGroup "search_groups" true.

(** *** Geo ID method *)

Definition searchGeoId_params (args : gmap string jsval) : gmap string jsval :=
  {[ "search" := prop args "search" ]}.

Definition searchGeoId (args : gmap string jsval) : io CallToolResult :=
  listing args "/geo-id-search" (searchGeoId_params args)
          DataCleaners.cleanGeoId "search_geo_id" false.

(** *** The [CallToolRequestSchema] handler *)

(** The [catch] block: an [McpError] is thrown again as it is, any other
    error becomes an internal error. *)
Definition rethrow (error : exn) : io CallToolResult :=
  match error with
  | McpError _ _ => throw error
  | OutOfModel _ => throw error
  | _ => throw (McpError InternalError ("HarvestAPI error: " +:+ exn_message error))
  end.

Definition route (name : string) (args : gmap string jsval) : io CallToolResult :=
  if String.eqb name "get_profile" then getProfile args
  else if String.eqb name "search_profiles" then searchProfiles args
  else if String.eqb name "get_profile_posts" then getProfilePosts args
  else if String.eqb name "get_profile_comments" then getProfileComments args
  else if String.eqb name "get_profile_reactions" then getProfileReactions args
  else if String.eqb name "get_company" then getCompany args
  else if String.eqb name "search_companies" then searchCompanies args
  else if String.eqb name "get_company_posts" then getCompanyPosts args
  else if String.eqb name "get_job" then getJob args
  else if String.eqb name "search_jobs" then searchJobs args
  else if String.eqb name "get_post" then getPost args
  else if String.eqb name "search_posts" then searchPosts args
  else if String.eqb name "get_post_comments" then getPostComments args
  else if String.eqb name "get_post_reactions" then getPostReactions args
  else if String.eqb name "get_group" then getGroup args
  else if String.eqb name "search_groups" then searchGroups args
  else if String.eqb name "search_geo_id" then searchGeoId args
  else throw (McpError MethodNotFound ("Unknown tool: " +:+ name)).

Definition callTool (name : string) (arguments : option (gmap string jsval))
  : io CallToolResult :=
  try_catch
    (match arguments with
     | None => throw (McpError InvalidParams "Missing arguments")
     | Some args => route name args
     end)
    rethrow.

End Server.

(** * Views of the handlers, and examples *)

(** A location is flagged when its [headquarter] field is truthy. *)
Definition flagged (l : jsval) : bool := JS.truthy (JS.field l "headquarter").

(** The selection rule in the specification's words: the first flagged
    location, else the first location, else nothing. *)
Definition select_headquarters (locations : list jsval) : jsval :=
  match List.find flagged locations with
  | Some l => l
  | None =>
      match locations with
      | l0 :: _ => l0
      | [] => JUndef
      end
  end.

(** [hq?.parsed?.text || hq?.city] *)
Definition headquarter_of (hq : jsval) : jsval :=
  JS.or (JS.opt (JS.opt hq "parsed") "text") (JS.opt hq "city").

(** A company with three locations, the second and the third flagged. *)
Definition acme_raw : jsval :=
  JObj [ ("name", JStr "Acme");
         ("locations",
          JArr [ JObj [ ("city", JStr "Lyon") ];
                 JObj [ ("headquarter", JBool true);
                        ("parsed", JObj [ ("text", JStr "Paris, France") ]);
                        ("city", JStr "Paris") ];
                 JObj [ ("headquarter", JBool true); ("city", JStr "Berlin") ] ]) ].

(** Three raw jobs: with a salary text, with a salary range only, without a
    salary. *)
Definition job_with_text : jsval :=
  JObj [ ("title", JStr "Engineer");
         ("salary", JObj [ ("text", JStr "$120K/yr - $150K/yr");
                          ("min", JNum 120000); ("max", JNum 150000) ]) ].

Definition job_with_range : jsval :=
  JObj [ ("title", JStr "Engineer");
         ("salary", JObj [ ("min", JNum 120000); ("max", JNum 150000);
                          ("currency", JStr "USD") ]) ].

Definition job_without_salary : jsval :=
  JObj [ ("title", JStr "Engineer") ].

(** A job whose salary range starts at zero. *)
Definition job_from_zero : jsval :=
  JObj [ ("title", JStr "Volunteer");
         ("salary", JObj [ ("min", JNum 0); ("max", JNum 50000);
                          ("currency", JStr "USD") ]) ].

(** Seven raw positions and the profile of the scenario. *)
Definition position (title : string) : jsval :=
  JObj [ ("position", JStr title); ("companyName", JStr "Microsoft") ].

Definition satya_raw : jsval :=
  JObj [ ("firstName", JStr "Satya");
         ("lastName", JStr "Nadella");
         ("experience",
          JArr [ position "Chairman and CEO"; position "CEO"; position "EVP";
                 position "President"; position "SVP"; position "VP";
                 position "Program Manager" ]) ].

(** Two argument objects agree away from [hidden] when every other argument
    reads the same in both. *)
Definition agree_except (hidden : string) (a b : gmap string jsval) : Prop :=
  forall k : string, k <> hidden -> prop a k = prop b k.

(** The outbound query of each tool. *)
Definition outbound_query (name : string) (args : gmap string jsval)
  : option (string * gmap string jsval) :=
  if String.eqb name "get_profile" then Some ("/profile", getProfile_params args)
  else if String.eqb name "search_profiles" then Some ("/profile-search", searchProfiles_params args)
  else if String.eqb name "get_profile_posts" then Some ("/profile-posts", getProfilePosts_params args)
  else if String.eqb name "get_profile_comments" then Some ("/profile-comments", getProfileComments_params args)
  else if String.eqb name "get_profile_reactions" then Some ("/profile-reactions", getProfileReactions_params args)
  else if String.eqb name "get_company" then Some ("/company", getCompany_params args)
  else if String.eqb name "search_companies" then Some ("/company-search", searchCompanies_params args)
  else if String.eqb name "get_company_posts" then Some ("/company-posts", getCompanyPosts_params args)
  else if String.eqb name "get_job" then Some ("/job", getJob_params args)
  else if String.eqb name "search_jobs" then Some ("/job-search", searchJobs_params args)
  else if String.eqb name "get_post" then Some ("/post", getPost_params args)
  else if String.eqb name "search_posts" then Some ("/post-search", searchPosts_params args)
  else if String.eqb name "get_post_comments" then Some ("/post-comments", getPostComments_params args)
  else if String.eqb name "get_post_reactions" then Some ("/post-reactions", getPostReactions_params args)
  else if String.eqb name "get_group" then Some ("/group", getGroup_params args)
  else if String.eqb name "search_groups" then Some ("/group-search", searchGroups_params args)
  else if String.eqb name "search_geo_id" then Some ("/geo-id-search", searchGeoId_params args)
  else None.

(** The at-least-one-of rule of a tool: the fields and the message. *)
Definition required_one_of (name : string) : option (list string * string) :=
  if String.eqb name "get_profile"
  then Some (["url"; "publicIdentifier"; "profileId"],
             "At least one of url, publicIdentifier, or profileId is required")
  else if String.eqb name "get_profile_posts"
  then Some (["profile"; "profileId"; "profilePublicIdentifier"],
             "At least one of profile, profileId, or profilePublicIdentifier is required")
  else if String.eqb name "get_profile_comments"
  then Some (["profile"; "profileId"], "At least one of profile or profileId is required")
  else if String.eqb name "get_profile_reactions"
  then Some (["profile"; "profileId"], "At least one of profile or profileId is required")
  else if String.eqb name "get_company"
  then Some (["url"; "universalName"; "search"],
             "At least one of url, universalName, or search is required")
  else if String.eqb name "get_company_posts"
  then Some (["company"; "companyId"; "companyUniversalName"],
             "At least one of company, companyId, or companyUniversalName is required")
  else if String.eqb name "get_job"
  then Some (["jobId"; "url"], "At least one of jobId or url is required")
  else if String.eqb name "get_group"
  then Some (["url"; "groupId"], "At least one of url or groupId is required")
  else None.

(** None of the fields of the rule is there. *)
Definition none_present (fields : list string) (args : gmap string jsval) : bool :=
  forallb (fun f => negb (JS.truthy (prop args f))) fields.

(** What a tool makes of the body of the remote reply: the cleaned data and
    the pagination block handed to [formatResponse]. *)
Definition shaped (name : string) (max_items : jsval) (data : jsval)
  : result (jsval * jsval) :=
  let single cleaner :=
    element ← JS.get data "element";
    cleaned ← cleaner element;
    Ok (cleaned, JUndef) in
  let listing cleaner (with_pagination : bool) :=
    elements ← JS.get data "elements";
    cleaned ← bounded_elements max_items 10 elements cleaner;
    Ok (cleaned, if with_pagination then JS.field data "pagination" else JUndef) in
  if String.eqb name "get_profile" then
    element ← JS.get data "element";
    cleaned ← bounded_profile max_items element;
    Ok (cleaned, JUndef)
  else if String.eqb name "search_profiles" then listing DataCleaners.cleanProfileSearchResult true
  else if String.eqb name "get_profile_posts" then listing DataCleaners.cleanPost true
  else if String.eqb name "get_profile_comments" then listing DataCleaners.cleanComment true
  else if String.eqb name "get_profile_reactions" then listing DataCleaners.cleanReaction true
  else if String.eqb name "get_company" then single DataCleaners.cleanCompany
  else if String.eqb name "search_companies" then listing DataCleaners.cleanCompany true
  else if String.eqb name "get_company_posts" then listing DataCleaners.cleanPost true
  else if String.eqb name "get_job" then single DataCleaners.cleanJob
  else if String.eqb name "search_jobs" then listing DataCleaners.cleanJobSearchResult true
  else if String.eqb name "get_post" then single DataCleaners.cleanPost
  else if String.eqb name "search_posts" then listing DataCleaners.cleanPost true
  else if String.eqb name "get_post_comments" then listing DataCleaners.cleanComment true
  else if String.eqb name "get_post_reactions" then listing DataCleaners.cleanReaction true
  else if String.eqb name "get_group" then single DataCleaners.cleanGroup
  else if String.eqb name "search_groups" then listing DataCleaners.cleanGroup true
  else if String.eqb name "search_geo_id" then listing DataCleaners.cleanGeoId false
  else Throw (McpError MethodNotFound ("Unknown tool: " +:+ name)).

(** What [makeRequest] throws for an axios error: the error it composes
    from the status and the message, or the exception of the template
    literal for a status or a message that has no string conversion. *)
Definition axios_failure (response : option (jsval * jsval)) (message : string) : exn :=
  let status := match response with Some (s, _) => s | None => JUndef end in
  let data := match response with Some (_, d) => d | None => JUndef end in
  match JS.to_string (JS.or status (JNum 500)) with
  | Throw e => e
  | Ok statusText =>
      match JS.to_string (JS.or (JS.or (JS.opt data "message") (JS.opt data "error"))
                                (JStr message)) with
      | Throw e => e
      | Ok messageText =>
          Error ("HarvestAPI error (" +:+ statusText +:+ "): " +:+ messageText)
      end
  end.

(** How a request ends. *)
Definition request_outcome (w : World) (endpoint : string) (params : gmap string jsval)
  : result jsval :=
  match api_get w endpoint params with
  | HttpData data => Ok data
  | HttpAxiosError response message => Throw (axios_failure response message)
  | HttpFailure e => Throw e
  end.

(** From the request to the reply. *)
Definition reply (w : World) (name : string) (args : gmap string jsval)
    (endpoint : string) (params : gmap string jsval) : io CallToolResult :=
  data ← makeRequest w endpoint params;
  cp ← lift (shaped name (prop args "max_items") data);
  formatResponse w cp.1
    {| saveDir := prop args "save_dir"; toolName := name; pagination := cp.2 |}.

(** The handlers as a table: the query of the tool, its rule, its reply. *)
Definition route_table (w : World) (name : string) (args : gmap string jsval)
  : io CallToolResult :=
  match outbound_query name args with
  | None => throw (McpError MethodNotFound ("Unknown tool: " +:+ name))
  | Some (endpoint, params) =>
      match required_one_of name with
      | Some (fields, message) =>
          if none_present fields args then throw (Error message)
          else reply w name args endpoint params
      | None => reply w name args endpoint params
      end
  end.

(** The HTTP requests among the events. *)
Definition requests (evs : list event) : list (string * gmap string jsval) :=
  omap (fun ev => match ev with HttpGet ep ps => Some (ep, ps) | _ => None end) evs.

(** [needle] occurs in [hay]. *)
Fixpoint contains (needle hay : string) : bool :=
  String.prefix needle hay ||
  match hay with
  | EmptyString => false
  | String _ rest => contains needle rest
  end.

(** The at-least-one-of rules listed by the specification. *)
Definition disjunction_rules : list (string * list string) :=
  [ ("get_profile", ["url"; "publicIdentifier"; "profileId"]);
    ("get_profile_posts", ["profile"; "profileId"; "profilePublicIdentifier"]);
    ("get_profile_comments", ["profile"; "profileId"]);
    ("get_profile_reactions", ["profile"; "profileId"]);
    ("get_company", ["url"; "universalName"; "search"]);
    ("get_company_posts", ["company"; "companyId"; "companyUniversalName"]);
    ("get_job", ["jobId"; "url"]);
    ("get_group", ["url"; "groupId"]) ].

(** A compact rendering of a value, the encoder of the example world. *)
Fixpoint render (v : jsval) : string :=
  match v with
  | JUndef => "undefined"
  | JNull => "null"
  | JBool true => "true"
  | JBool false => "false"
  | JNum z => pretty z
  | JStr s => "'" +:+ s +:+ "'"
  | JArr l =>
      "[" +:+
      (fix items (l : list jsval) : string :=
         match l with
         | [] => ""
         | [x] => render x
         | x :: rest => render x +:+ "," +:+ items rest
         end) l +:+ "]"
  | JObj fields =>
      "{" +:+
      (fix items (fields : list (string * jsval)) : string :=
         match fields with
         | [] => ""
         | [(k, x)] => k +:+ ":" +:+ render x
         | (k, x) :: rest => k +:+ ":" +:+ render x +:+ "," +:+ items rest
         end) fields +:+ "}"
  end.

(** The envelope of the example world: three elements and a pagination
    block with a token. *)
Definition demo_envelope : jsval :=
  JObj [ ("elements",
          JArr [ JObj [ ("geoId", JStr "105015875"); ("title", JStr "France") ];
                 JObj [ ("geoId", JStr "104246759"); ("title", JStr "Paris") ];
                 JObj [ ("geoId", JStr "103644278"); ("title", JStr "Lyon") ] ]);
         ("pagination",
          JObj [ ("pageNumber", JNum 1); ("totalPages", JNum 4);
                 ("totalElements", JNum 37); ("paginationToken", JStr "next") ]) ].

(** The [path.join] of the example worlds, which pass it strings: the
    directory, a slash and the file name. A directory that is no string, which
    Node refuses, counts as the current one. *)
Definition posix_join (dir : jsval) (file : string) : result string :=
  Ok (match dir with JStr d => d | _ => "." end +:+ "/" +:+ file).

(** A remote API that answers every request with [demo_envelope], and a
    file system that refuses every write. *)
Definition demo_world : World := {|
  api_get := fun _ _ => HttpData demo_envelope;
  exists_sync := fun _ => true;
  mkdir_sync := fun _ => None;
  write_file_sync := fun _ _ => Some (Error "EACCES: permission denied");
  path_join := posix_join;
  now_iso_string := "2024-05-06T07:08:09.123Z";
  json_stringify := render;
  encode := render;
|}.

(** [v === undefined] *)
Definition is_undefined (v : jsval) : bool :=
  match v with JUndef => true | _ => false end.

(** The search-type tools. *)
Definition search_tools : list string :=
  [ "search_profiles"; "search_companies"; "search_posts"; "search_groups";
    "search_geo_id"; "search_jobs" ].

(** The arguments each tool forwards to the remote API. *)
Definition forwarded (name : string) : list string :=
  if String.eqb name "get_profile"
  then ["url"; "publicIdentifier"; "profileId"; "findEmail"; "includeAboutProfile"]
  else if String.eqb name "search_profiles"
  then ["search"; "currentCompany"; "pastCompany"; "school"; "firstName"; "lastName";
        "title"; "location"; "geoId"; "industryId"; "page"]
  else if String.eqb name "get_profile_posts"
  then ["profile"; "profileId"; "profilePublicIdentifier"; "postedLimit"; "page";
        "paginationToken"]
  else if String.eqb name "get_profile_comments"
  then ["profile"; "profileId"; "postedLimit"; "page"; "paginationToken"]
  else if String.eqb name "get_profile_reactions"
  then ["profile"; "profileId"; "page"; "paginationToken"]
  else if String.eqb name "get_company" then ["url"; "universalName"; "search"]
  else if String.eqb name "search_companies"
  then ["search"; "location"; "geoId"; "companySize"; "page"]
  else if String.eqb name "get_company_posts"
  then ["company"; "companyId"; "companyUniversalName"; "postedLimit"; "page";
        "paginationToken"]
  else if String.eqb name "get_job" then ["jobId"; "url"]
  else if String.eqb name "search_jobs"
  then ["search"; "companyId"; "location"; "geoId"; "sortBy"; "workplaceType";
        "employmentType"; "salary"; "postedLimit"; "experienceLevel"; "industryId";
        "functionId"; "under10Applicants"; "easyApply"; "page"]
  else if String.eqb name "get_post" then ["url"]
  else if String.eqb name "search_posts"
  then ["search"; "profile"; "profileId"; "company"; "companyId"; "authorsCompany";
        "authorsCompanyId"; "group"; "postedLimit"; "sortBy"; "page"; "paginationToken"]
  else if String.eqb name "get_post_comments"
  then ["post"; "sortBy"; "page"; "paginationToken"]
  else if String.eqb name "get_post_reactions" then ["post"; "page"]
  else if String.eqb name "get_group" then ["url"; "groupId"]
  else if String.eqb name "search_groups" then ["search"; "page"]
  else if String.eqb name "search_geo_id" then ["search"]
  else [].

(** Every parameter of the query is an argument of the call, with its value. *)
Definition faithful (args params : gmap string jsval) : Prop :=
  forall (k : string) (v : jsval), params !! k = Some v -> prop args k = v.

(** The arguments of the job search of the scenario. *)
Definition salary_search : gmap string jsval :=
  {[ "salary" := JStr "100k+"; "easyApply" := JBool true ]}.

(** The at-least-one-of rule of the tool, if it has one, is satisfied. *)
Definition rule_satisfied (name : string) (args : gmap string jsval) : bool :=
  match required_one_of name with
  | Some (fields, _) => negb (none_present fields args)
  | None => true
  end.

(** The listing tools that hand the pagination block of the envelope to
    [formatResponse]: all of them but [search_geo_id]. *)
Definition paginated_tools : list string :=
  [ "search_profiles"; "get_profile_posts"; "get_profile_comments";
    "get_profile_reactions"; "search_companies"; "get_company_posts";
    "search_jobs"; "search_posts"; "get_post_comments"; "get_post_reactions";
    "search_groups" ].

(** The tool hands the pagination block on. *)
Definition hands_pagination (name : string) : bool :=
  existsb (String.eqb name) paginated_tools.

(** The summary of a pagination block. *)
Definition summary (block : jsval) : jsval :=
  JObj [ ("page", JS.field block "pageNumber");
         ("totalPages", JS.field block "totalPages");
         ("totalElements", JS.field block "totalElements") ].

(** The directory is missing and cannot be created. *)
Definition mkdir_refused (w : World) (e : exn) : Prop :=
  forall dir, exists_sync w dir = false /\ mkdir_sync w dir = Some e.

(** The directory is there or can be created, and the file cannot be
    written. *)
Definition write_refused (w : World) (e : exn) : Prop :=
  (forall dir, exists_sync w dir = true \/ mkdir_sync w dir = None) /\
  (forall dir file, is_ok (path_join w dir file) = true) /\
  (forall path text, write_file_sync w path text = Some e).

(** The note appended to the reply when saving failed with [e]. *)
Definition save_note (e : exn) : string :=
  newline +:+ newline +:+ "[Cleaned data saved to: Error saving: " +:+
  exn_to_string e +:+ "]".

(** A geo-id search whose reply is to be saved. *)
Definition saved_search : gmap string jsval :=
  {[ "search" := JStr "France"; "save_dir" := JStr "/readonly" ]}.

(** ** The tool catalog *)

(** The types the input schemas use. *)
Inductive schema_type : Type := TString | TInteger | TBoolean.

(** A property of an input schema: its name, its type, the values of its
    [enum] (empty when there is none) and its [default] ([undefined] when
    there is none). The descriptions are left out. *)
Record Property : Type := {
  pname : string;
  ptype : schema_type;
  penum : list string;
  pdefault : jsval;
}.

(** A tool of the catalog: its name, the properties of its input schema and
    the [required] list. *)
Record Tool : Type := {
  tname : string;
  properties : list Property;
  required : list string;
}.

Definition p_string (k : string) : Property :=
  {| pname := k; ptype := TString; penum := []; pdefault := JUndef |}.

Definition p_enum (k : string) (values : list string) : Property :=
  {| pname := k; ptype := TString; penum := values; pdefault := JUndef |}.

Definition p_integer (k : string) (d : Z) : Property :=
  {| pname := k; ptype := TInteger; penum := []; pdefault := JNum d |}.

Definition p_boolean (k : string) (d : jsval) : Property :=
  {| pname := k; ptype := TBoolean; penum := []; pdefault := d |}.

(** The [tools] array answered to [ListToolsRequestSchema]. *)
Definition listTools : list Tool :=
  [
    {| tname := "get_profile";
       properties :=
         [ p_string "url";
          p_string "publicIdentifier";
          p_string "profileId";
          p_boolean "findEmail" (JBool false);
          p_boolean "includeAboutProfile" (JBool false);
          p_string "save_dir";
          p_integer "max_items" 5 ];
       required := [] |};
    {| tname := "search_profiles";
       properties :=
         [ p_string "search";
          p_string "currentCompany";
          p_string "pastCompany";
          p_string "school";
          p_string "firstName";
          p_string "lastName";
          p_string "title";
          p_string "location";
          p_string "geoId";
          p_string "industryId";
          p_integer "page" 1;
          p_string "save_dir";
          p_integer "max_items" 10 ];
       required := ["search"] |};
    {| tname := "get_profile_posts";
       properties :=
         [ p_string "profile";
          p_string "profileId";
          p_string "profilePublicIdentifier";
          p_enum "postedLimit" ["24h"; "week"; "month"];
          p_integer "page" 1;
          p_string "paginationToken";
          p_string "save_dir";
          p_integer "max_items" 10 ];
       required := [] |};
    {| tname := "get_profile_comments";
       properties :=
         [ p_string "profile";
          p_string "profileId";
          p_enum "postedLimit" ["24h"; "week"; "month"];
          p_integer "page" 1;
          p_string "paginationToken";
          p_string "save_dir";
          p_integer "max_items" 10 ];
       required := [] |};
    {| tname := "get_profile_reactions";
       properties :=
         [ p_string "profile";
          p_string "profileId";
          p_integer "page" 1;
          p_string "paginationToken";
          p_string "save_dir";
          p_integer "max_items" 10 ];
       required := [] |};
    {| tname := "get_company";
       properties :=
         [ p_string "url";
          p_string "universalName";
          p_string "search";
          p_string "save_dir" ];
       required := [] |};
    {| tname := "search_companies";
       properties :=
         [ p_string "search";
          p_string "location";
          p_string "geoId";
          p_string "companySize";
          p_integer "page" 1;
          p_string "save_dir";
          p_integer "max_items" 10 ];
       required := ["search"] |};
    {| tname := "get_company_posts";
       properties :=
         [ p_string "company";
          p_string "companyId";
          p_string "companyUniversalName";
          p_enum "postedLimit" ["24h"; "week"; "month"];
          p_integer "page" 1;
          p_string "paginationToken";
          p_string "save_dir";
          p_integer "max_items" 10 ];
       required := [] |};
    {| tname := "get_job";
       properties :=
         [ p_string "jobId";
          p_string "url";
          p_string "save_dir" ];
       required := [] |};
    {| tname := "search_jobs";
       properties :=
         [ p_string "search";
          p_string "companyId";
          p_string "location";
          p_string "geoId";
          p_enum "sortBy" ["relevance"; "date"];
          p_enum "workplaceType" ["office"; "hybrid"; "remote"];
          p_enum "employmentType" ["full-time"; "part-time"; "contract"; "temporary"; "volunteer"; "internship"];
          p_string "salary";
          p_enum "postedLimit" ["24h"; "week"; "month"];
          p_enum "experienceLevel" ["internship"; "entry"; "associate"; "mid-senior"; "director"; "executive"];
          p_string "industryId";
          p_string "functionId";
          p_boolean "under10Applicants" JUndef;
          p_boolean "easyApply" JUndef;
          p_integer "page" 1;
          p_string "save_dir";
          p_integer "max_items" 10 ];
       required := [] |};
    {| tname := "get_post";
       properties :=
         [ p_string "url";
          p_string "save_dir" ];
       required := ["url"] |};
    {| tname := "search_posts";
       properties :=
         [ p_string "search";
          p_string "profile";
          p_string "profileId";
          p_string "company";
          p_string "companyId";
          p_string "authorsCompany";
          p_string "authorsCompanyId";
          p_string "group";
          p_enum "postedLimit" ["24h"; "week"; "month"];
          p_enum "sortBy" ["relevance"; "date"];
          p_integer "page" 1;
          p_string "paginationToken";
          p_string "save_dir";
          p_integer "max_items" 10 ];
       required := [] |};
    {| tname := "get_post_comments";
       properties :=
         [ p_string "post";
          p_enum "sortBy" ["relevance"; "date"];
          p_integer "page" 1;
          p_string "paginationToken";
          p_string "save_dir";
          p_integer "max_items" 10 ];
       required := ["post"] |};
    {| tname := "get_post_reactions";
       properties :=
         [ p_string "post";
          p_integer "page" 1;
          p_string "save_dir";
          p_integer "max_items" 10 ];
       required := ["post"] |};
    {| tname := "get_group";
       properties :=
         [ p_string "url";
          p_string "groupId";
          p_string "save_dir" ];
       required := [] |};
    {| tname := "search_groups";
       properties :=
         [ p_string "search";
          p_integer "page" 1;
          p_string "save_dir";
          p_integer "max_items" 10 ];
       required := ["search"] |};
    {| tname := "search_geo_id";
       properties :=
         [ p_string "search";
          p_string "save_dir";
          p_integer "max_items" 10 ];
       required := ["search"] |} ].

(** ** The constructor *)

(** [process.env.k]: the value of the variable, [undefined] when unset. *)
Definition env_var (env : gmap string string) (k : string) : jsval :=
  match env !! k with
  | Some s => JStr s
  | None => JUndef
  end.

(** [this.apiKey = process.env.HARVESTAPI_API_KEY || process.env.LINKEDIN_API_KEY || ''] *)
Definition resolve_apiKey (env : gmap string string) : jsval :=
  JS.or (JS.or (env_var env "HARVESTAPI_API_KEY") (env_var env "LINKEDIN_API_KEY"))
        (JStr "").



(** The headers [makeRequest] puts in the configuration of a request:
    [if (this.apiKey && config.headers) config.headers['X-API-Key'] = this.apiKey;] *)
Definition request_headers (apiKey : jsval) : gmap string jsval :=
  let headers : gmap string jsval := ∅ in
  if JS.truthy apiKey then <["X-API-Key" := apiKey]> headers else headers.

(** ** Views used by the further properties *)

(** The tool of the catalog with a given name. *)
Definition find_tool (name : string) : option Tool :=
  List.find (fun t => String.eqb name (tname t)) listTools.

(** The names of the properties the catalog declares for a tool. *)
Definition declared (name : string) : list string :=
  match find_tool name with
  | Some t => map pname (properties t)
  | None => []
  end.


(** The file system lets the reply be saved: the directory is there or can
    be created, the path can be built and the file can be written. *)
Definition save_accepted (w : World) : Prop :=
  (forall dir, exists_sync w dir = true \/ mkdir_sync w dir = None) /\
  (forall dir file, exists path, path_join w dir file = Ok path /\ path <> "") /\
  (forall path text, write_file_sync w path text = None).

(** The name of the file a reply is saved to. *)
Definition save_filename (w : World) (tool : string) : string :=
  tool +:+ "_" +:+ JS.dash_colons_dots (now_iso_string w) +:+ ".json".

(** No element of the list is null or undefined. *)
Definition no_nullish (l : list jsval) : bool :=
  forallb (fun x => negb (JS.is_nullish x)) l.





(** The locations up to the first flagged one, which is the last. *)
Fixpoint until_flagged (l : list jsval) : list jsval :=
  match l with
  | [] => []
  | x :: rest => if flagged x then [x] else x :: until_flagged rest
  end.

(** An exception raised by the JavaScript engine in the shaping code: a
    [TypeError], or a conversion outside the embedding. *)
Definition js_fault (e : exn) : Prop :=
  match e with
  | TypeError _ | OutOfModel _ => True
  | _ => False
  end.

(** The code raises engine faults only. *)
Definition faults_only {A : Type} (r : result A) : Prop :=
  match r with
  | Ok _ => True
  | Throw e => js_fault e
  end.

(** A world in which every save succeeds. *)
Definition saving_world : World := {|
  api_get := fun _ _ => HttpData demo_envelope;
  exists_sync := fun _ => false;
  mkdir_sync := fun _ => None;
  write_file_sync := fun _ _ => None;
  path_join := posix_join;
  now_iso_string := "2024-05-06T07:08:09.123Z";
  json_stringify := render;
  encode := render;
|}.

(** A remote API that refuses every request with a 404 response. *)
Definition failing_world : World := {|
  api_get := fun _ _ =>
    HttpAxiosError (Some (JNum 404, JObj [ ("message", JStr "Profile not found") ]))
                   "Request failed with status code 404";
  exists_sync := fun _ => true;
  mkdir_sync := fun _ => None;
  write_file_sync := fun _ _ => None;
  path_join := posix_join;
  now_iso_string := "2024-05-06T07:08:09.123Z";
  json_stringify := render;
  encode := render;
|}.


(** The HTTP client throws plain errors and TypeErrors only: no [McpError]
    of its own. *)
Definition client_errors_plain (w : World) : Prop :=
  forall endpoint params e,
    api_get w endpoint params = HttpFailure e ->
    match e with Error _ | TypeError _ => True | _ => False end.

(** The single-entity tools. *)
Definition single_tools : list string :=
  [ "get_profile"; "get_company"; "get_job"; "get_post"; "get_group" ].

Definition is_single (name : string) : bool :=
  existsb (String.eqb name) single_tools.

(** A remote API that answers every request with an empty object. *)
Definition empty_world : World := {|
  api_get := fun _ _ => HttpData (JObj []);
  exists_sync := fun _ => true;
  mkdir_sync := fun _ => None;
  write_file_sync := fun _ _ => None;
  path_join := posix_join;
  now_iso_string := "2024-05-06T07:08:09.123Z";
  json_stringify := render;
  encode := render;
|}.

(** The fields the catalog requires for a tool. *)
Definition required_keys (name : string) : list string :=
  match find_tool name with
  | Some t => required t
  | None => []
  end.

(** The string starts, or ends, with white space. *)
Definition starts_with_space (s : string) : bool :=
  JS.space_ahead JS.is_space2 JS.is_space3 s.

Definition ends_with_space (s : string) : bool :=
  JS.space_ahead JS.is_space2_rev JS.is_space3_rev (JS.rev_string s).

(** White space of two or three bytes has no space among its bytes. *)
Definition spaceless (p2 : ascii -> ascii -> bool) (p3 : ascii -> ascii -> ascii -> bool)
  : Prop :=
  (forall c, p2 c " "%char = false) /\
  (forall c c', p3 c " "%char c' = false) /\
  (forall c c', p3 c c' " "%char = false).

(** A name as the remote API gives it: a non-empty string without white
    space around it. *)
Definition clean_name (s : string) : Prop :=
  s <> "" /\ starts_with_space s = false /\ ends_with_space s = false.

(** The value of the first of the variables that is set to a non-empty
    string. *)
Fixpoint first_set (env : gmap string string) (names : list string) : option string :=
  match names with
  | [] => None
  | k :: rest =>
      match env !! k with
      | Some s => if String.eqb s "" then first_set env rest else Some s
      | None => first_set env rest
      end
  end.

(** An argument that never goes into a query. *)
Definition is_local (k : string) : bool :=
  String.eqb k "save_dir" || String.eqb k "max_items".

(** The string holds no dash. *)
Definition dashless (s : string) : bool :=
  forallb (fun c => negb (Ascii.eqb c "-")) (list_ascii_of_string s).

(** * Properties *)

(** ** The error monad *)

Lemma result_bind_ok {A B : Type} (m : result A) (f : A -> result B) (b : B) :
  m ≫= f = Ok b -> exists a, m = Ok a /\ f a = Ok b.
Proof.
  destruct m as [a|e]; simpl; [eauto | discriminate].
Qed.

Lemma map_result_length {A B : Type} (f : A -> result B) (l : list A) (l' : list B) :
  map_result f l = Ok l' -> length l' = length l.
Proof.
  revert l'; induction l as [|x l IH]; intros l' H; simpl in H.
  - injection H as <-; reflexivity.
  - apply result_bind_ok in H as (y & _ & H).
    apply result_bind_ok in H as (ys & Hys & H).
    injection H as <-; simpl; f_equal; eauto.
Qed.

Lemma map_result_lookup {A B : Type} (f : A -> result B) (l : list A) (l' : list B)
    (i : nat) (x : A) :
  map_result f l = Ok l' -> l !! i = Some x -> exists y, l' !! i = Some y /\ f x = Ok y.
Proof.
  revert l' i; induction l as [|a l IH]; intros l' i H Hi; [discriminate|].
  simpl in H.
  apply result_bind_ok in H as (y & Hy & H).
  apply result_bind_ok in H as (ys & Hys & H).
  injection H as <-.
  destruct i as [|i]; simpl in *.
  - injection Hi as ->; eauto.
  - eauto.
Qed.

Lemma map_result_succeeds {A B : Type} (f : A -> result B) (l : list A) :
  Forall (fun x => is_ok (f x) = true) l -> exists l', map_result f l = Ok l'.
Proof.
  induction 1 as [|x l Hx _ [l' IH]]; simpl; [eauto|].
  destruct (f x) as [y|e]; [|discriminate]; simpl.
  rewrite IH; simpl; eauto.
Qed.

(** ** Company and job projections *)

Lemma flagged_truthy (l : jsval) : flagged l = true -> JS.truthy l = true.
Proof.
  unfold flagged; destruct l; simpl; intros; try discriminate; reflexivity.
Qed.

Lemma get_field (v : jsval) (k : string) :
  JS.is_nullish v = false -> JS.get v k = Ok (JS.field v k).
Proof.
  intros H; unfold JS.get; rewrite H; reflexivity.
Qed.

Lemma find_result_flagged (ls : list jsval) :
  Forall (fun l => JS.is_nullish l = false) ls ->
  find_result (fun l => h ← JS.get l "headquarter"; Ok (JS.truthy h)) ls
  = Ok (match List.find flagged ls with Some l => l | None => JUndef end).
Proof.
  induction 1 as [|l ls Hl _ IH]; simpl; [reflexivity|].
  rewrite (get_field l "headquarter" Hl); simpl.
  fold (flagged l). destruct (flagged l); [reflexivity | exact IH].
Qed.

Lemma headquarters_entry_array (raw : jsval) (ls : list jsval) :
  JS.field raw "locations" = JArr ls ->
  Forall (fun l => JS.is_nullish l = false) ls ->
  DataCleaners.headquarters_entry raw = Ok (select_headquarters ls).
Proof.
  intros Hloc Hls. unfold DataCleaners.headquarters_entry, select_headquarters.
  rewrite Hloc; simpl. rewrite (find_result_flagged ls Hls); simpl.
  destruct (List.find flagged ls) as [l|] eqn:Hfind.
  - apply find_some in Hfind as [_ Hfl].
    unfold JS.or; rewrite (flagged_truthy l Hfl); reflexivity.
  - destruct ls; reflexivity.
Qed.

(** C7. [cleanCompany] picks the headquarters among the raw locations: the
    first location whose [headquarter] flag is set, else the first location of
    the list; the shaped [headquarter] field is read off that entry
    ([parsed.text], else [city]). When the locations are absent or the list is
    empty, the shaped [headquarter] field is [undefined]. *)
Theorem cleanCompany_headquarter (raw : jsval) :
  JS.truthy raw = true ->
  (forall ls : list jsval,
      JS.field raw "locations" = JArr ls ->
      Forall (fun l => JS.is_nullish l = false) ls ->
      exists fields,
        DataCleaners.cleanCompany raw = Ok (JObj fields) /\
        JS.assoc "headquarter" fields
        = headquarter_of (select_headquarters ls)) /\
  (JS.field raw "locations" = JUndef \/ JS.field raw "locations" = JArr [] ->
   exists fields,
     DataCleaners.cleanCompany raw = Ok (JObj fields) /\
     JS.assoc "headquarter" fields = JUndef).
Proof.
  intros Hraw; split.
  - intros ls Hloc Hls. unfold DataCleaners.cleanCompany. rewrite Hraw; simpl.
    rewrite (headquarters_entry_array raw ls Hloc Hls); simpl.
    eexists; split; reflexivity.
  - intros Hloc. unfold DataCleaners.cleanCompany, DataCleaners.headquarters_entry.
    rewrite Hraw; simpl.
    destruct Hloc as [-> | ->]; simpl; eexists; split; reflexivity.
Qed.

Lemma cleanCompany_headquarter_witness :
  (exists fields,
      DataCleaners.cleanCompany acme_raw = Ok (JObj fields) /\
      JS.assoc "headquarter" fields = JStr "Paris, France") /\
  (exists fields,
      DataCleaners.cleanCompany (JObj [ ("name", JStr "Acme") ]) = Ok (JObj fields) /\
      JS.assoc "headquarter" fields = JUndef).
Proof.
  split.
  - destruct (cleanCompany_headquarter acme_raw eq_refl) as [H _].
    refine (H _ eq_refl _).
    repeat constructor.
  - destruct (cleanCompany_headquarter (JObj [ ("name", JStr "Acme") ]) eq_refl) as [_ H].
    exact (H (or_introl eq_refl)).
Defined.

(** C8 (amended). [cleanJob] derives the shaped salary from the
    pre-formatted [salary.text] when that is truthy; otherwise, when
    [salary.min] and [salary.max] are both truthy, from the renderings of
    the minimum, the maximum and the currency (the empty string when there is
    none) composed into [<min>-<max> <currency>]; otherwise, and so whenever
    the minimum or the maximum is [0], the shaped salary is [null]. *)
Theorem cleanJob_salary (raw : jsval) :
  JS.truthy raw = true ->
  let salary := JS.field raw "salary" in
  (JS.truthy (JS.opt salary "text") = true ->
   exists fields,
     DataCleaners.cleanJob raw = Ok (JObj fields) /\
     JS.assoc "salary" fields = JS.opt salary "text") /\
  (JS.truthy (JS.opt salary "text") = false ->
   JS.truthy (JS.opt salary "min") = true ->
   JS.truthy (JS.opt salary "max") = true ->
   forall lowest highest currency : string,
     JS.to_string (JS.opt salary "min") = Ok lowest ->
     JS.to_string (JS.opt salary "max") = Ok highest ->
     JS.to_string (JS.or (JS.opt salary "currency") (JStr "")) = Ok currency ->
     exists fields,
       DataCleaners.cleanJob raw = Ok (JObj fields) /\
       JS.assoc "salary" fields
       = JStr (lowest +:+ "-" +:+ highest +:+ " " +:+ currency)) /\
  (JS.truthy (JS.opt salary "text") = false ->
   JS.truthy (JS.opt salary "min") = false \/ JS.truthy (JS.opt salary "max") = false ->
   exists fields,
     DataCleaners.cleanJob raw = Ok (JObj fields) /\
     JS.assoc "salary" fields = JNull).
Proof.
  intros Hraw salary. unfold DataCleaners.cleanJob, DataCleaners.job_salary.
  rewrite Hraw. fold salary. cbv beta iota delta [negb].
  split; [|split].
  - intros Ht. rewrite Ht. simpl. eexists; split; reflexivity.
  - intros Ht Hmin Hmax lowest highest currency Hlo Hhi Hcur. rewrite Ht.
    unfold JS.and. rewrite Hmin, Hmax.
    assert (Hs : JS.is_nullish salary = false).
    { destruct salary; try reflexivity; discriminate Hmin. }
    unfold JS.opt in Hlo, Hhi, Hcur. rewrite Hs in Hlo, Hhi, Hcur.
    rewrite Hlo, Hhi, Hcur. simpl. eexists; split; reflexivity.
  - intros Ht Hmm. rewrite Ht. unfold JS.and.
    destruct (JS.truthy (JS.opt salary "min")) eqn:Hmin.
    + destruct Hmm as [Hmm|Hmm]; [discriminate|]. rewrite Hmm.
      simpl. eexists; split; reflexivity.
    + rewrite Hmin. simpl. eexists; split; reflexivity.
Qed.

Lemma cleanJob_salary_witness :
  (exists fields, DataCleaners.cleanJob job_with_text = Ok (JObj fields) /\
                  JS.assoc "salary" fields = JStr "$120K/yr - $150K/yr") /\
  (exists fields, DataCleaners.cleanJob job_with_range = Ok (JObj fields) /\
                  JS.assoc "salary" fields = JStr "120000-150000 USD") /\
  (exists fields, DataCleaners.cleanJob job_without_salary = Ok (JObj fields) /\
                  JS.assoc "salary" fields = JNull).
Proof.
  split; [|split].
  - destruct (cleanJob_salary job_with_text eq_refl) as (H & _ & _).
    exact (H eq_refl).
  - destruct (cleanJob_salary job_with_range eq_refl) as (_ & H & _).
    exact (H eq_refl eq_refl eq_refl "120000" "150000" "USD" eq_refl eq_refl eq_refl).
  - destruct (cleanJob_salary job_without_salary eq_refl) as (_ & _ & H).
    exact (H eq_refl (or_introl eq_refl)).
Defined.

(** C8, as stated, fails for a range that starts at zero: the minimum and
    the maximum are both there (neither is null or undefined) and there is no
    pre-formatted text, yet the shaped salary is [null], not the composed
    string. *)
Lemma cleanJob_salary_zero_minimum_counterexample :
  let salary := JS.field job_from_zero "salary" in
  JS.opt salary "text" = JUndef /\
  JS.opt salary "min" = JNum 0 /\
  JS.opt salary "max" = JNum 50000 /\
  exists fields,
    DataCleaners.cleanJob job_from_zero = Ok (JObj fields) /\
    JS.assoc "salary" fields = JNull /\
    JS.assoc "salary" fields <> JStr "0-50000 USD".
Proof.
  repeat split. eexists. split; [reflexivity|]. split; [reflexivity | discriminate].
Qed.

(** ** Bounding *)

Lemma slice0_nonneg {A : Type} (l : list A) (e : Z) :
  0 <= e -> JS.slice0 l e = take (Z.to_nat e) l.
Proof.
  intros He. unfold JS.slice0.
  destruct (Z.ltb_spec e 0); [lia | reflexivity].
Qed.

Lemma bounded_elements_take (cleaner : jsval -> result jsval) (els : list jsval)
    (m d : Z) :
  1 <= m ->
  bounded_elements (JNum m) d (JArr els) cleaner
  = l' ← map_result cleaner (take (Z.to_nat m) els); Ok (JArr l').
Proof.
  intros Hm. unfold bounded_elements, JS.or; simpl.
  destruct (Z.eqb_spec m 0); [lia|]; simpl.
  rewrite slice0_nonneg by lia. reflexivity.
Qed.


(** C4 (amended). Shaping [N] raw items under a requested maximum [M >= 1]
    gives exactly [min N M] shaped items, the [i]-th of which is the cleaning
    of the [i]-th raw item (a prefix, in the remote order); and a profile with
    seven positions, shaped without a requested maximum, keeps five of them. *)
Theorem bounded_elements_min (cleaner : jsval -> result jsval) (els : list jsval)
    (m d : Z) :
  1 <= m ->
  Forall (fun x => is_ok (cleaner x) = true) els ->
  (exists shaped,
      bounded_elements (JNum m) d (JArr els) cleaner = Ok (JArr shaped) /\
      length shaped = Nat.min (length els) (Z.to_nat m) /\
      (forall (i : nat) (x : jsval),
          els !! i = Some x -> (i < Z.to_nat m)%nat ->
          exists y, shaped !! i = Some y /\ cleaner x = Ok y)) /\
  (exists fields experience,
      bounded_profile JUndef satya_raw = Ok (JObj fields) /\
      JS.assoc "name" fields = JStr "Satya Nadella" /\
      JS.assoc "experience" fields = JArr experience /\
      length experience = 5%nat).
Proof.
  intros Hm Hok; split.
  - rewrite bounded_elements_take by exact Hm.
    destruct (map_result_succeeds cleaner (take (Z.to_nat m) els)) as [shaped Hs].
    { apply Forall_take; exact Hok. }
    exists shaped. rewrite Hs; simpl. split; [reflexivity|]. split.
    + rewrite (map_result_length _ _ _ Hs), length_take. lia.
    + intros i x Hi Hlt.
      apply (map_result_lookup _ _ _ i x Hs).
      rewrite lookup_take_lt by exact Hlt. exact Hi.
  - vm_compute. do 2 eexists. repeat split; reflexivity.
Qed.

Lemma bounded_elements_min_witness :
  exists shaped,
    bounded_elements (JNum 2) 10
      (JArr [ JObj [ ("geoId", JStr "102095887"); ("title", JStr "California") ];
              JObj [ ("geoId", JStr "90000070"); ("title", JStr "Bay Area") ];
              JObj [ ("geoId", JStr "103644278"); ("title", JStr "United States") ] ])
      DataCleaners.cleanGeoId = Ok (JArr shaped) /\
    length shaped = 2%nat.
Proof.
  destruct (bounded_elements_min DataCleaners.cleanGeoId
              [ JObj [ ("geoId", JStr "102095887"); ("title", JStr "California") ];
                JObj [ ("geoId", JStr "90000070"); ("title", JStr "Bay Area") ];
                JObj [ ("geoId", JStr "103644278"); ("title", JStr "United States") ] ]
              2 10 ltac:(lia) ltac:(repeat constructor))
    as [(shaped & Hs & Hlen & _) _].
  exists shaped; split; [exact Hs | exact Hlen].
Defined.

(** C4, as stated, fails at [M = 0]: three raw items shaped under a requested
    maximum of zero give three shaped items, not [min 3 0 = 0]. *)
Lemma bounded_elements_zero_counterexample :
  exists shaped,
    bounded_elements (JNum 0) 10
      (JArr [ JObj [ ("geoId", JStr "102095887") ];
              JObj [ ("geoId", JStr "90000070") ];
              JObj [ ("geoId", JStr "103644278") ] ])
      DataCleaners.cleanGeoId = Ok (JArr shaped) /\
    length shaped = 3%nat /\
    length shaped <> Nat.min 3 (Z.to_nat 0).
Proof.
  eexists; split; [vm_compute; reflexivity|].
  split; [reflexivity | discriminate].
Qed.

(** ** Arguments that a handler cannot tell apart *)

Lemma prop_insert_ne (args : gmap string jsval) (k k' : string) (v : jsval) :
  k <> k' -> prop (<[k := v]> args) k' = prop args k'.
Proof.
  intros Hne. unfold prop. rewrite lookup_insert_ne by exact Hne. reflexivity.
Qed.

Lemma prop_insert_eq (args : gmap string jsval) (k : string) (v : jsval) :
  prop (<[k := v]> args) k = v.
Proof.
  unfold prop. rewrite lookup_insert_eq. reflexivity.
Qed.

Lemma prop_delete_ne (args : gmap string jsval) (k k' : string) :
  k <> k' -> prop (delete k args) k' = prop args k'.
Proof.
  intros Hne. unfold prop. rewrite lookup_delete_ne by exact Hne. reflexivity.
Qed.

Lemma prop_delete_eq (args : gmap string jsval) (k : string) :
  prop (delete k args) k = JUndef.
Proof.
  unfold prop. rewrite lookup_delete_eq. reflexivity.
Qed.

Lemma agree_insert_delete (hidden : string) (v : jsval) (args : gmap string jsval) :
  agree_except hidden (<[hidden := v]> args) (delete hidden args).
Proof.
  intros k Hk. rewrite prop_insert_ne, prop_delete_ne by congruence. reflexivity.
Qed.


Lemma copy_if_truthy_agree (a b : gmap string jsval) (k : string)
    (p q : gmap string jsval) :
  prop a k = prop b k -> p = q -> copy_if_truthy a k p = copy_if_truthy b k q.
Proof.
  intros Hk ->. unfold copy_if_truthy. rewrite Hk. reflexivity.
Qed.

Lemma copy_if_defined_agree (a b : gmap string jsval) (k : string)
    (p q : gmap string jsval) :
  prop a k = prop b k -> p = q -> copy_if_defined a k p = copy_if_defined b k q.
Proof.
  intros Hk ->. unfold copy_if_defined. rewrite Hk. reflexivity.
Qed.

Ltac unfold_params :=
  unfold getProfile_params, searchProfiles_params, getProfilePosts_params,
    getProfileComments_params, getProfileReactions_params, getCompany_params,
    searchCompanies_params, getCompanyPosts_params, getJob_params,
    searchJobs_params, getPost_params, searchPosts_params,
    getPostComments_params, getPostReactions_params, getGroup_params,
    searchGroups_params, searchGeoId_params.

Ltac split_route name :=
  repeat match goal with
         | |- context [String.eqb name ?s] => destruct (String.eqb name s)
         end.

(** No tool forwards [max_items] or [save_dir]: the query is the same for
    argument objects that differ there only. *)
Lemma outbound_query_agree (hidden : string) (name : string) (a b : gmap string jsval) :
  hidden = "max_items" \/ hidden = "save_dir" ->
  agree_except hidden a b ->
  outbound_query name a = outbound_query name b.
Proof.
  intros Hh Hab. unfold outbound_query. split_route name; try reflexivity;
    f_equal; f_equal; unfold_params;
    repeat first
      [ apply copy_if_truthy_agree
      | apply copy_if_defined_agree
      | reflexivity
      | (apply Hab; destruct Hh as [-> | ->]; discriminate)
      | (f_equal; apply Hab; destruct Hh as [-> | ->]; discriminate) ].
Qed.

(** ** A tabular view of the handlers *)

Lemma prop_empty (k : string) : prop ∅ k = JUndef.
Proof. reflexivity. Qed.

Lemma truthy_prop_copy_if_truthy (args p : gmap string jsval) (k k' : string) :
  JS.truthy (prop (copy_if_truthy args k p) k')
  = if String.eqb k k' then JS.truthy (prop args k) || JS.truthy (prop p k')
    else JS.truthy (prop p k').
Proof.
  unfold copy_if_truthy.
  destruct (String.eqb_spec k k') as [<- | Hne].
  - destruct (JS.truthy (prop args k)) eqn:Ht; [|reflexivity].
    rewrite prop_insert_eq, Ht. reflexivity.
  - destruct (JS.truthy (prop args k)); [|reflexivity].
    rewrite prop_insert_ne by exact Hne. reflexivity.
Qed.

Ltac eval_eqb :=
  repeat match goal with
         | |- context [String.eqb ?a ?b] =>
             let r := eval vm_compute in (String.eqb a b) in
             match r with
             | true => change (String.eqb a b) with true
             | false => change (String.eqb a b) with false
             end
         end;
  cbv beta iota.

(** Case analysis on the name of the tool, one tool at a time. *)
Ltac by_tool name tac :=
  repeat match goal with
         | |- context [String.eqb name ?s] =>
             destruct (String.eqb_spec name s) as [-> | ?]; [ eval_eqb; tac | ]
         end.

Arguments prop : simpl never.
Arguments formatResponse : simpl never.
Arguments bounded_elements : simpl never.
Arguments bounded_profile : simpl never.

Ltac unfold_handlers :=
  unfold getProfile, searchProfiles, getProfilePosts, getProfileComments,
    getProfileReactions, getCompany, searchCompanies, getCompanyPosts, getJob,
    searchJobs, getPost, searchPosts, getPostComments, getPostReactions,
    getGroup, searchGroups, searchGeoId.

Ltac reply_cases w :=
  unfold listing, single, reply, shaped, makeRequest, emit, throw, lift;
  eval_eqb;
  match goal with
  | |- context [api_get w ?ep ?ps] => destruct (api_get w ep ps) as [data|response message|e]
  end; simpl; try reflexivity;
  repeat match goal with
         | |- context [match ?r with Ok _ => _ | Throw _ => _ end] =>
             destruct r; simpl; try reflexivity
         end;
  try match goal with
      | |- context [formatResponse w ?c ?o] =>
          destruct (formatResponse w c o) as [? ?]; reflexivity
      end.

Ltac validation_eq :=
  unfold none_present; unfold_params; cbv zeta; simpl forallb;
  rewrite !truthy_prop_copy_if_truthy; eval_eqb;
  rewrite ?prop_empty; simpl JS.truthy;
  rewrite ?orb_false_r, ?andb_true_r, ?andb_assoc;
  reflexivity.

Ltac same_validation :=
  cbv zeta;
  try match goal with
      | |- (if ?c then _ else _) = (if ?c' then _ else _) =>
          replace c with c' by (symmetry; validation_eq);
          destruct c'; [reflexivity|]
      end.

Lemma route_route_table (w : World) (name : string) (args : gmap string jsval) :
  route w name args = route_table w name args.
Proof.
  unfold route, route_table, outbound_query, required_one_of.
  by_tool name ltac:(unfold_handlers; same_validation; reply_cases w).
  reflexivity.
Qed.

(** ** Events of a call *)

Lemma makeRequest_outcome (w : World) (endpoint : string) (params : gmap string jsval) :
  makeRequest w endpoint params
  = ([HttpGet endpoint params], request_outcome w endpoint params).
Proof.
  unfold makeRequest, request_outcome, axios_failure, emit, throw, lift.
  destruct (api_get w endpoint params) as [data|response message|e]; simpl;
    try reflexivity.
  destruct (JS.to_string _) as [statusText|e]; simpl; [|reflexivity].
  destruct (JS.to_string _) as [messageText|e]; reflexivity.
Qed.

Lemma saveData_ok (w : World) (data dir : jsval) (tool : string) :
  exists evs path, saveData w data dir tool = (evs, Ok path) /\ requests evs = [].
Proof.
  unfold saveData, try_catch, emit, throw, lift.
  destruct (exists_sync w dir); simpl.
  - destruct (path_join w dir _) as [filepath|e]; simpl; [|eauto].
    destruct (write_file_sync w filepath _); simpl; eauto.
  - destruct (mkdir_sync w dir); simpl; [eauto|].
    destruct (path_join w dir _) as [filepath|e]; simpl; [|eauto].
    destruct (write_file_sync w filepath _); simpl; eauto.
Qed.

Lemma formatResponse_ok (w : World) (cleaned : jsval) (options : FormatOptions) :
  exists evs r, formatResponse w cleaned options = (evs, Ok r) /\ requests evs = [].
Proof.
  unfold formatResponse.
  destruct (JS.truthy (saveDir options) && negb (String.eqb (toolName options) "")).
  - destruct (saveData_ok w (format_output cleaned (pagination options))
                (saveDir options) (toolName options)) as (evs & path & -> & Hevs).
    simpl. do 2 eexists; split; [reflexivity|].
    rewrite app_nil_r. exact Hevs.
  - simpl. eauto.
Qed.

Lemma reply_requests (w : World) (name : string) (args : gmap string jsval)
    (endpoint : string) (params : gmap string jsval) :
  requests (reply w name args endpoint params).1 = [(endpoint, params)].
Proof.
  unfold reply. rewrite makeRequest_outcome. unfold lift.
  destruct (request_outcome w endpoint params) as [data|e]; simpl;
    try reflexivity.
  destruct (shaped name (prop args "max_items") data) as [cp|e]; simpl;
    [|reflexivity].
  destruct (formatResponse_ok w cp.1
              {| saveDir := prop args "save_dir"; toolName := name; pagination := cp.2 |})
    as (evs & r & -> & Hevs).
  simpl. rewrite Hevs. reflexivity.
Qed.

Lemma try_catch_rethrow_events (m : io CallToolResult) :
  (try_catch m rethrow).1 = m.1.
Proof.
  destruct m as [evs [r|e]]; simpl; [reflexivity|].
  destruct e; simpl; rewrite ?app_nil_r; reflexivity.
Qed.

(** A call issues at most one request: none when the tool is unknown or its
    at-least-one-of rule fails, else the outbound query of the tool. *)
Lemma callTool_requests (w : World) (name : string) (args : gmap string jsval) :
  requests (callTool w name (Some args)).1
  = match outbound_query name args, required_one_of name with
    | None, _ => []
    | Some q, Some (fields, _) => if none_present fields args then [] else [q]
    | Some q, None => [q]
    end.
Proof.
  unfold callTool. rewrite try_catch_rethrow_events, route_route_table.
  unfold route_table.
  destruct (outbound_query name args) as [[endpoint params]|]; [|reflexivity].
  destruct (required_one_of name) as [[fields message]|].
  - destruct (none_present fields args); [reflexivity | apply reply_requests].
  - apply reply_requests.
Qed.

Lemma reply_first_event (w : World) (name : string) (args : gmap string jsval)
    (endpoint : string) (params : gmap string jsval) :
  exists evs r, reply w name args endpoint params = (HttpGet endpoint params :: evs, r).
Proof.
  unfold reply. rewrite makeRequest_outcome. unfold lift.
  destruct (request_outcome w endpoint params) as [data|e]; simpl; eauto.
  destruct (shaped name (prop args "max_items") data) as [cp|e]; simpl; eauto.
  destruct (formatResponse w cp.1 _) as [evs r]; eauto.
Qed.

Lemma try_catch_first_event (m : io CallToolResult) (ev : event) (evs : list event)
    (r : result CallToolResult) :
  m = (ev :: evs, r) -> exists r', try_catch m rethrow = (ev :: evs, r').
Proof.
  intros ->. destruct r as [a|e]; simpl; [eauto|].
  destruct e; simpl; rewrite ?app_nil_r; eauto.
Qed.

(** ** Validation *)

(** C1 (amended). For every tool with an at-least-one-of rule, a call in
    which none of the fields of the rule is there (truthy) fails before any
    request, with the internal-error code and the message [HarvestAPI error:
    At least one of ... is required], which names every field of the rule; a
    call in which one of them is there passes validation and issues the
    request of the tool. *)
Theorem disjunction_rule (w : World) (name : string) (fields : list string)
    (args : gmap string jsval) :
  In (name, fields) disjunction_rules ->
  (none_present fields args = true ->
   exists message,
     callTool w name (Some args)
     = ([], Throw (McpError InternalError ("HarvestAPI error: " +:+ message))) /\
     String.prefix "At least one of " message = true /\
     Forall (fun f => contains f message = true) fields) /\
  (none_present fields args = false ->
   exists endpoint params evs r,
     outbound_query name args = Some (endpoint, params) /\
     callTool w name (Some args) = (HttpGet endpoint params :: evs, r)).
Proof.
  intros Hin.
  assert (Hrule : exists message endpoint params,
             required_one_of name = Some (fields, message) /\
             outbound_query name args = Some (endpoint, params) /\
             String.prefix "At least one of " message = true /\
             Forall (fun f => contains f message = true) fields).
  { simpl in Hin.
    repeat destruct Hin as [Hin | Hin]; try contradiction;
      injection Hin as <- <-; do 3 eexists;
      (split; [reflexivity|]); (split; [reflexivity|]);
      (split; [reflexivity|]); repeat constructor. }
  destruct Hrule as (message & endpoint & params & Hreq & Hq & Hpre & Hnames).
  unfold callTool. rewrite route_route_table. unfold route_table.
  rewrite Hq, Hreq. split; intros Hnone; rewrite Hnone.
  - exists message. split; [reflexivity|]. split; assumption.
  - destruct (reply_first_event w name args endpoint params) as (evs & r & Hreply).
    destruct (try_catch_first_event _ _ _ _ Hreply) as [r' Hr'].
    exists endpoint, params, evs, r'. split; [reflexivity | exact Hr'].
Qed.

Lemma disjunction_rule_witness :
  (exists message,
      callTool demo_world "get_company" (Some {[ "save_dir" := JStr "/tmp" ]})
      = ([], Throw (McpError InternalError ("HarvestAPI error: " +:+ message))) /\
      String.prefix "At least one of " message = true /\
      Forall (fun f => contains f message = true) ["url"; "universalName"; "search"]) /\
  (exists endpoint params evs r,
      outbound_query "get_job" {[ "jobId" := JStr "4012345678" ]} = Some (endpoint, params) /\
      callTool demo_world "get_job" (Some {[ "jobId" := JStr "4012345678" ]})
      = (HttpGet endpoint params :: evs, r)).
Proof.
  split.
  - destruct (disjunction_rule demo_world "get_company" ["url"; "universalName"; "search"]
                {[ "save_dir" := JStr "/tmp" ]}) as [H _].
    + simpl; tauto.
    + apply H. vm_compute. reflexivity.
  - destruct (disjunction_rule demo_world "get_job" ["jobId"; "url"]
                {[ "jobId" := JStr "4012345678" ]}) as [_ H].
    + simpl; tauto.
    + apply H. vm_compute. reflexivity.
Defined.

(** C1, as stated, fails on the error code: [get_profile] called with none of
    its three fields does not fail with the invalid-params code. *)
Lemma disjunction_code_counterexample :
  none_present ["url"; "publicIdentifier"; "profileId"] ∅ = true /\
  callTool demo_world "get_profile" (Some ∅)
  = ([], Throw (McpError InternalError
                  "HarvestAPI error: At least one of url, publicIdentifier, or profileId is required")) /\
  ~ (exists message,
        (callTool demo_world "get_profile" (Some ∅)).2
        = Throw (McpError InvalidParams message)).
Proof.
  split; [reflexivity|]. split; [vm_compute; reflexivity|].
  intros [message H]. vm_compute in H. discriminate H.
Qed.

(** ** Outbound queries *)

Lemma lookup_copy_if_truthy (args p : gmap string jsval) (k k' : string) :
  copy_if_truthy args k p !! k'
  = if String.eqb k k' && JS.truthy (prop args k) then Some (prop args k) else p !! k'.
Proof.
  unfold copy_if_truthy.
  destruct (String.eqb_spec k k') as [<- | Hne]; simpl.
  - destruct (JS.truthy (prop args k)); [apply lookup_insert_eq | reflexivity].
  - destruct (JS.truthy (prop args k)); [apply lookup_insert_ne; exact Hne | reflexivity].
Qed.

Lemma lookup_copy_if_defined (args p : gmap string jsval) (k k' : string) :
  copy_if_defined args k p !! k'
  = if String.eqb k k' && negb (is_undefined (prop args k))
    then Some (prop args k) else p !! k'.
Proof.
  unfold copy_if_defined.
  destruct (String.eqb_spec k k') as [<- | Hne]; simpl.
  - destruct (prop args k); simpl; try apply lookup_insert_eq; reflexivity.
  - destruct (prop args k); simpl; try (apply lookup_insert_ne; exact Hne); reflexivity.
Qed.

Lemma lookup_singleton_prop (k k' : string) (v : jsval) :
  ({[ k := v ]} : gmap string jsval) !! k' = if String.eqb k k' then Some v else None.
Proof.
  destruct (String.eqb_spec k k') as [<- | Hne].
  - apply lookup_singleton_eq.
  - apply lookup_singleton_ne; exact Hne.
Qed.

(** Rewrites a lookup in the parameters of a tool into a chain of tests. *)
Ltac lookup_params :=
  unfold_params; cbv zeta;
  repeat first
    [ rewrite lookup_copy_if_truthy
    | rewrite lookup_copy_if_defined
    | rewrite lookup_singleton_prop
    | rewrite lookup_empty ].

(** C2 (amended). A search tool called with a search text (truthy) issues
    one request, whose query carries that text unchanged under [search].
    [search_jobs] and [search_posts] called with an empty or absent search text
    pass validation too: they issue their request, without a [search]
    parameter. *)
Theorem search_text_forwarded (w : World) (name : string) (args : gmap string jsval) :
  In name search_tools ->
  (JS.truthy (prop args "search") = true ->
   exists endpoint params,
     requests (callTool w name (Some args)).1 = [(endpoint, params)] /\
     params !! "search" = Some (prop args "search")) /\
  (name = "search_jobs" \/ name = "search_posts" ->
   JS.truthy (prop args "search") = false ->
   exists endpoint params,
     requests (callTool w name (Some args)).1 = [(endpoint, params)] /\
     params !! "search" = None).
Proof.
  intros Hin. rewrite callTool_requests. simpl in Hin. split.
  - intros Ht.
    repeat destruct Hin as [<- | Hin]; try contradiction;
      do 2 eexists; (split; [reflexivity|]);
      lookup_params; eval_eqb; cbv beta iota delta [andb]; rewrite ?Ht; reflexivity.
  - intros Hname Hf.
    destruct Hname as [-> | ->];
      do 2 eexists; (split; [reflexivity|]);
      lookup_params; eval_eqb; cbv beta iota delta [andb]; rewrite ?Hf; reflexivity.
Qed.

Lemma search_text_forwarded_witness :
  (exists endpoint params,
      requests (callTool demo_world "search_geo_id"
                  (Some {[ "search" := JStr "San Francisco" ]})).1
      = [(endpoint, params)] /\
      params !! "search" = Some (JStr "San Francisco")) /\
  (exists endpoint params,
      requests (callTool demo_world "search_jobs"
                  (Some {[ "search" := JStr ""; "geoId" := JStr "90000084" ]})).1
      = [(endpoint, params)] /\
      params !! "search" = None).
Proof.
  split.
  - destruct (search_text_forwarded demo_world "search_geo_id"
                {[ "search" := JStr "San Francisco" ]}) as [H _].
    + simpl; tauto.
    + exact (H eq_refl).
  - destruct (search_text_forwarded demo_world "search_jobs"
                {[ "search" := JStr ""; "geoId" := JStr "90000084" ]}) as [_ H].
    + simpl; tauto.
    + exact (H (or_introl eq_refl) eq_refl).
Defined.

(** C2, as stated, fails: [search_jobs] called without a search text does
    not fail validation; it issues its request and replies. *)
Lemma search_jobs_without_text_counterexample :
  prop (∅ : gmap string jsval) "search" = JUndef /\
  requests (callTool demo_world "search_jobs" (Some ∅)).1 = [("/job-search", ∅)] /\
  is_ok (callTool demo_world "search_jobs" (Some ∅)).2 = true.
Proof.
  split; [reflexivity|]. split; vm_compute; reflexivity.
Qed.

(** C3 (evaluation at the failing input). [get_post_comments] called
    without [post] performs no validation: whatever the remote API, it issues
    the request to [/post-comments], with [post] set to [undefined]; so do
    [get_post_reactions] and, for [url], [get_post]. *)
Theorem post_reference_not_validated (w : World) :
  requests (callTool w "get_post_comments" (Some ∅)).1
  = [("/post-comments", {[ "post" := JUndef ]})] /\
  requests (callTool w "get_post_reactions" (Some ∅)).1
  = [("/post-reactions", {[ "post" := JUndef ]})] /\
  requests (callTool w "get_post" (Some ∅)).1
  = [("/post", {[ "url" := JUndef ]})].
Proof.
  rewrite !callTool_requests. repeat split.
Qed.

Lemma faithful_empty (args : gmap string jsval) : faithful args ∅.
Proof.
  intros k v H. rewrite lookup_empty in H. discriminate.
Qed.

Lemma faithful_singleton (args : gmap string jsval) (k : string) :
  faithful args {[ k := prop args k ]}.
Proof.
  intros k' v H. rewrite lookup_singleton_prop in H.
  destruct (String.eqb_spec k k') as [<- | _]; [|discriminate].
  injection H as <-. reflexivity.
Qed.

Lemma faithful_copy_if_truthy (args p : gmap string jsval) (k : string) :
  faithful args p -> faithful args (copy_if_truthy args k p).
Proof.
  intros Hp k' v H. rewrite lookup_copy_if_truthy in H.
  destruct (String.eqb_spec k k') as [<- | _]; simpl in H; [|eauto].
  destruct (JS.truthy (prop args k)); [|eauto].
  injection H as <-. reflexivity.
Qed.

Lemma faithful_copy_if_defined (args p : gmap string jsval) (k : string) :
  faithful args p -> faithful args (copy_if_defined args k p).
Proof.
  intros Hp k' v H. rewrite lookup_copy_if_defined in H.
  destruct (String.eqb_spec k k') as [<- | _]; simpl in H; [|eauto].
  destruct (negb (is_undefined (prop args k))); [|eauto].
  injection H as <-. reflexivity.
Qed.

Create HintDb faithful.
#[local] Hint Resolve faithful_empty faithful_singleton faithful_copy_if_truthy
  faithful_copy_if_defined : faithful.

Lemma outbound_query_faithful (name endpoint : string) (args params : gmap string jsval) :
  outbound_query name args = Some (endpoint, params) -> faithful args params.
Proof.
  unfold outbound_query.
  by_tool name ltac:(intros [= <- <-]; unfold_params; cbv zeta; auto 20 with faithful).
  discriminate.
Qed.

Lemma outbound_query_forwards (name endpoint k : string) (args params : gmap string jsval) :
  outbound_query name args = Some (endpoint, params) ->
  In k (forwarded name) ->
  JS.truthy (prop args k) = true ->
  params !! k = Some (prop args k).
Proof.
  unfold outbound_query, forwarded.
  by_tool name ltac:(
    intros [= <- <-] Hin Ht; simpl in Hin;
    repeat destruct Hin as [<- | Hin]; try contradiction;
    lookup_params; eval_eqb; cbv beta iota delta [andb]; rewrite ?Ht;
    try reflexivity;
    destruct (prop args "easyApply"); try discriminate Ht; reflexivity).
  discriminate.
Qed.

Lemma outbound_query_relevant (name endpoint k : string) (args params : gmap string jsval) :
  outbound_query name args = Some (endpoint, params) ->
  params !! k <> None ->
  In k (forwarded name).
Proof.
  unfold outbound_query, forwarded.
  by_tool name ltac:(
    intros [= <- <-]; lookup_params;
    repeat match goal with
           | |- context [String.eqb ?s k] =>
               destruct (String.eqb_spec s k) as [<- | ?];
               [simpl; tauto|]; cbv beta iota delta [andb]
           end;
    intros H; contradiction H; reflexivity).
  discriminate.
Qed.

(** C5 (amended). The query of every request carries arguments of the call
    only, under their own names and with the caller's values: a parameter is
    one of the arguments the tool forwards and has the value the caller
    supplied, so that an absent argument is never sent with an empty-string or
    default placeholder; and every forwarded argument supplied with a truthy
    value (a non-empty string, a non-zero number, [true]) is in the query. *)
Theorem forwarded_arguments (w : World) (name endpoint : string)
    (args params : gmap string jsval) :
  In (endpoint, params) (requests (callTool w name (Some args)).1) ->
  (forall (k : string) (v : jsval),
      params !! k = Some v -> In k (forwarded name) /\ prop args k = v) /\
  (forall (k : string) (v : jsval),
      args !! k = None -> params !! k = Some v -> v = JUndef) /\
  (forall k : string,
      In k (forwarded name) -> JS.truthy (prop args k) = true ->
      params !! k = Some (prop args k)).
Proof.
  intros Hin. rewrite callTool_requests in Hin.
  assert (Hq : outbound_query name args = Some (endpoint, params)).
  { destruct (outbound_query name args) as [q|]; [|contradiction].
    destruct (required_one_of name) as [[fields message]|].
    - destruct (none_present fields args); [contradiction|].
      destruct Hin as [-> | []]; reflexivity.
    - destruct Hin as [-> | []]; reflexivity. }
  split; [|split].
  - intros k v Hk. split.
    + apply (outbound_query_relevant name endpoint k args params Hq). congruence.
    + exact (outbound_query_faithful name endpoint args params Hq k v Hk).
  - intros k v Habsent Hk.
    rewrite <- (outbound_query_faithful name endpoint args params Hq k v Hk).
    unfold prop. rewrite Habsent. reflexivity.
  - intros k Hk Ht.
    exact (outbound_query_forwards name endpoint k args params Hq Hk Ht).
Qed.

Lemma forwarded_arguments_witness :
  In ("/job-search", salary_search)
     (requests (callTool demo_world "search_jobs" (Some salary_search)).1) /\
  salary_search !! "salary" = Some (JStr "100k+") /\
  salary_search !! "easyApply" = Some (JBool true) /\
  (forall v : jsval, salary_search !! "search" = Some v -> v = JUndef).
Proof.
  assert (Hin : In ("/job-search", salary_search)
                   (requests (callTool demo_world "search_jobs" (Some salary_search)).1)).
  { rewrite callTool_requests. left. reflexivity. }
  destruct (forwarded_arguments demo_world "search_jobs" "/job-search"
              salary_search salary_search Hin) as (_ & Habsent & Hfwd).
  split; [exact Hin|]. split; [|split].
  - apply (Hfwd "salary"); [simpl; tauto | reflexivity].
  - apply (Hfwd "easyApply"); [simpl; tauto | reflexivity].
  - intros v. apply Habsent. reflexivity.
Defined.

(** C5, as stated, fails: [location] is supplied as an empty string and
    [page] as [0] to [search_profiles], and neither is forwarded. *)
Lemma supplied_not_forwarded_counterexample :
  let args : gmap string jsval :=
    {[ "search" := JStr "cto"; "location" := JStr ""; "page" := JNum 0 ]} in
  args !! "location" = Some (JStr "") /\
  args !! "page" = Some (JNum 0) /\
  In "location" (forwarded "search_profiles") /\
  In "page" (forwarded "search_profiles") /\
  requests (callTool demo_world "search_profiles" (Some args)).1
  = [("/profile-search", {[ "search" := JStr "cto" ]})] /\
  ({[ "search" := JStr "cto" ]} : gmap string jsval) !! "location" = None /\
  ({[ "search" := JStr "cto" ]} : gmap string jsval) !! "page" = None.
Proof.
  cbv zeta. repeat split; try (vm_compute; reflexivity); simpl; tauto.
Qed.

(** ** Success of a call *)

Lemma route_table_reply (w : World) (name endpoint : string)
    (args params : gmap string jsval) :
  outbound_query name args = Some (endpoint, params) ->
  rule_satisfied name args = true ->
  route_table w name args = reply w name args endpoint params.
Proof.
  intros Hq Hrule. unfold route_table, rule_satisfied in *. rewrite Hq.
  destruct (required_one_of name) as [[fields message]|]; [|reflexivity].
  destruct (none_present fields args); [discriminate | reflexivity].
Qed.

Lemma try_catch_ok {A : Type} (m : io A) (h : exn -> io A) (evs : list event) (a : A) :
  m = (evs, Ok a) -> try_catch m h = (evs, Ok a).
Proof.
  intros ->. reflexivity.
Qed.

Lemma try_catch_rethrow_ok_inv (m : io CallToolResult) (evs : list event)
    (r : CallToolResult) :
  try_catch m rethrow = (evs, Ok r) -> m = (evs, Ok r).
Proof.
  destruct m as [evs0 [a|e]]; simpl; [trivial|].
  destruct e; simpl; discriminate.
Qed.

Lemma callTool_ok_intro (w : World) (name endpoint : string)
    (args params : gmap string jsval) (data cleaned block : jsval)
    (evs : list event) (r : CallToolResult) :
  outbound_query name args = Some (endpoint, params) ->
  rule_satisfied name args = true ->
  api_get w endpoint params = HttpData data ->
  shaped name (prop args "max_items") data = Ok (cleaned, block) ->
  formatResponse w cleaned
    {| saveDir := prop args "save_dir"; toolName := name; pagination := block |}
  = (evs, Ok r) ->
  callTool w name (Some args) = (HttpGet endpoint params :: evs, Ok r).
Proof.
  intros Hq Hrule Hget Hshaped Hformat.
  unfold callTool. apply try_catch_ok.
  rewrite route_route_table, (route_table_reply w name endpoint args params Hq Hrule).
  unfold reply, makeRequest, emit, lift. rewrite Hget; simpl.
  rewrite Hshaped; simpl. rewrite Hformat. reflexivity.
Qed.

Lemma callTool_ok_inv (w : World) (name : string) (args : gmap string jsval)
    (evs : list event) (r : CallToolResult) :
  callTool w name (Some args) = (evs, Ok r) ->
  exists endpoint params data cleaned block evs',
    outbound_query name args = Some (endpoint, params) /\
    rule_satisfied name args = true /\
    api_get w endpoint params = HttpData data /\
    shaped name (prop args "max_items") data = Ok (cleaned, block) /\
    formatResponse w cleaned
      {| saveDir := prop args "save_dir"; toolName := name; pagination := block |}
    = (evs', Ok r) /\
    evs = HttpGet endpoint params :: evs'.
Proof.
  unfold callTool. intros H. apply try_catch_rethrow_ok_inv in H.
  rewrite route_route_table in H. unfold route_table, rule_satisfied in *.
  destruct (outbound_query name args) as [[endpoint params]|]; [|discriminate H].
  assert (Hreply : reply w name args endpoint params = (evs, Ok r) /\
                   match required_one_of name with
                   | Some (fields, _) => negb (none_present fields args)
                   | None => true
                   end = true).
  { destruct (required_one_of name) as [[fields message]|]; [|auto].
    destruct (none_present fields args); [discriminate H | auto]. }
  clear H. destruct Hreply as [H Hrule].
  unfold reply in H. rewrite makeRequest_outcome in H.
  unfold request_outcome, lift in H.
  destruct (api_get w endpoint params) as [data|response message|e] eqn:Hget;
    simpl in H; try discriminate H.
  destruct (shaped name (prop args "max_items") data) as [[cleaned block]|e] eqn:Hs;
    simpl in H; [|discriminate H].
  destruct (formatResponse w cleaned _) as [evs' r'] eqn:Hf.
  injection H as <- ->.
  exists endpoint, params, data, cleaned, block, evs'. repeat split; assumption.
Qed.

(** ** Pagination summary *)

Lemma shaped_pagination (name : string) (max_items data cleaned block : jsval) :
  shaped name max_items data = Ok (cleaned, block) ->
  block = if hands_pagination name then JS.field data "pagination" else JUndef.
Proof.
  unfold shaped, hands_pagination, paginated_tools.
  by_tool name ltac:(
    simpl; intros H;
    apply result_bind_ok in H as (? & _ & H);
    apply result_bind_ok in H as (? & _ & H);
    injection H as _ <-; reflexivity).
  discriminate.
Qed.

Lemma append_empty_r (s : string) : s +:+ "" = s.
Proof.
  induction s as [|c s IH]; [reflexivity|].
  change (String c (s +:+ "") = String c s). f_equal. exact IH.
Qed.

Lemma formatResponse_text (w : World) (cleaned : jsval) (options : FormatOptions) :
  exists evs note,
    formatResponse w cleaned options
    = (evs, Ok {| content_text :=
                    encode w (format_output cleaned (pagination options)) +:+ note |}) /\
    requests evs = [].
Proof.
  unfold formatResponse.
  destruct (JS.truthy (saveDir options) && negb (String.eqb (toolName options) "")).
  - destruct (saveData_ok w (format_output cleaned (pagination options))
                (saveDir options) (toolName options)) as (evs & path & -> & Hevs).
    simpl. rewrite app_nil_r.
    destruct (String.eqb path ""); simpl.
    + exists evs, "". rewrite append_empty_r. auto.
    + eexists evs, _. split; [reflexivity | exact Hevs].
  - simpl. exists [], "". rewrite append_empty_r. auto.
Qed.

(** C9 (amended). The output of [formatResponse] for a pagination block
    that is there is the data with a summary of exactly three fields, the page
    number, the total pages and the total elements of the block, and no
    pagination token; without a block the output holds the data only. Every
    listing tool other than [search_geo_id] hands the pagination block of the
    envelope to [formatResponse]; [search_geo_id] and the single-entity tools
    hand it no block. The reply encodes that output. *)
Theorem pagination_summary (w : World) (name endpoint : string)
    (args params : gmap string jsval) (data cleaned block : jsval) :
  outbound_query name args = Some (endpoint, params) ->
  rule_satisfied name args = true ->
  api_get w endpoint params = HttpData data ->
  shaped name (prop args "max_items") data = Ok (cleaned, block) ->
  block = (if hands_pagination name then JS.field data "pagination" else JUndef) /\
  (exists evs note,
      callTool w name (Some args)
      = (HttpGet endpoint params :: evs,
         Ok {| content_text := encode w (format_output cleaned block) +:+ note |})) /\
  (JS.truthy block = true ->
   format_output cleaned block = JObj [ ("data", cleaned); ("pagination", summary block) ] /\
   JS.field (summary block) "page" = JS.field block "pageNumber" /\
   JS.field (summary block) "totalPages" = JS.field block "totalPages" /\
   JS.field (summary block) "totalElements" = JS.field block "totalElements" /\
   JS.field (summary block) "paginationToken" = JUndef) /\
  (JS.truthy block = false ->
   format_output cleaned block = JObj [ ("data", cleaned) ] /\
   JS.field (format_output cleaned block) "pagination" = JUndef).
Proof.
  intros Hq Hrule Hget Hshaped.
  split; [exact (shaped_pagination _ _ _ _ _ Hshaped)|].
  split; [|split].
  - destruct (formatResponse_text w cleaned
                {| saveDir := prop args "save_dir"; toolName := name; pagination := block |})
      as (evs & note & Hf & _).
    exists evs, note.
    exact (callTool_ok_intro w name endpoint args params data cleaned block evs _
             Hq Hrule Hget Hshaped Hf).
  - intros Ht. unfold format_output. rewrite Ht. repeat split.
  - intros Ht. unfold format_output. rewrite Ht. split; reflexivity.
Qed.

Lemma pagination_summary_witness :
  exists evs note cleaned,
    callTool demo_world "search_jobs" (Some salary_search)
    = (HttpGet "/job-search" salary_search :: evs,
       Ok {| content_text :=
               render (JObj [ ("data", cleaned);
                              ("pagination",
                               JObj [ ("page", JNum 1); ("totalPages", JNum 4);
                                      ("totalElements", JNum 37) ]) ]) +:+ note |}).
Proof.
  edestruct (pagination_summary demo_world "search_jobs" "/job-search"
               salary_search salary_search demo_envelope)
    as (Hblock & (evs & note & Hcall) & Hsummary & _).
  - reflexivity.
  - reflexivity.
  - reflexivity.
  - vm_compute. reflexivity.
  - destruct (Hsummary eq_refl) as (Hout & _). rewrite Hout in Hcall.
    exists evs, note.
    match type of Hcall with context [("data", ?c)] => exists c end.
    exact Hcall.
Defined.

(** C9, as stated, fails for [search_geo_id]: the envelope carries a
    pagination block, and the reply holds the data only. *)
Lemma search_geo_id_pagination_counterexample :
  JS.truthy (JS.field demo_envelope "pagination") = true /\
  callTool demo_world "search_geo_id" (Some {[ "search" := JStr "France" ]})
  = ([HttpGet "/geo-id-search" {[ "search" := JStr "France" ]}],
     Ok {| content_text :=
             "{data:[{geoId:'105015875',title:'France'},{geoId:'104246759',title:'Paris'},{geoId:'103644278',title:'Lyon'}]}" |}).
Proof.
  split; vm_compute; reflexivity.
Qed.

(** ** Arguments the handlers do not forward *)

Lemma rule_satisfied_agree (hidden name : string) (a b : gmap string jsval) :
  hidden = "max_items" \/ hidden = "save_dir" ->
  agree_except hidden a b ->
  rule_satisfied name a = rule_satisfied name b.
Proof.
  intros Hh Hab. unfold rule_satisfied, required_one_of.
  by_tool name ltac:(
    unfold none_present; simpl forallb;
    repeat match goal with
           | |- context [prop a ?k] =>
               rewrite (Hab k) by (destruct Hh as [-> | ->]; discriminate)
           end;
    reflexivity).
  reflexivity.
Qed.

Lemma route_table_by_rule (w : World) (name : string) (args : gmap string jsval) :
  route_table w name args
  = match outbound_query name args with
    | None => throw (McpError MethodNotFound ("Unknown tool: " +:+ name))
    | Some (endpoint, params) =>
        if rule_satisfied name args then reply w name args endpoint params
        else match required_one_of name with
             | Some (_, message) => throw (Error message)
             | None => reply w name args endpoint params
             end
    end.
Proof.
  unfold route_table, rule_satisfied.
  destruct (outbound_query name args) as [[endpoint params]|]; [|reflexivity].
  destruct (required_one_of name) as [[fields message]|]; [|reflexivity].
  destruct (none_present fields args); reflexivity.
Qed.

(** A call does not change when [max_items] is replaced by a value that
    shapes every reply in the same way. *)
Lemma io_bind_ext {A B : Type} (m : io A) (f g : A -> io B) :
  (forall a, f a = g a) -> m ≫= f = m ≫= g.
Proof.
  intros Hfg. destruct m as [evs [a|e]]; [|reflexivity].
  change ((let '(evs', r) := f a in ((evs ++ evs')%list, r))
          = (let '(evs', r) := g a in ((evs ++ evs')%list, r))).
  rewrite Hfg. reflexivity.
Qed.



Lemma array_map_ok (v : jsval) (f : jsval -> result jsval) (x : jsval) :
  array_map v f = Ok x -> exists l, x = JArr l.
Proof.
  destruct v; try discriminate. simpl. intros H.
  apply result_bind_ok in H as (l' & _ & H). injection H as <-. eauto.
Qed.

Lemma cleanProfile_shape (raw : jsval) (fields : list (string * jsval)) :
  DataCleaners.cleanProfile raw = Ok (JObj fields) ->
  exists (base : list (string * jsval)) (exp edu skills certs : list jsval),
    base = firstn 15 fields /\
    fields = (base ++ [ ("experience", JArr exp); ("education", JArr edu);
                        ("skills", JArr skills); ("certifications", JArr certs) ])%list /\
    map fst base = [ "id"; "publicIdentifier"; "linkedinUrl"; "name"; "headline"; "about";
                     "location"; "photo"; "premium"; "influencer"; "verified";
                     "openToWork"; "hiring"; "connections"; "followers" ].
Proof.
  unfold DataCleaners.cleanProfile.
  destruct (negb (JS.truthy raw)); [discriminate|]. intros H.
  apply result_bind_ok in H as (exp & Hexp & H).
  apply result_bind_ok in H as (edu & Hedu & H).
  apply result_bind_ok in H as (skills & Hskills & H).
  apply result_bind_ok in H as (certs & Hcerts & H).
  apply result_bind_ok in H as (firstName & _ & H).
  apply result_bind_ok in H as (lastName & _ & H).
  apply array_map_ok in Hexp as [l1 ->]. apply array_map_ok in Hedu as [l2 ->].
  apply array_map_ok in Hskills as [l3 ->]. apply array_map_ok in Hcerts as [l4 ->].
  injection H as <-.
  eexists _, l1, l2, l3, l4. split; [reflexivity|]. split; reflexivity.
Qed.

Lemma bounded_profile_cut (max_items raw : jsval) (m : Z)
    (fields : list (string * jsval)) :
  1 <= m ->
  JS.or max_items (JNum 5) = JNum m ->
  DataCleaners.cleanProfile raw = Ok (JObj fields) ->
  exists fields',
    bounded_profile max_items raw = Ok (JObj fields') /\
    (forall k, In k ["experience"; "education"; "skills"; "certifications"] ->
               exists l, JS.assoc k fields = JArr l /\
                         JS.assoc k fields' = JArr (take (Z.to_nat m) l)) /\
    (forall k, ~ In k ["experience"; "education"; "skills"; "certifications"] ->
               JS.assoc k fields' = JS.assoc k fields).
Proof.
  intros Hm Hor Hclean.
  destruct (cleanProfile_shape raw fields Hclean)
    as (base & exp & edu & skills & certs & _ & -> & Hkeys).
  destruct base as [|[k1 v1] [|[k2 v2] [|[k3 v3] [|[k4 v4] [|[k5 v5] [|[k6 v6] [|[k7 v7]
    [|[k8 v8] [|[k9 v9] [|[k10 v10] [|[k11 v11] [|[k12 v12] [|[k13 v13] [|[k14 v14]
    [|[k15 v15] [|? ?]]]]]]]]]]]]]]]]; try discriminate Hkeys.
  injection Hkeys as -> -> -> -> -> -> -> -> -> -> -> -> -> -> ->.
  unfold bounded_profile. rewrite Hclean, Hor. simpl.
  unfold slice_field; simpl. rewrite !slice0_nonneg by lia.
  eexists. split; [reflexivity|]. split.
  - intros k Hk. simpl in Hk.
    repeat destruct Hk as [<- | Hk]; try contradiction; eexists; split; reflexivity.
  - intros k Hk. simpl in Hk. simpl.
    repeat match goal with
           | |- context [String.eqb k ?s] =>
               destruct (String.eqb_spec k s) as [-> | ?]; [try reflexivity; tauto|]
           end.
    reflexivity.
Qed.





(** ** Persistence failure *)

Lemma saveData_refused (w : World) (data dir : jsval) (tool : string) (e : exn) :
  mkdir_refused w e \/ write_refused w e ->
  exists evs,
    saveData w data dir tool = (evs, Ok ("Error saving: " +:+ exn_to_string e)) /\
    requests evs = [].
Proof.
  intros [Hmk | (Hdir & Hjoin & Hwrite)]; unfold saveData, try_catch, emit, throw, lift.
  - destruct (Hmk dir) as [-> ->]; simpl. eauto.
  - assert (Hpath : forall file, exists path, path_join w dir file = Ok path).
    { intros file. specialize (Hjoin dir file).
      destruct (path_join w dir file); [eauto | discriminate]. }
    destruct (exists_sync w dir) eqn:Hex; simpl.
    + destruct (Hpath (tool +:+ "_" +:+ JS.dash_colons_dots (now_iso_string w) +:+ ".json"))
        as [path ->]; simpl.
      rewrite Hwrite; simpl. eauto.
    + destruct (Hdir dir) as [Hd | ->]; [congruence|]; simpl.
      destruct (Hpath (tool +:+ "_" +:+ JS.dash_colons_dots (now_iso_string w) +:+ ".json"))
        as [path ->]; simpl.
      rewrite Hwrite; simpl. eauto.
Qed.

Lemma formatResponse_refused (w : World) (cleaned : jsval) (options : FormatOptions)
    (e : exn) :
  JS.truthy (saveDir options) = true ->
  toolName options <> "" ->
  mkdir_refused w e \/ write_refused w e ->
  exists evs,
    formatResponse w cleaned options
    = (evs, Ok {| content_text :=
                    encode w (format_output cleaned (pagination options)) +:+ save_note e |}) /\
    requests evs = [].
Proof.
  intros Hdir Htool Hfs. unfold formatResponse. rewrite Hdir.
  destruct (String.eqb_spec (toolName options) "") as [|_]; [contradiction|]; simpl.
  destruct (saveData_refused w (format_output cleaned (pagination options))
              (saveDir options) (toolName options) e Hfs) as (evs & -> & Hevs).
  exists evs. simpl. rewrite app_nil_r. split; [reflexivity | exact Hevs].
Qed.

Lemma formatResponse_unsaved (w : World) (cleaned : jsval) (options : FormatOptions) :
  JS.truthy (saveDir options) = false ->
  formatResponse w cleaned options
  = ([], Ok {| content_text := encode w (format_output cleaned (pagination options)) |}).
Proof.
  intros Hdir. unfold formatResponse. rewrite Hdir. reflexivity.
Qed.

Lemma outbound_query_known (name : string) (args : gmap string jsval) :
  outbound_query name args <> None -> name <> "".
Proof.
  intros H ->. apply H. reflexivity.
Qed.

Lemma reply_throw_agree (w : World) (name endpoint : string)
    (a b params : gmap string jsval) (evs : list event) (x : exn) :
  prop a "max_items" = prop b "max_items" ->
  reply w name b endpoint params = (evs, Throw x) ->
  reply w name a endpoint params = (evs, Throw x).
Proof.
  intros Hmax. unfold reply. rewrite makeRequest_outcome. unfold lift. rewrite Hmax.
  destruct (request_outcome w endpoint params) as [data|e]; simpl;
    try (intros H; exact H).
  destruct (shaped name (prop b "max_items") data) as [cp|e]; simpl;
    [|intros H; exact H].
  destruct (formatResponse_ok w cp.1
              {| saveDir := prop b "save_dir"; toolName := name; pagination := cp.2 |})
    as (evs' & r & -> & _).
  discriminate.
Qed.

Lemma route_throw_save_dir (w : World) (name : string) (args : gmap string jsval)
    (evs : list event) (x : exn) :
  route w name (delete "save_dir" args) = (evs, Throw x) ->
  route w name args = (evs, Throw x).
Proof.
  assert (Hab : agree_except "save_dir" args (delete "save_dir" args)).
  { intros k Hk. rewrite prop_delete_ne by congruence. reflexivity. }
  rewrite !route_route_table, !route_table_by_rule.
  rewrite (outbound_query_agree "save_dir" name _ _ (or_intror eq_refl) Hab).
  rewrite (rule_satisfied_agree "save_dir" name _ _ (or_intror eq_refl) Hab).
  assert (Hreply : forall endpoint params,
             reply w name (delete "save_dir" args) endpoint params = (evs, Throw x) ->
             reply w name args endpoint params = (evs, Throw x)).
  { intros endpoint params. apply reply_throw_agree. apply Hab. discriminate. }
  destruct (outbound_query name (delete "save_dir" args)) as [[endpoint params]|];
    [|trivial].
  destruct (rule_satisfied name (delete "save_dir" args)); [apply Hreply|].
  destruct (required_one_of name) as [[fields message]|]; [trivial | apply Hreply].
Qed.

(** C6. When the caller asks for the reply to be saved and the directory
    cannot be created or the file cannot be written, the call succeeds
    all the same: whatever reply the call gives without [save_dir], the call
    with [save_dir] gives that reply, after the same request, followed by a
    note that the save failed; and the call with [save_dir] fails only when the
    call without it fails, with the same error. *)
Theorem save_failure_degrades (w : World) (name : string) (args : gmap string jsval)
    (e : exn) (evs : list event) :
  JS.truthy (prop args "save_dir") = true ->
  mkdir_refused w e \/ write_refused w e ->
  (forall text : string,
      callTool w name (Some (delete "save_dir" args)) = (evs, Ok {| content_text := text |}) ->
      exists evs',
        callTool w name (Some args)
        = ((evs ++ evs')%list, Ok {| content_text := text +:+ save_note e |}) /\
        requests evs' = []) /\
  (forall x : exn,
      callTool w name (Some (delete "save_dir" args)) = (evs, Throw x) ->
      callTool w name (Some args) = (evs, Throw x)).
Proof.
  intros Hdir Hfs. split.
  - intros text Hcall.
    apply callTool_ok_inv in Hcall
      as (endpoint & params & data & cleaned & block & evs0 & Hq & Hrule & Hget & Hs & Hf & ->).
    assert (Hab : agree_except "save_dir" args (delete "save_dir" args)).
    { intros k Hk. rewrite prop_delete_ne by congruence. reflexivity. }
    rewrite <- (outbound_query_agree "save_dir" name _ _ (or_intror eq_refl) Hab) in Hq.
    rewrite <- (rule_satisfied_agree "save_dir" name _ _ (or_intror eq_refl) Hab) in Hrule.
    rewrite <- (Hab "max_items") in Hs by discriminate.
    rewrite prop_delete_eq, formatResponse_unsaved in Hf by reflexivity.
    injection Hf as <- <-.
    destruct (formatResponse_refused w cleaned
                {| saveDir := prop args "save_dir"; toolName := name; pagination := block |} e)
      as (evs' & Hf' & Hevs'); [exact Hdir | | exact Hfs |].
    { simpl. apply (outbound_query_known name args). congruence. }
    exists evs'. split; [|exact Hevs'].
    exact (callTool_ok_intro w name endpoint args params data cleaned block evs' _
             Hq Hrule Hget Hs Hf').
  - intros x. unfold callTool.
    destruct (route w name (delete "save_dir" args)) as [evs0 [r|e0]] eqn:Hroute;
      [discriminate|].
    rewrite (route_throw_save_dir w name args evs0 e0 Hroute). trivial.
Qed.

Lemma save_failure_degrades_witness :
  exists evs',
    callTool demo_world "search_geo_id" (Some saved_search)
    = (([HttpGet "/geo-id-search" {[ "search" := JStr "France" ]}] ++ evs')%list,
       Ok {| content_text :=
               "{data:[{geoId:'105015875',title:'France'},{geoId:'104246759',title:'Paris'},{geoId:'103644278',title:'Lyon'}]}"
               +:+ save_note (Error "EACCES: permission denied") |}) /\
    requests evs' = [].
Proof.
  destruct (save_failure_degrades demo_world "search_geo_id" saved_search
              (Error "EACCES: permission denied")
              [HttpGet "/geo-id-search" {[ "search" := JStr "France" ]}]) as [H _].
  - reflexivity.
  - right. repeat split; intros; [left|..]; reflexivity.
  - apply H. vm_compute. reflexivity.
Defined.

(** * Further properties of the code *)

(** ** Errors of a call *)

Lemma faults_only_bind {A B : Type} (m : result A) (f : A -> result B) :
  faults_only m -> (forall a, faults_only (f a)) -> faults_only (m ≫= f).
Proof.
  destruct m as [a|e]; simpl; auto.
Qed.

Lemma faults_only_get (v : jsval) (k : string) : faults_only (JS.get v k).
Proof.
  unfold JS.get. destruct (JS.is_nullish v); exact I.
Qed.

Lemma faults_only_object_to_primitive (fields : list (string * jsval)) :
  faults_only (JS.object_to_primitive fields).
Proof.
  unfold JS.object_to_primitive. destruct (JS.has_own "toString" fields); exact I.
Qed.

Lemma faults_only_to_integer (v : jsval) : faults_only (JS.to_integer v).
Proof.
  destruct v; try exact I. simpl.
  pose proof (faults_only_object_to_primitive fields) as H.
  destruct (JS.object_to_primitive fields); [exact I | exact H].
Qed.

Lemma faults_only_gt_zero (v : jsval) : faults_only (JS.gt_zero v).
Proof.
  destruct v; try exact I. simpl.
  pose proof (faults_only_object_to_primitive fields) as H.
  destruct (JS.object_to_primitive fields); [exact I | exact H].
Qed.

Lemma faults_only_to_string (v : jsval) : faults_only (JS.to_string v).
Proof.
  revert v. fix IH 1. intros [| |[|]|z|s|l|fields]; try exact I.
  - simpl. destruct (JS.safe_integer z); exact I.
  - simpl. induction l as [|x rest IHrest]; [exact I|].
    assert (Hx : faults_only (if JS.is_nullish x then Ok "" else JS.to_string x)).
    { destruct (JS.is_nullish x); [exact I | apply IH]. }
    destruct (if JS.is_nullish x then Ok "" else JS.to_string x) as [t|e];
      [|exact Hx].
    destruct rest as [|y rest]; [exact I|].
    match goal with
    | |- faults_only (match ?j with Ok _ => _ | Throw _ => _ end) =>
        change (faults_only j) in IHrest; destruct j; [exact I | exact IHrest]
    end.
  - apply faults_only_object_to_primitive.
Qed.

Lemma faults_only_map_result {A B : Type} (f : A -> result B) (l : list A) :
  (forall x, faults_only (f x)) -> faults_only (map_result f l).
Proof.
  intros Hf. induction l as [|x l IH]; simpl; [exact I|].
  apply faults_only_bind; [apply Hf|]. intros y.
  apply faults_only_bind; [exact IH|]. intros ys. exact I.
Qed.

Lemma faults_only_array_map (v : jsval) (f : jsval -> result jsval) :
  (forall x, faults_only (f x)) -> faults_only (array_map v f).
Proof.
  intros Hf. destruct v; try exact I. simpl.
  apply faults_only_bind; [apply faults_only_map_result; exact Hf|]. intros; exact I.
Qed.

Lemma faults_only_find_result (p : jsval -> result bool) (l : list jsval) :
  (forall x, faults_only (p x)) -> faults_only (find_result p l).
Proof.
  intros Hp. induction l as [|x l IH]; simpl; [exact I|].
  apply faults_only_bind; [apply Hp|]. intros [|]; [exact I | exact IH].
Qed.

Lemma faults_only_array_find (v : jsval) (p : jsval -> result bool) :
  (forall x, faults_only (p x)) -> faults_only (array_find v p).
Proof.
  intros Hp. destruct v; try exact I. simpl.
  apply faults_only_find_result; exact Hp.
Qed.

(** Proves that an expression of the shaping code raises engine faults only. *)
Ltac faults :=
  repeat first
    [ exact I
    | apply faults_only_get
    | apply faults_only_to_integer
    | apply faults_only_gt_zero
    | apply faults_only_to_string
    | apply faults_only_bind
    | apply faults_only_array_map
    | apply faults_only_array_find
    | apply faults_only_map_result
    | intro
    | match goal with
      | |- faults_only (if ?c then _ else _) => destruct c
      | |- faults_only (match ?v with _ => _ end) => destruct v
      end ].

Lemma faults_only_cleaners (raw : jsval) :
  faults_only (DataCleaners.cleanProfile raw) /\
  faults_only (DataCleaners.cleanProfileSearchResult raw) /\
  faults_only (DataCleaners.cleanCompany raw) /\
  faults_only (DataCleaners.cleanJob raw) /\
  faults_only (DataCleaners.cleanJobSearchResult raw) /\
  faults_only (DataCleaners.cleanPost raw) /\
  faults_only (DataCleaners.cleanGroup raw) /\
  faults_only (DataCleaners.cleanGeoId raw) /\
  faults_only (DataCleaners.cleanComment raw) /\
  faults_only (DataCleaners.cleanReaction raw).
Proof.
  unfold DataCleaners.cleanProfile, DataCleaners.cleanProfileSearchResult,
    DataCleaners.cleanCompany, DataCleaners.cleanJob, DataCleaners.cleanJobSearchResult,
    DataCleaners.cleanPost, DataCleaners.cleanGroup, DataCleaners.cleanGeoId,
    DataCleaners.cleanComment, DataCleaners.cleanReaction,
    DataCleaners.headquarters_entry, DataCleaners.clean_experience,
    DataCleaners.clean_education, DataCleaners.education_period,
    DataCleaners.clean_certification, DataCleaners.job_salary.
  repeat split; destruct (negb (JS.truthy raw)); faults.
Qed.

Lemma faults_only_slice_field (k : string) (maxItems cleaned : jsval) :
  faults_only (slice_field k maxItems cleaned).
Proof.
  unfold slice_field. faults.
Qed.

Lemma faults_only_bounded_elements (max_items : jsval) (d : Z) (elements : jsval)
    (cleaner : jsval -> result jsval) :
  (forall x, faults_only (cleaner x)) ->
  faults_only (bounded_elements max_items d elements cleaner).
Proof.
  intros Hc. unfold bounded_elements.
  destruct (JS.or elements (JArr [])); try exact I.
  apply faults_only_bind; [apply faults_only_to_integer|]. intros e.
  apply faults_only_bind; [apply faults_only_map_result; exact Hc|]. intros; exact I.
Qed.

Lemma faults_only_bounded_profile (max_items element : jsval) :
  faults_only (bounded_profile max_items element).
Proof.
  unfold bounded_profile.
  apply faults_only_bind; [apply (faults_only_cleaners element)|]. intros cleaned.
  destruct (JS.truthy cleaned); [|exact I].
  repeat (apply faults_only_bind; [apply faults_only_slice_field|]; intros ?).
  apply faults_only_slice_field.
Qed.

Lemma faults_only_shaped (name : string) (args : gmap string jsval)
    (max_items data : jsval) :
  outbound_query name args <> None ->
  faults_only (shaped name max_items data).
Proof.
  unfold outbound_query, shaped.
  by_tool name ltac:(
    intros _;
    repeat first
      [ exact I
      | apply faults_only_get
      | apply faults_only_bounded_profile
      | apply faults_only_bounded_elements
      | apply (faults_only_cleaners)
      | apply faults_only_bind
      | intro ]).
  intros H. contradiction H. reflexivity.
Qed.

Lemma prefix_append (s t : string) : String.prefix s (s +:+ t) = true.
Proof.
  induction s as [|c s IH]; [destruct t; reflexivity|].
  change (String.prefix (String c s) (String c (s +:+ t)) = true). simpl.
  destruct (ascii_dec c c) as [_|Hne]; [exact IH | contradiction Hne; reflexivity].
Qed.

Lemma axios_failure_fault (response : option (jsval * jsval)) (message : string) :
  match axios_failure response message with
  | McpError _ _ => False
  | _ => True
  end.
Proof.
  unfold axios_failure.
  match goal with
  | |- context [JS.to_string ?v] =>
      pose proof (faults_only_to_string v) as H; destruct (JS.to_string v) as [t|e]
  end; [|destruct e; try exact I; exact H].
  match goal with
  | |- context [JS.to_string ?v] =>
      pose proof (faults_only_to_string v) as H'; destruct (JS.to_string v) as [t'|e]
  end; [exact I | destruct e; try exact I; exact H'].
Qed.

Lemma reply_throw_inv (w : World) (name endpoint : string) (args params : gmap string jsval)
    (evs : list event) (e : exn) :
  reply w name args endpoint params = (evs, Throw e) ->
  evs = [HttpGet endpoint params] /\
  ((exists response message,
       api_get w endpoint params = HttpAxiosError response message /\
       e = axios_failure response message) \/
   api_get w endpoint params = HttpFailure e \/
   (exists data,
       api_get w endpoint params = HttpData data /\
       shaped name (prop args "max_items") data = Throw e)).
Proof.
  unfold reply. rewrite makeRequest_outcome. unfold request_outcome, lift.
  destruct (api_get w endpoint params) as [data|response message|e0]; simpl.
  - destruct (shaped name (prop args "max_items") data) as [cp|e0] eqn:Hs; simpl.
    + destruct (formatResponse_ok w cp.1
                  {| saveDir := prop args "save_dir"; toolName := name; pagination := cp.2 |})
        as (evs' & r & -> & _).
      discriminate.
    + intros [= <- <-]. split; [reflexivity|]. right. right. eauto.
  - intros [= <- <-]. split; [reflexivity|]. left. eauto.
  - intros [= <- <-]. split; [reflexivity|]. right. left. reflexivity.
Qed.

(** X1. A failed call throws an [McpError] whose code tells the cause:
    invalid params, with no effect, exactly when the arguments are missing
    (whatever the tool name); method not found, with no effect, exactly when
    the arguments are there and the tool is unknown; and in every other case
    an internal error whose message starts with [HarvestAPI error: ]. The HTTP
    client is taken to throw plain errors and TypeErrors only. A call on which
    the embedding stops, at a conversion it does not cover, is not classified;
    it is a call of a known tool that stops after its request. *)
Theorem callTool_error_codes (w : World) (name : string)
    (arguments : option (gmap string jsval)) :
  client_errors_plain w ->
  (arguments = None ->
   callTool w name arguments = ([], Throw (McpError InvalidParams "Missing arguments"))) /\
  (forall args, arguments = Some args -> outbound_query name args = None ->
   callTool w name arguments
   = ([], Throw (McpError MethodNotFound ("Unknown tool: " +:+ name)))) /\
  (forall evs e, callTool w name arguments = (evs, Throw e) ->
   match e with
   | McpError InvalidParams message =>
       arguments = None /\ message = "Missing arguments" /\ evs = []
   | McpError MethodNotFound message =>
       (exists args, arguments = Some args /\ outbound_query name args = None) /\
       message = "Unknown tool: " +:+ name /\ evs = []
   | McpError InternalError message =>
       (exists args, arguments = Some args /\ outbound_query name args <> None) /\
       String.prefix "HarvestAPI error: " message = true
   | McpError _ _ | Error _ | TypeError _ => False
   | OutOfModel _ =>
       exists args endpoint params,
         arguments = Some args /\ outbound_query name args = Some (endpoint, params) /\
         evs = [HttpGet endpoint params]
   end).
Proof.
  intros Hclient. split; [intros ->; reflexivity|]. split.
  - intros args -> Hq. unfold callTool.
    rewrite route_route_table. unfold route_table. rewrite Hq. reflexivity.
  - intros evs e. unfold callTool.
    destruct arguments as [args|]; [|intros [= <- <-]; auto].
    rewrite route_route_table, route_table_by_rule.
    destruct (outbound_query name args) as [[endpoint params]|] eqn:Hq.
    2: { intros [= <- <-]. repeat split. eauto. }
    assert (Hknown : exists a, Some args = Some a /\ outbound_query name a <> None).
    { exists args. split; [reflexivity | congruence]. }
    assert (Hstop : forall evs0, evs0 = [HttpGet endpoint params] ->
               exists a ep ps,
                 Some args = Some a /\ outbound_query name a = Some (ep, ps) /\
                 evs0 = [HttpGet ep ps]).
    { intros evs0 ->. exists args, endpoint, params. auto. }
    set (classified := match e with
               | McpError InternalError message =>
                   (exists a, Some args = Some a /\ outbound_query name a <> None) /\
                   String.prefix "HarvestAPI error: " message = true
               | OutOfModel _ =>
                   exists a ep ps,
                     Some args = Some a /\ outbound_query name a = Some (ep, ps) /\
                     evs = [HttpGet ep ps]
               | _ => False
               end).
    assert (Hwrap : forall e0,
               match e0 with McpError _ _ => False | _ => True end ->
               try_catch ([HttpGet endpoint params], Throw e0) rethrow = (evs, Throw e) ->
               classified).
    { intros e0 He0 Htc. unfold classified.
      destruct e0; try contradiction; simpl in Htc; injection Htc as <- <-.
      - split; [exact Hknown | apply prefix_append].
      - split; [exact Hknown | apply prefix_append].
      - apply Hstop. reflexivity. }
    assert (Hreply : forall evs0 e0,
               reply w name args endpoint params = (evs0, Throw e0) ->
               try_catch (evs0, Throw e0) rethrow = (evs, Throw e) ->
               classified).
    { intros evs0 e0 Hr Htc.
      apply reply_throw_inv in Hr as [-> [(response & message & _ & ->) | [Hfail | (data & _ & Hs)]]].
      - apply (Hwrap _ (axios_failure_fault response message) Htc).
      - specialize (Hclient endpoint params e0 Hfail).
        apply (Hwrap e0); [destruct e0; try exact I; contradiction | exact Htc].
      - pose proof (faults_only_shaped name args (prop args "max_items") data) as Hf.
        rewrite Hs in Hf. specialize (Hf ltac:(congruence)).
        apply (Hwrap e0); [destruct e0; try exact I; contradiction | exact Htc]. }
    assert (Hr : forall m, m = reply w name args endpoint params ->
               try_catch m rethrow = (evs, Throw e) -> classified).
    { intros [evs0 [r|e0]] Hm Htc; [discriminate Htc|].
      exact (Hreply evs0 e0 (eq_sym Hm) Htc). }
    assert (Hgoal : classified ->
               match e with
               | McpError InvalidParams message =>
                   Some args = None /\ message = "Missing arguments" /\ evs = []
               | McpError MethodNotFound message =>
                   (exists a, Some args = Some a /\ outbound_query name a = None) /\
                   message = "Unknown tool: " +:+ name /\ evs = []
               | McpError InternalError message =>
                   (exists a, Some args = Some a /\ outbound_query name a <> None) /\
                   String.prefix "HarvestAPI error: " message = true
               | McpError _ _ | Error _ | TypeError _ => False
               | OutOfModel _ =>
                   exists a ep ps,
                     Some args = Some a /\ outbound_query name a = Some (ep, ps) /\
                     evs = [HttpGet ep ps]
               end).
    { unfold classified. destruct e as [[] ?| | |]; tauto. }
    destruct (rule_satisfied name args).
    + intros H. apply Hgoal. exact (Hr _ eq_refl H).
    + destruct (required_one_of name) as [[fields message]|].
      * intros [= <- <-]. apply Hgoal. unfold classified.
        split; [exact Hknown | apply prefix_append].
      * intros H. apply Hgoal. exact (Hr _ eq_refl H).
Qed.

Lemma callTool_error_codes_witness :
  callTool demo_world "get_everything" (Some ∅)
  = ([], Throw (McpError MethodNotFound "Unknown tool: get_everything")) /\
  callTool demo_world "get_everything" None
  = ([], Throw (McpError InvalidParams "Missing arguments")).
Proof.
  assert (Hclient : client_errors_plain demo_world).
  { intros endpoint params e H. discriminate H. }
  split.
  - destruct (callTool_error_codes demo_world "get_everything" (Some ∅) Hclient)
      as (_ & H & _).
    exact (H ∅ eq_refl eq_refl).
  - destruct (callTool_error_codes demo_world "get_everything" None Hclient)
      as (H & _ & _).
    exact (H eq_refl).
Defined.

(** ** Failure of the remote API *)

(** X2. When the remote API refuses the request of a call, the call throws
    an internal error after that one request; its message carries the status
    of the response, or [500] when there is no response, and the [message] of
    the response body, else its [error], else the message of the HTTP
    client, each as the template literal renders it. A status or a message
    that has no string conversion makes the template literal throw a
    TypeError, which becomes the internal error in place of the composed
    one. *)
Theorem remote_failure_message (w : World) (name endpoint : string)
    (args params : gmap string jsval) (response : option (jsval * jsval))
    (message : string) :
  outbound_query name args = Some (endpoint, params) ->
  rule_satisfied name args = true ->
  api_get w endpoint params = HttpAxiosError response message ->
  let status := match response with Some (s, _) => s | None => JUndef end in
  let body := match response with Some (_, d) => d | None => JUndef end in
  let statusCode := JS.or status (JNum 500) in
  let errorMessage :=
    JS.or (JS.or (JS.opt body "message") (JS.opt body "error")) (JStr message) in
  (forall statusText messageText : string,
      JS.to_string statusCode = Ok statusText ->
      JS.to_string errorMessage = Ok messageText ->
      callTool w name (Some args)
      = ([HttpGet endpoint params],
         Throw (McpError InternalError
                  ("HarvestAPI error: HarvestAPI error (" +:+ statusText +:+ "): " +:+
                   messageText)))) /\
  (response = None ->
   callTool w name (Some args)
   = ([HttpGet endpoint params],
      Throw (McpError InternalError
               ("HarvestAPI error: HarvestAPI error (500): " +:+ message)))) /\
  (forall reason : string,
      JS.to_string statusCode = Throw (TypeError reason) \/
      (is_ok (JS.to_string statusCode) = true /\
       JS.to_string errorMessage = Throw (TypeError reason)) ->
      callTool w name (Some args)
      = ([HttpGet endpoint params],
         Throw (McpError InternalError ("HarvestAPI error: " +:+ reason)))).
Proof.
  intros Hq Hrule Hget status body statusCode errorMessage.
  assert (Hcall : callTool w name (Some args)
                  = try_catch ([HttpGet endpoint params],
                               Throw (axios_failure response message)) rethrow).
  { unfold callTool.
    rewrite route_route_table, (route_table_reply w name endpoint args params Hq Hrule).
    unfold reply. rewrite makeRequest_outcome. unfold request_outcome.
    rewrite Hget. reflexivity. }
  rewrite Hcall. unfold axios_failure. fold status body. fold statusCode errorMessage.
  split; [|split].
  - intros statusText messageText -> ->. reflexivity.
  - intros Hnone. unfold statusCode, errorMessage, status, body. rewrite Hnone.
    reflexivity.
  - intros reason [-> | [Hok ->]]; [reflexivity|].
    destruct (JS.to_string statusCode); [reflexivity | discriminate Hok].
Qed.

Lemma remote_failure_message_witness :
  callTool failing_world "get_profile" (Some {[ "publicIdentifier" := JStr "nobody" ]})
  = ([HttpGet "/profile" {[ "publicIdentifier" := JStr "nobody" ]}],
     Throw (McpError InternalError
              "HarvestAPI error: HarvestAPI error (404): Profile not found")).
Proof.
  destruct (remote_failure_message failing_world "get_profile" "/profile"
              {[ "publicIdentifier" := JStr "nobody" ]}
              {[ "publicIdentifier" := JStr "nobody" ]}
              (Some (JNum 404, JObj [ ("message", JStr "Profile not found") ]))
              "Request failed with status code 404") as [H _];
    [reflexivity | vm_compute; reflexivity | reflexivity |].
  exact (H "404" "Profile not found" eq_refl eq_refl).
Defined.

(** ** Effects of a call *)

(** X3. A call makes at most one HTTP request, and makes it before any
    other effect; it touches the file system only when [save_dir] is given
    (truthy). *)
Theorem call_effects (w : World) (name : string) (args : gmap string jsval) :
  (callTool w name (Some args)).1 = [] \/
  exists endpoint params files,
    outbound_query name args = Some (endpoint, params) /\
    (callTool w name (Some args)).1 = HttpGet endpoint params :: files /\
    requests files = [] /\
    (JS.truthy (prop args "save_dir") = false -> files = []).
Proof.
  unfold callTool. rewrite try_catch_rethrow_events.
  rewrite route_route_table, route_table_by_rule.
  destruct (outbound_query name args) as [[endpoint params]|]; [|left; reflexivity].
  assert (Hreply : exists files,
             (reply w name args endpoint params).1 = HttpGet endpoint params :: files /\
             requests files = [] /\
             (JS.truthy (prop args "save_dir") = false -> files = [])).
  { unfold reply. rewrite makeRequest_outcome. unfold lift.
    destruct (request_outcome w endpoint params) as [data|e]; simpl;
      try (exists (@nil event); solve [auto]).
    destruct (shaped name (prop args "max_items") data) as [cp|e]; simpl;
      [|exists (@nil event); auto].
    destruct (formatResponse w cp.1 _) as [files r] eqn:Hf. simpl.
    exists files. split; [reflexivity|]. split.
    - destruct (formatResponse_ok w cp.1
                  {| saveDir := prop args "save_dir"; toolName := name; pagination := cp.2 |})
        as (files' & r' & Hf' & Hreq).
      rewrite Hf in Hf'. injection Hf' as -> _. exact Hreq.
    - intros Hdir. rewrite formatResponse_unsaved in Hf by exact Hdir.
      injection Hf as <- _. reflexivity. }
  destruct (rule_satisfied name args).
  - right. destruct Hreply as (files & H). exists endpoint, params, files. tauto.
  - destruct (required_one_of name) as [[fields message]|]; [left; reflexivity|].
    right. destruct Hreply as (files & H). exists endpoint, params, files. tauto.
Qed.

(** ** Saving the reply *)

Lemma saveData_accepted (w : World) (data dir : jsval) (tool : string) :
  save_accepted w ->
  exists path,
    path_join w dir (save_filename w tool) = Ok path /\ path <> "" /\
    saveData w data dir tool
    = ((if exists_sync w dir then [] else [Mkdir dir])
         ++ [WriteFile path (json_stringify w data)], Ok path)%list.
Proof.
  intros (Hdir & Hjoin & Hwrite).
  destruct (Hjoin dir (save_filename w tool)) as (path & Hpath & Hne).
  exists path. split; [exact Hpath|]. split; [exact Hne|].
  unfold saveData, try_catch, emit, throw, lift. fold (save_filename w tool).
  destruct (exists_sync w dir) eqn:Hex; simpl.
  - rewrite Hpath; simpl. rewrite Hwrite. reflexivity.
  - destruct (Hdir dir) as [Hd | ->]; [congruence|]; simpl.
    rewrite Hpath; simpl. rewrite Hwrite. reflexivity.
Qed.

(** X4. When the caller asks for the reply to be saved and the file system
    lets it, the call behaves as the call without [save_dir] and then
    creates the directory if it is missing and writes one file: its path joins
    the directory and [<tool>_<timestamp>.json], its content is the JSON text
    of the very output whose encoding is the reply, and the reply ends with a
    note giving that path. *)
Theorem save_success (w : World) (name : string) (args : gmap string jsval)
    (evs : list event) (text : string) :
  JS.truthy (prop args "save_dir") = true ->
  save_accepted w ->
  callTool w name (Some (delete "save_dir" args)) = (evs, Ok {| content_text := text |}) ->
  exists path output,
    path_join w (prop args "save_dir") (save_filename w name) = Ok path /\
    text = encode w output /\
    callTool w name (Some args)
    = ((evs ++ (if exists_sync w (prop args "save_dir") then []
                else [Mkdir (prop args "save_dir")])
            ++ [WriteFile path (json_stringify w output)])%list,
       Ok {| content_text :=
               text +:+ newline +:+ newline +:+ "[Cleaned data saved to: " +:+ path +:+ "]" |}).
Proof.
  intros Hdir Hfs Hcall.
  apply callTool_ok_inv in Hcall
    as (endpoint & params & data & cleaned & block & evs0 & Hq & Hrule & Hget & Hs & Hf & ->).
  assert (Hab : agree_except "save_dir" args (delete "save_dir" args)).
  { intros k Hk. rewrite prop_delete_ne by congruence. reflexivity. }
  rewrite <- (outbound_query_agree "save_dir" name _ _ (or_intror eq_refl) Hab) in Hq.
  rewrite <- (rule_satisfied_agree "save_dir" name _ _ (or_intror eq_refl) Hab) in Hrule.
  rewrite <- (Hab "max_items") in Hs by discriminate.
  rewrite prop_delete_eq, formatResponse_unsaved in Hf by reflexivity.
  injection Hf as <- <-. simpl.
  destruct (saveData_accepted w (format_output cleaned block) (prop args "save_dir") name Hfs)
    as (path & Hpath & Hne & Hsave).
  exists path, (format_output cleaned block).
  split; [exact Hpath|]. split; [reflexivity|].
  apply (callTool_ok_intro w name endpoint args params data cleaned block _ _
           Hq Hrule Hget Hs).
  unfold formatResponse. simpl. rewrite Hdir.
  assert (Hname : String.eqb name "" = false).
  { destruct (String.eqb_spec name "") as [->|]; [discriminate Hq | reflexivity]. }
  rewrite Hname. simpl. rewrite Hsave. simpl.
  destruct (String.eqb_spec path "") as [|_]; [contradiction|]. simpl.
  rewrite app_nil_r. reflexivity.
Qed.

Lemma save_success_witness :
  callTool saving_world "search_geo_id"
    (Some {[ "search" := JStr "France"; "save_dir" := JStr "/data" ]})
  = ([ HttpGet "/geo-id-search" {[ "search" := JStr "France" ]};
       Mkdir (JStr "/data");
       WriteFile "/data/search_geo_id_2024-05-06T07-08-09-123Z.json"
         "{data:[{geoId:'105015875',title:'France'},{geoId:'104246759',title:'Paris'},{geoId:'103644278',title:'Lyon'}]}" ],
     Ok {| content_text :=
             "{data:[{geoId:'105015875',title:'France'},{geoId:'104246759',title:'Paris'},{geoId:'103644278',title:'Lyon'}]}"
             +:+ newline +:+ newline
             +:+ "[Cleaned data saved to: /data/search_geo_id_2024-05-06T07-08-09-123Z.json]" |}).
Proof.
  destruct (save_success saving_world "search_geo_id"
              {[ "search" := JStr "France"; "save_dir" := JStr "/data" ]}
              [HttpGet "/geo-id-search" {[ "search" := JStr "France" ]}]
              "{data:[{geoId:'105015875',title:'France'},{geoId:'104246759',title:'Paris'},{geoId:'103644278',title:'Lyon'}]}")
    as (path & output & Hpath & Htext & Hcall).
  - reflexivity.
  - repeat split; intros; try (right; reflexivity).
    eexists; split; [reflexivity|]. simpl.
    intros Heq. destruct dir as [| | | |[|]| |]; discriminate Heq.
  - vm_compute. reflexivity.
  - injection Hpath as <-. rewrite Hcall.
    change (json_stringify saving_world output) with (encode saving_world output).
    rewrite <- Htext. reflexivity.
Defined.

Lemma dash_colons_dots_get (s : string) (n : nat) :
  String.get n (JS.dash_colons_dots s)
  = match String.get n s with
    | Some c => Some (if (Ascii.eqb c ":" || Ascii.eqb c ".")%bool then "-"%char else c)
    | None => None
    end.
Proof.
  revert n. induction s as [|c s IH]; intros n; [reflexivity|].
  destruct n as [|n]; simpl; [reflexivity | apply IH].
Qed.

(** X5. The time stamp that goes into the name of a saved file keeps its
    length and its characters, except that every colon and every dot becomes
    a dash: no colon and no dot is left in it. *)
Theorem timestamp_sanitised (s : string) :
  String.length (JS.dash_colons_dots s) = String.length s /\
  (forall (n : nat) (c : ascii),
      String.get n (JS.dash_colons_dots s) = Some c ->
      c <> ":"%char /\ c <> "."%char /\
      (String.get n s = Some c \/
       c = "-"%char /\ (String.get n s = Some ":"%char \/ String.get n s = Some "."%char))).
Proof.
  split.
  - induction s as [|c s IH]; simpl; [reflexivity | f_equal; exact IH].
  - intros n c. rewrite dash_colons_dots_get.
    destruct (String.get n s) as [c0|]; [|discriminate].
    destruct (Ascii.eqb_spec c0 ":") as [-> | Hcolon]; simpl.
    + intros [= <-]. repeat split; try discriminate. right. auto.
    + destruct (Ascii.eqb_spec c0 ".") as [-> | Hdot].
      * intros [= <-]. repeat split; try discriminate. right. auto.
      * intros [= <-]. repeat split; auto.
Qed.

(** ** When the cleaners throw *)

Lemma is_ok_bind {A B : Type} (m : result A) (f : A -> result B) :
  is_ok (m ≫= f) = match m with Ok a => is_ok (f a) | Throw _ => false end.
Proof.
  destruct m; reflexivity.
Qed.




Lemma is_ok_find_flagged (l : list jsval) :
  is_ok (find_result (fun x => h ← JS.get x "headquarter"; Ok (JS.truthy h)) l)
  = no_nullish (until_flagged l).
Proof.
  induction l as [|x l IH]; simpl; [reflexivity|].
  destruct (JS.is_nullish x) eqn:Hx.
  - assert (Hget : exists e, JS.get x "headquarter" = Throw e).
    { unfold JS.get. rewrite Hx. eauto. }
    destruct Hget as [e ->]. simpl.
    assert (Hfl : flagged x = false) by (destruct x; try discriminate; reflexivity).
    rewrite Hfl. simpl. rewrite Hx. reflexivity.
  - rewrite (get_field x "headquarter" Hx). simpl.
    fold (flagged x). destruct (flagged x); simpl; rewrite Hx; simpl; [reflexivity | exact IH].
Qed.

(** X6. [cleanCompany] throws exactly when the raw company is there and its
    [locations] are either something (truthy) that is not an array, or an
    array in which a null or undefined entry comes before the first flagged
    location; a missing, falsy or empty [locations] never makes it throw. *)
Theorem cleanCompany_succeeds (raw : jsval) :
  is_ok (DataCleaners.cleanCompany raw)
  = negb (JS.truthy raw) ||
    match JS.field raw "locations" with
    | JArr l => no_nullish (until_flagged l)
    | v => negb (JS.truthy v)
    end.
Proof.
  unfold DataCleaners.cleanCompany.
  destruct (JS.truthy raw); simpl; [|reflexivity].
  rewrite is_ok_bind. unfold DataCleaners.headquarters_entry.
  transitivity (is_ok (array_find (JS.or (JS.field raw "locations") (JArr []))
                         (fun l => h ← JS.get l "headquarter"; Ok (JS.truthy h)))).
  { destruct (array_find _ _); reflexivity. }
  unfold JS.or.
  destruct (JS.field raw "locations") as [| |b|z|s|l|fs]; simpl; try reflexivity.
  - destruct b; reflexivity.
  - destruct (z =? 0); reflexivity.
  - destruct (String.eqb s ""); reflexivity.
  - apply is_ok_find_flagged.
Qed.


(** ** Bounds of a profile *)

(** X8. [get_profile] bounds its four sub-lists independently: under a
    requested maximum [M >= 1], each of [experience], [education], [skills]
    and [certifications] of the cleaned profile is cut to its first [M]
    entries, and every other field of the cleaned profile is left as it is. *)
Theorem bounded_profile_sublists (raw : jsval) (m : Z) (fields : list (string * jsval)) :
  1 <= m ->
  DataCleaners.cleanProfile raw = Ok (JObj fields) ->
  exists fields',
    bounded_profile (JNum m) raw = Ok (JObj fields') /\
    (forall k, In k ["experience"; "education"; "skills"; "certifications"] ->
               exists l, JS.assoc k fields = JArr l /\
                         JS.assoc k fields' = JArr (take (Z.to_nat m) l)) /\
    (forall k, ~ In k ["experience"; "education"; "skills"; "certifications"] ->
               JS.assoc k fields' = JS.assoc k fields).
Proof.
  intros Hm Hclean.
  apply (bounded_profile_cut (JNum m) raw m fields Hm); [|exact Hclean].
  unfold JS.or. simpl. destruct (Z.eqb_spec m 0); [lia | reflexivity].
Qed.

Lemma bounded_profile_sublists_witness :
  exists fields',
    bounded_profile (JNum 2) satya_raw = Ok (JObj fields') /\
    (exists l, JS.assoc "experience" fields' = JArr l /\ length l = 2%nat) /\
    JS.assoc "name" fields' = JStr "Satya Nadella".
Proof.
  destruct (bounded_profile_sublists satya_raw 2 _ ltac:(lia) eq_refl)
    as (fields' & Hb & Hsub & Hother).
  exists fields'. split; [exact Hb|]. split.
  - destruct (Hsub "experience") as (l & Hl & Hl'); [simpl; tauto|].
    injection Hl as <-. eexists. split; [exact Hl' | reflexivity].
  - rewrite Hother; [reflexivity|]. simpl. intros [H|[H|[H|[H|[]]]]]; discriminate H.
Defined.

(** ** Edge cases of the bound and of the envelope *)

(** X9. A negative [max_items] is neither refused nor read as zero: it
    drops that many items from the end of the list, and the items kept are
    the first ones, in order. *)
Theorem negative_max_items (cleaner : jsval -> result jsval) (els : list jsval)
    (m d : Z) :
  m < 0 ->
  Forall (fun x => is_ok (cleaner x) = true) els ->
  exists shaped,
    bounded_elements (JNum m) d (JArr els) cleaner = Ok (JArr shaped) /\
    length shaped = (length els - Z.to_nat (- m))%nat /\
    (forall (i : nat) (x : jsval),
        els !! i = Some x -> (i < length els - Z.to_nat (- m))%nat ->
        exists y, shaped !! i = Some y /\ cleaner x = Ok y).
Proof.
  intros Hm Hok.
  set (n := (length els - Z.to_nat (- m))%nat).
  assert (Hb : bounded_elements (JNum m) d (JArr els) cleaner
               = l' ← map_result cleaner (take n els); Ok (JArr l')).
  { unfold bounded_elements, JS.or; simpl.
    destruct (Z.eqb_spec m 0); [lia|]; simpl.
    unfold JS.slice0. destruct (Z.ltb_spec m 0); [|lia].
    replace (Z.to_nat (Z.max (Z.of_nat (length els) + m) 0)) with n by (unfold n; lia).
    reflexivity. }
  rewrite Hb.
  destruct (map_result_succeeds cleaner (take n els)) as [shaped Hs].
  { apply Forall_take; exact Hok. }
  exists shaped. rewrite Hs; simpl. split; [reflexivity|]. split.
  - rewrite (map_result_length _ _ _ Hs), length_take. lia.
  - intros i x Hi Hlt. apply (map_result_lookup _ _ _ i x Hs).
    rewrite lookup_take_lt by exact Hlt. exact Hi.
Qed.

Lemma negative_max_items_witness :
  exists shaped,
    bounded_elements (JNum (-1)) 10
      (JArr [ JObj [ ("geoId", JStr "105015875") ];
              JObj [ ("geoId", JStr "104246759") ];
              JObj [ ("geoId", JStr "103644278") ] ])
      DataCleaners.cleanGeoId = Ok (JArr shaped) /\
    length shaped = 2%nat.
Proof.
  destruct (negative_max_items DataCleaners.cleanGeoId
              [ JObj [ ("geoId", JStr "105015875") ];
                JObj [ ("geoId", JStr "104246759") ];
                JObj [ ("geoId", JStr "103644278") ] ]
              (-1) 10 ltac:(lia) ltac:(repeat constructor))
    as (shaped & Hs & Hlen & _).
  exists shaped. split; [exact Hs | exact Hlen].
Defined.

Lemma shaped_empty (name : string) (args : gmap string jsval) (max_items data : jsval) :
  outbound_query name args <> None ->
  JS.is_nullish data = false ->
  JS.truthy (JS.field data "elements") = false ->
  JS.truthy (JS.field data "element") = false ->
  max_items = JUndef \/ (exists z, max_items = JNum z) ->
  shaped name max_items data
  = Ok (if is_single name then JNull else JArr [],
        if hands_pagination name then JS.field data "pagination" else JUndef).
Proof.
  intros Hq Hdata Hels Hel Hmax.
  assert (Hint : exists e, JS.to_integer (JS.or max_items (JNum 10)) = Ok e).
  { destruct Hmax as [-> | [z ->]]; unfold JS.or; simpl; [eauto|].
    destruct (negb (z =? 0)); simpl; eauto. }
  assert (Hlist : forall cleaner,
             bounded_elements max_items 10 (JS.field data "elements") cleaner
             = Ok (JArr [])).
  { intros cleaner. unfold bounded_elements.
    assert (Hor : JS.or (JS.field data "elements") (JArr []) = JArr []).
    { unfold JS.or. rewrite Hels. reflexivity. }
    rewrite Hor. destruct Hint as [e ->]. simpl.
    unfold JS.slice0. destruct (e <? 0); rewrite take_nil; reflexivity. }
  assert (Hprofile : bounded_profile max_items (JS.field data "element") = Ok JNull).
  { unfold bounded_profile, DataCleaners.cleanProfile. rewrite Hel. reflexivity. }
  revert Hq. unfold outbound_query, shaped, is_single, single_tools, hands_pagination,
    paginated_tools.
  by_tool name ltac:(
    intros _; simpl;
    rewrite !(get_field data _ Hdata); simpl;
    rewrite ?Hlist, ?Hprofile; simpl;
    unfold DataCleaners.cleanCompany, DataCleaners.cleanJob, DataCleaners.cleanPost,
      DataCleaners.cleanGroup;
    rewrite ?Hel; reflexivity).
  intros H. contradiction H. reflexivity.
Qed.

(** X10. An envelope without elements (and without an element) is no
    error: a listing tool replies with an empty list, a single-entity tool
    with [null], after its one request. *)
Theorem empty_envelope (w : World) (name endpoint : string)
    (args params : gmap string jsval) (data : jsval) :
  outbound_query name args = Some (endpoint, params) ->
  rule_satisfied name args = true ->
  api_get w endpoint params = HttpData data ->
  JS.is_nullish data = false ->
  JS.truthy (JS.field data "elements") = false ->
  JS.truthy (JS.field data "element") = false ->
  prop args "max_items" = JUndef \/ (exists z, prop args "max_items" = JNum z) ->
  exists evs note,
    callTool w name (Some args)
    = (HttpGet endpoint params :: evs,
       Ok {| content_text :=
               encode w (format_output
                           (if is_single name then JNull else JArr [])
                           (if hands_pagination name
                            then JS.field data "pagination" else JUndef)) +:+ note |}) /\
    requests evs = [].
Proof.
  intros Hq Hrule Hget Hdata Hels Hel Hmax.
  assert (Hs := shaped_empty name args (prop args "max_items") data
                  ltac:(congruence) Hdata Hels Hel Hmax).
  destruct (formatResponse_text w (if is_single name then JNull else JArr [])
              {| saveDir := prop args "save_dir"; toolName := name;
                 pagination := if hands_pagination name
                               then JS.field data "pagination" else JUndef |})
    as (evs & note & Hf & Hreq).
  exists evs, note. split; [|exact Hreq].
  exact (callTool_ok_intro w name endpoint args params data _ _ evs _
           Hq Hrule Hget Hs Hf).
Qed.

Lemma empty_envelope_witness :
  (exists evs note,
      callTool empty_world "search_jobs" (Some ∅)
      = (HttpGet "/job-search" ∅ :: evs, Ok {| content_text := "{data:[]}" +:+ note |}) /\
      requests evs = []) /\
  (exists evs note,
      callTool empty_world "get_job" (Some {[ "jobId" := JStr "1" ]})
      = (HttpGet "/job" {[ "jobId" := JStr "1" ]} :: evs,
         Ok {| content_text := "{data:null}" +:+ note |}) /\
      requests evs = []).
Proof.
  split.
  - apply (empty_envelope empty_world "search_jobs" "/job-search" ∅ ∅ (JObj []));
      try reflexivity. left. reflexivity.
  - apply (empty_envelope empty_world "get_job" "/job"
             {[ "jobId" := JStr "1" ]} {[ "jobId" := JStr "1" ]} (JObj []));
      try reflexivity. left. reflexivity.
Defined.

(** ** Falsy arguments *)

Lemma request_is_query (w : World) (name endpoint : string)
    (args params : gmap string jsval) :
  In (endpoint, params) (requests (callTool w name (Some args)).1) ->
  outbound_query name args = Some (endpoint, params).
Proof.
  rewrite callTool_requests.
  destruct (outbound_query name args) as [q|]; [|contradiction].
  destruct (required_one_of name) as [[fields message]|].
  - destruct (none_present fields args); [contradiction|].
    intros [-> | []]; reflexivity.
  - intros [-> | []]; reflexivity.
Qed.

Ltac falsy_case args :=
  eval_eqb; cbv beta iota delta [andb];
  first
    [ (* a guarded copy *)
      match goal with
      | |- context [JS.truthy (prop args ?s)] =>
          destruct (JS.truthy (prop args s)) eqn:?; intros [= <-] ?; congruence
      end
    | (* easyApply *)
      match goal with
      | |- context [is_undefined (prop args ?s)] =>
          destruct (prop args s) eqn:?; simpl; intros [= <-] ?; try discriminate;
          right; repeat split; discriminate
      end
    | (* a key that is always there *)
      intros _ _; left; vm_compute; tauto ].

Lemma outbound_query_falsy (name endpoint k : string) (args params : gmap string jsval)
    (v : jsval) :
  outbound_query name args = Some (endpoint, params) ->
  params !! k = Some v ->
  JS.truthy v = false ->
  In k (required_keys name) \/
  (name = "search_jobs" /\ k = "easyApply" /\ v <> JUndef).
Proof.
  unfold outbound_query.
  by_tool name ltac:(
    intros [= <- <-]; lookup_params;
    repeat match goal with
           | |- context [String.eqb ?s k] =>
               destruct (String.eqb_spec s k) as [<- | ?];
               [falsy_case args|]; cbv beta iota delta [andb]
           end;
    discriminate).
  discriminate.
Qed.

Lemma outbound_query_required (name endpoint k : string) (args params : gmap string jsval) :
  outbound_query name args = Some (endpoint, params) ->
  In k (required_keys name) ->
  params !! k = Some (prop args k).
Proof.
  unfold outbound_query, required_keys.
  by_tool name ltac:(
    intros [= <- <-] Hin; vm_compute in Hin;
    repeat destruct Hin as [<- | Hin]; try contradiction;
    lookup_params; eval_eqb; reflexivity).
  discriminate.
Qed.

(** X11. A falsy value (an empty string, [0], [false], [null],
    [undefined]) reaches the query in two cases only: under a key the catalog
    requires, which is sent whatever its value, and under [easyApply] of
    [search_jobs], which is sent whenever it is not [undefined]. *)
Theorem falsy_arguments (w : World) (name endpoint : string)
    (args params : gmap string jsval) :
  In (endpoint, params) (requests (callTool w name (Some args)).1) ->
  (forall (k : string) (v : jsval),
      params !! k = Some v -> JS.truthy v = false ->
      In k (required_keys name) \/
      (name = "search_jobs" /\ k = "easyApply" /\ v <> JUndef)) /\
  (forall k : string,
      In k (required_keys name) -> params !! k = Some (prop args k)) /\
  (name = "search_jobs" -> prop args "easyApply" <> JUndef ->
   params !! "easyApply" = Some (prop args "easyApply")).
Proof.
  intros Hin. apply request_is_query in Hin as Hq.
  split; [|split].
  - intros k v. exact (outbound_query_falsy name endpoint k args params v Hq).
  - intros k. exact (outbound_query_required name endpoint k args params Hq).
  - intros -> Hdef. injection Hq as <- <-.
    lookup_params. eval_eqb. cbv beta iota delta [andb].
    destruct (prop args "easyApply"); try reflexivity. contradiction Hdef. reflexivity.
Qed.

Lemma falsy_arguments_witness :
  let args : gmap string jsval :=
    {[ "easyApply" := JBool false; "under10Applicants" := JBool false ]} in
  searchJobs_params args !! "easyApply" = Some (JBool false) /\
  searchJobs_params args !! "under10Applicants" = None.
Proof.
  intros args.
  assert (Hin : In ("/job-search", searchJobs_params args)
                   (requests (callTool demo_world "search_jobs" (Some args)).1)).
  { rewrite callTool_requests. left. reflexivity. }
  destruct (falsy_arguments demo_world "search_jobs" "/job-search" args
              (searchJobs_params args) Hin) as (_ & _ & Heasy).
  split.
  - apply Heasy; [reflexivity | discriminate].
  - reflexivity.
Defined.

(** ** Flags of a post *)

(** X12. [cleanPost] keeps neither the images nor the video of a post, only
    two flags: [hasImages] tells whether the [postImages] array has an entry
    (and is [false] when the array is missing), [hasVideo] whether [postVideo]
    is there. *)
Theorem cleanPost_flags (raw : jsval) :
  JS.truthy raw = true ->
  (forall l : list jsval,
      JS.field raw "postImages" = JArr l ->
      exists fields,
        DataCleaners.cleanPost raw = Ok (JObj fields) /\
        JS.assoc "hasImages" fields = JBool (match l with [] => false | _ => true end) /\
        JS.assoc "hasVideo" fields = JBool (JS.truthy (JS.field raw "postVideo")) /\
        JS.assoc "postImages" fields = JUndef /\
        JS.assoc "postVideo" fields = JUndef) /\
  (JS.is_nullish (JS.field raw "postImages") = true ->
   exists fields,
     DataCleaners.cleanPost raw = Ok (JObj fields) /\
     JS.assoc "hasImages" fields = JBool false /\
     JS.assoc "hasVideo" fields = JBool (JS.truthy (JS.field raw "postVideo"))).
Proof.
  intros Hraw. unfold DataCleaners.cleanPost. rewrite Hraw. simpl. split.
  - intros l Hl. rewrite Hl.
    destruct l as [|x l]; simpl.
    + eexists. split; [reflexivity|]. repeat split.
    + unfold JS.or. simpl. eexists. split; [reflexivity|]. repeat split.
  - intros Hnull. unfold JS.opt. rewrite Hnull. simpl.
    eexists. split; [reflexivity|]. repeat split.
Qed.

Lemma cleanPost_flags_witness :
  exists fields,
    DataCleaners.cleanPost
      (JObj [ ("content", JStr "Hello");
              ("postImages", JArr [ JObj [ ("url", JStr "https://media/1.png") ] ]) ])
    = Ok (JObj fields) /\
    JS.assoc "hasImages" fields = JBool true /\
    JS.assoc "hasVideo" fields = JBool false.
Proof.
  destruct (cleanPost_flags
              (JObj [ ("content", JStr "Hello");
                      ("postImages", JArr [ JObj [ ("url", JStr "https://media/1.png") ] ]) ])
              eq_refl) as [H _].
  destruct (H _ eq_refl) as (fields & Hc & Hi & Hv & _).
  exists fields. repeat split; assumption.
Defined.

(** ** The display name of a profile *)

Lemma list_ascii_of_string_app (a b : string) :
  list_ascii_of_string (a +:+ b) = (list_ascii_of_string a ++ list_ascii_of_string b)%list.
Proof.
  induction a as [|c a IH]; [reflexivity|].
  change (c :: list_ascii_of_string (a +:+ b)
          = c :: (list_ascii_of_string a ++ list_ascii_of_string b)%list).
  f_equal. exact IH.
Qed.

Lemma string_of_list_ascii_app (l1 l2 : list ascii) :
  string_of_list_ascii (l1 ++ l2) = string_of_list_ascii l1 +:+ string_of_list_ascii l2.
Proof.
  induction l1 as [|c l1 IH]; [reflexivity|].
  change (String c (string_of_list_ascii (l1 ++ l2))
          = String c (string_of_list_ascii l1 +:+ string_of_list_ascii l2)).
  f_equal. exact IH.
Qed.

Lemma rev_string_app (a b : string) :
  JS.rev_string (a +:+ b) = JS.rev_string b +:+ JS.rev_string a.
Proof.
  unfold JS.rev_string.
  rewrite list_ascii_of_string_app, rev_app_distr, string_of_list_ascii_app. reflexivity.
Qed.

Lemma rev_string_involutive (s : string) : JS.rev_string (JS.rev_string s) = s.
Proof.
  unfold JS.rev_string.
  rewrite list_ascii_of_string_of_list_ascii, rev_involutive.
  apply string_of_list_ascii_of_string.
Qed.

Lemma app_assoc_string (a b c : string) : a +:+ b +:+ c = (a +:+ b) +:+ c.
Proof.
  induction a as [|x a IH]; [reflexivity|].
  change (String x (a +:+ b +:+ c) = String x ((a +:+ b) +:+ c)). rewrite IH. reflexivity.
Qed.

Lemma trim_start_by_id (p2 : ascii -> ascii -> bool) (p3 : ascii -> ascii -> ascii -> bool)
    (s : string) :
  JS.space_ahead p2 p3 s = false -> JS.trim_start_by p2 p3 s = s.
Proof.
  destruct s as [|c1 [|c2 [|c3 r]]]; simpl; try reflexivity;
    destruct (JS.is_space c1); simpl; try discriminate; try reflexivity;
    destruct (p2 c1 c2); simpl; try discriminate; try reflexivity.
  intros ->. reflexivity.
Qed.

Lemma is_space3_space_right (c c' : ascii) : JS.is_space3 c c' " " = false.
Proof.
  unfold JS.is_space3. cbv zeta.
  change (nat_of_ascii " ") with 32%nat.
  generalize (nat_of_ascii c) (nat_of_ascii c'). intros a b. simpl.
  destruct (b =? 154)%nat, (b =? 128)%nat, (b =? 129)%nat, (b =? 187)%nat,
    (a =? 225)%nat, (a =? 226)%nat, (a =? 227)%nat, (a =? 239)%nat; reflexivity.
Qed.

Lemma is_space3_space_left (c c' : ascii) : JS.is_space3 " " c c' = false.
Proof.
  unfold JS.is_space3. cbv zeta.
  change (nat_of_ascii " ") with 32%nat.
  generalize (nat_of_ascii c) (nat_of_ascii c'). intros b d. simpl.
  destruct (b =? 154)%nat, (b =? 128)%nat, (b =? 129)%nat, (b =? 187)%nat; reflexivity.
Qed.

Lemma spaceless_forward : spaceless JS.is_space2 JS.is_space3.
Proof.
  split; [|split].
  - intros c. unfold JS.is_space2. apply andb_false_r.
  - intros c c'. reflexivity.
  - apply is_space3_space_right.
Qed.

Lemma spaceless_backward : spaceless JS.is_space2_rev JS.is_space3_rev.
Proof.
  split; [|split].
  - intros c. reflexivity.
  - intros c c'. reflexivity.
  - intros c c'. apply is_space3_space_left.
Qed.

Lemma space_ahead_app (p2 : ascii -> ascii -> bool) (p3 : ascii -> ascii -> ascii -> bool)
    (a b : string) :
  spaceless p2 p3 -> a <> "" ->
  JS.space_ahead p2 p3 (a +:+ " " +:+ b) = JS.space_ahead p2 p3 a.
Proof.
  intros (H2 & H3 & H3') Ha.
  destruct a as [|c1 [|c2 [|c3 r]]]; [contradiction|..].
  - change (String c1 "" +:+ " " +:+ b) with (String c1 (String " " b)). simpl.
    rewrite H2. destruct b; [reflexivity|]. rewrite H3. reflexivity.
  - change (String c1 (String c2 "") +:+ " " +:+ b)
      with (String c1 (String c2 (String " " b))). simpl.
    rewrite H3'. reflexivity.
  - reflexivity.
Qed.

Lemma rev_string_nonempty (s : string) : s <> "" -> JS.rev_string s <> "".
Proof.
  intros Hs Hrev. apply Hs.
  rewrite <- (rev_string_involutive s), Hrev. reflexivity.
Qed.

Lemma trim_id (s : string) :
  starts_with_space s = false -> ends_with_space s = false -> JS.trim s = s.
Proof.
  intros Hstart Hend. unfold JS.trim, JS.trim_start.
  rewrite (trim_start_by_id _ _ s Hstart), (trim_start_by_id _ _ _ Hend).
  apply rev_string_involutive.
Qed.

Lemma trim_space_right (s : string) :
  s <> "" -> starts_with_space s = false -> ends_with_space s = false ->
  JS.trim (s +:+ " ") = s.
Proof.
  intros Hs Hstart Hend. unfold JS.trim, JS.trim_start.
  assert (Hkeep : JS.space_ahead JS.is_space2 JS.is_space3 (s +:+ " ") = false).
  { change (s +:+ " ") with (s +:+ " " +:+ "").
    rewrite (space_ahead_app _ _ s "" spaceless_forward Hs). exact Hstart. }
  rewrite (trim_start_by_id _ _ _ Hkeep), rev_string_app.
  change (JS.rev_string " " +:+ JS.rev_string s) with (String " " (JS.rev_string s)).
  change (JS.trim_start_by JS.is_space2_rev JS.is_space3_rev (String " " (JS.rev_string s)))
    with (JS.trim_start_by JS.is_space2_rev JS.is_space3_rev (JS.rev_string s)).
  rewrite (trim_start_by_id _ _ _ Hend). apply rev_string_involutive.
Qed.

Lemma trim_space_left (s : string) :
  starts_with_space s = false -> ends_with_space s = false -> JS.trim (" " +:+ s) = s.
Proof.
  intros Hstart Hend. unfold JS.trim, JS.trim_start.
  change (JS.trim_start_by JS.is_space2 JS.is_space3 (" " +:+ s))
    with (JS.trim_start_by JS.is_space2 JS.is_space3 s).
  rewrite (trim_start_by_id _ _ s Hstart), (trim_start_by_id _ _ _ Hend).
  apply rev_string_involutive.
Qed.

Lemma trim_space_between (a b : string) :
  clean_name a -> clean_name b -> JS.trim (a +:+ " " +:+ b) = a +:+ " " +:+ b.
Proof.
  intros (Ha & Hastart & _) (Hb & _ & Hbend).
  apply trim_id.
  - unfold starts_with_space.
    rewrite (space_ahead_app _ _ a b spaceless_forward Ha). exact Hastart.
  - unfold ends_with_space. rewrite !rev_string_app.
    change (JS.rev_string " ") with " ".
    rewrite <- app_assoc_string.
    rewrite (space_ahead_app _ _ _ _ spaceless_backward (rev_string_nonempty b Hb)).
    exact Hbend.
Qed.

(** X13. The display name of a cleaned profile is the first and the last
    name with one space between them when both are there, the one that is
    there when the other is missing, without a space before or after it, and
    the empty string when both are missing; the names are non-empty strings
    that neither start nor end with white space, that of Unicode included. *)
Theorem cleanProfile_name (raw : jsval) (fields : list (string * jsval)) :
  DataCleaners.cleanProfile raw = Ok (JObj fields) ->
  (forall first last : string,
      JS.field raw "firstName" = JStr first -> JS.field raw "lastName" = JStr last ->
      clean_name first -> clean_name last ->
      JS.assoc "name" fields = JStr (first +:+ " " +:+ last)) /\
  (forall first : string,
      JS.field raw "firstName" = JStr first ->
      JS.truthy (JS.field raw "lastName") = false ->
      clean_name first ->
      JS.assoc "name" fields = JStr first) /\
  (forall last : string,
      JS.truthy (JS.field raw "firstName") = false ->
      JS.field raw "lastName" = JStr last ->
      clean_name last ->
      JS.assoc "name" fields = JStr last) /\
  (JS.truthy (JS.field raw "firstName") = false ->
   JS.truthy (JS.field raw "lastName") = false ->
   JS.assoc "name" fields = JStr "").
Proof.
  intros Hclean.
  assert (Hname : exists first last,
             JS.to_string (JS.or (JS.field raw "firstName") (JStr "")) = Ok first /\
             JS.to_string (JS.or (JS.field raw "lastName") (JStr "")) = Ok last /\
             JS.assoc "name" fields = JStr (JS.trim (first +:+ " " +:+ last))).
  { revert Hclean. unfold DataCleaners.cleanProfile.
    destruct (negb (JS.truthy raw)); [discriminate|]. intros H.
    apply result_bind_ok in H as (exp & _ & H).
    apply result_bind_ok in H as (edu & _ & H).
    apply result_bind_ok in H as (skills & _ & H).
    apply result_bind_ok in H as (certs & _ & H).
    apply result_bind_ok in H as (first & Hfirst & H).
    apply result_bind_ok in H as (last & Hlast & H).
    injection H as <-. exists first, last. repeat split; assumption. }
  destruct Hname as (f & l & Hf & Hl & ->). clear Hclean.
  assert (Htruthy : forall s, s <> "" -> JS.or (JStr s) (JStr "") = JStr s).
  { intros s Hs. unfold JS.or. simpl.
    destruct (String.eqb_spec s "") as [|_]; [contradiction | reflexivity]. }
  assert (Hfalsy : forall v, JS.truthy v = false -> JS.or v (JStr "") = JStr "").
  { intros v Hv. unfold JS.or. rewrite Hv. reflexivity. }
  split; [|split; [|split]].
  - intros first last Hfirst Hlast Hcf Hcl.
    rewrite Hfirst, (Htruthy first (proj1 Hcf)) in Hf. injection Hf as <-.
    rewrite Hlast, (Htruthy last (proj1 Hcl)) in Hl. injection Hl as <-.
    rewrite (trim_space_between first last Hcf Hcl). reflexivity.
  - intros first Hfirst Hlast (Hne & Hstart & Hend).
    rewrite Hfirst, (Htruthy first Hne) in Hf. injection Hf as <-.
    rewrite (Hfalsy _ Hlast) in Hl. injection Hl as <-.
    change (first +:+ " " +:+ "") with (first +:+ " ").
    rewrite (trim_space_right first Hne Hstart Hend). reflexivity.
  - intros last Hfirst Hlast (Hne & Hstart & Hend).
    rewrite (Hfalsy _ Hfirst) in Hf. injection Hf as <-.
    rewrite Hlast, (Htruthy last Hne) in Hl. injection Hl as <-.
    change ("" +:+ " " +:+ last) with (" " +:+ last).
    rewrite (trim_space_left last Hstart Hend). reflexivity.
  - intros Hfirst Hlast.
    rewrite (Hfalsy _ Hfirst) in Hf. injection Hf as <-.
    rewrite (Hfalsy _ Hlast) in Hl. injection Hl as <-.
    reflexivity.
Qed.

Lemma cleanProfile_name_witness :
  exists fields,
    DataCleaners.cleanProfile (JObj [ ("firstName", JStr "Satya") ]) = Ok (JObj fields) /\
    JS.assoc "name" fields = JStr "Satya".
Proof.
  eexists. split; [reflexivity|].
  destruct (cleanProfile_name (JObj [ ("firstName", JStr "Satya") ]) _ eq_refl)
    as (_ & H & _).
  apply (H "Satya"); [reflexivity | reflexivity |].
  split; [discriminate | split; reflexivity].
Defined.

(** ** The catalog and the handlers *)


Lemma forwarded_declared (name : string) :
  forwarded name = List.filter (fun k => negb (is_local k)) (declared name).
Proof.
  unfold forwarded, declared, find_tool, listTools. simpl List.find.
  by_tool name ltac:(reflexivity).
  reflexivity.
Qed.

(** X15. The query of a request holds declared properties only: each of its
    parameters is a property of the input schema the catalog gives for the
    tool; conversely every declared property other than [save_dir] and
    [max_items], supplied with a truthy value, is in the query, and those two
    never are. *)
Theorem catalog_declares_query (w : World) (name endpoint : string)
    (args params : gmap string jsval) :
  In (endpoint, params) (requests (callTool w name (Some args)).1) ->
  (forall k : string, params !! k <> None -> In k (declared name)) /\
  (forall k : string,
      In k (declared name) -> is_local k = false -> JS.truthy (prop args k) = true ->
      params !! k = Some (prop args k)) /\
  params !! "save_dir" = None /\
  params !! "max_items" = None.
Proof.
  intros Hin. apply request_is_query in Hin as Hq.
  assert (Hrel : forall k, params !! k <> None ->
                           In k (declared name) /\ is_local k = false).
  { intros k Hk.
    pose proof (outbound_query_relevant name endpoint k args params Hq Hk) as Hf.
    rewrite forwarded_declared in Hf. apply filter_In in Hf as [Hd Hl].
    split; [exact Hd|]. destruct (is_local k); [discriminate | reflexivity]. }
  split; [|split; [|split]].
  - intros k Hk. exact (proj1 (Hrel k Hk)).
  - intros k Hd Hl Ht.
    apply (outbound_query_forwards name endpoint k args params Hq); [|exact Ht].
    rewrite forwarded_declared. apply filter_In. split; [exact Hd|].
    rewrite Hl. reflexivity.
  - destruct (params !! "save_dir") eqn:Hs; [|reflexivity].
    destruct (Hrel "save_dir") as [_ H]; [congruence | discriminate H].
  - destruct (params !! "max_items") eqn:Hs; [|reflexivity].
    destruct (Hrel "max_items") as [_ H]; [congruence | discriminate H].
Qed.

Lemma catalog_declares_query_witness :
  (forall k : string, salary_search !! k <> None -> In k (declared "search_jobs")) /\
  salary_search !! "save_dir" = None.
Proof.
  assert (Hin : In ("/job-search", salary_search)
                   (requests (callTool demo_world "search_jobs" (Some salary_search)).1)).
  { rewrite callTool_requests. left. reflexivity. }
  destruct (catalog_declares_query demo_world "search_jobs" "/job-search"
              salary_search salary_search Hin) as (Hd & _ & Hs & _).
  split; assumption.
Defined.






(** ** Configuration from the environment *)

(** X17. The API key is the value of [HARVESTAPI_API_KEY] when it is set to
    a non-empty string, else that of [LINKEDIN_API_KEY] when it is, else the
    empty string; a request carries it in the [X-API-Key] header, and carries
    no such header when the key is empty. *)
Theorem api_key_header (env : gmap string string) :
  resolve_apiKey env
  = JStr (default "" (first_set env ["HARVESTAPI_API_KEY"; "LINKEDIN_API_KEY"])) /\
  request_headers (resolve_apiKey env)
  = match first_set env ["HARVESTAPI_API_KEY"; "LINKEDIN_API_KEY"] with
    | Some key => {[ "X-API-Key" := JStr key ]}
    | None => ∅
    end.
Proof.
  unfold resolve_apiKey, request_headers.
  assert (Hkey : JS.or (JS.or (env_var env "HARVESTAPI_API_KEY")
                              (env_var env "LINKEDIN_API_KEY")) (JStr "")
                 = JStr (default "" (first_set env ["HARVESTAPI_API_KEY"; "LINKEDIN_API_KEY"])) /\
                 JS.truthy (JS.or (JS.or (env_var env "HARVESTAPI_API_KEY")
                                         (env_var env "LINKEDIN_API_KEY")) (JStr ""))
                 = match first_set env ["HARVESTAPI_API_KEY"; "LINKEDIN_API_KEY"] with
                   | Some _ => true
                   | None => false
                   end).
  { unfold JS.or, env_var. simpl.
    destruct (env !! "HARVESTAPI_API_KEY") as [s1|]; simpl;
      [destruct (String.eqb s1 "") eqn:H1; simpl; rewrite ?H1; simpl|];
      (destruct (env !! "LINKEDIN_API_KEY") as [s2|]; simpl;
       [destruct (String.eqb s2 "") eqn:H2; simpl; rewrite ?H2; simpl|]);
      repeat match goal with H : String.eqb _ _ = _ |- _ => rewrite H end;
      auto. }
  destruct Hkey as [Hkey Ht]. rewrite Hkey in *. split; [reflexivity|].
  rewrite Ht. destruct (first_set env _); reflexivity.
Qed.


(** ** The period of an education entry *)

Lemma strip_dash_start_dashless (s : string) :
  dashless s = true -> JS.strip_dash_start s = s.
Proof.
  destruct s as [|c s]; [reflexivity|].
  unfold dashless. simpl. intros [Hc _]%andb_prop.
  destruct (Ascii.eqb_spec c "-") as [->|Hne]; [discriminate|].
  destruct c as [[] [] [] [] [] [] [] []]; try reflexivity. contradiction.
Qed.

Lemma strip_dash_start_app (s t : string) :
  s <> "" -> dashless s = true -> JS.strip_dash_start (s +:+ t) = s +:+ t.
Proof.
  destruct s as [|c s]; [contradiction|]. intros _.
  change (String c s +:+ t) with (String c (s +:+ t)).
  unfold dashless. simpl. intros [Hc _]%andb_prop.
  destruct (Ascii.eqb_spec c "-") as [->|Hne]; [discriminate|].
  destruct c as [[] [] [] [] [] [] [] []]; try reflexivity. contradiction.
Qed.

Lemma dashless_rev (s : string) : dashless (JS.rev_string s) = dashless s.
Proof.
  unfold dashless, JS.rev_string. rewrite list_ascii_of_string_of_list_ascii.
  generalize (list_ascii_of_string s) as l. intros l.
  induction l as [|c l IH]; [reflexivity|].
  simpl. rewrite forallb_app, IH. simpl. rewrite andb_true_r. apply andb_comm.
Qed.

Lemma dashless_app (a b : string) :
  dashless (a +:+ b) = dashless a && dashless b.
Proof.
  unfold dashless. rewrite list_ascii_of_string_app. apply forallb_app.
Qed.

Lemma strip_dashes_years (a b : string) :
  dashless a = true -> dashless b = true ->
  JS.strip_dashes (a +:+ "-" +:+ b)
  = if String.eqb a "" then b
    else if String.eqb b "" then a
    else a +:+ "-" +:+ b.
Proof.
  intros Ha Hb. unfold JS.strip_dashes.
  destruct a as [|c a].
  - change (JS.strip_dash_start ("" +:+ "-" +:+ b)) with b. simpl.
    rewrite strip_dash_start_dashless by (rewrite dashless_rev; exact Hb).
    apply rev_string_involutive.
  - change (String.eqb (String c a) "") with false. cbv beta iota.
    assert (Hkeep : JS.strip_dash_start (String c a +:+ "-" +:+ b)
                    = String c a +:+ "-" +:+ b)
      by (apply strip_dash_start_app; [discriminate | exact Ha]).
    rewrite Hkeep, !rev_string_app.
    destruct b as [|d b].
    + change (JS.rev_string "" +:+ JS.rev_string "-" +:+ JS.rev_string (String c a))
        with (String "-" (JS.rev_string (String c a))).
      simpl. apply rev_string_involutive.
    + change (String.eqb (String d b) "") with false. cbv beta iota.
      rewrite <- app_assoc_string, strip_dash_start_app.
      * rewrite app_assoc_string, <- !rev_string_app. apply rev_string_involutive.
      * apply rev_string_nonempty. discriminate.
      * rewrite dashless_rev. exact Hb.
Qed.

(** X19. An education entry that has no period of its own gets one from the
    years of its start and end dates: when the renderings of the two years
    hold no dash, the period is the one that is there if the other is
    missing (no dash is left over), both joined by a dash if both are
    there, and the empty string if neither is. *)
Theorem education_period (e v : jsval) (a b : string) :
  DataCleaners.clean_education e = Ok v ->
  JS.truthy (JS.field e "period") = false ->
  JS.to_string (JS.or (JS.opt (JS.field e "startDate") "year") (JStr "")) = Ok a ->
  JS.to_string (JS.or (JS.opt (JS.field e "endDate") "year") (JStr "")) = Ok b ->
  dashless a = true -> dashless b = true ->
  JS.field v "period"
  = JStr (if String.eqb a "" then b
          else if String.eqb b "" then a
          else a +:+ "-" +:+ b).
Proof.
  intros Hclean Hperiod Ha Hb Hda Hdb.
  unfold DataCleaners.clean_education, DataCleaners.education_period in Hclean.
  destruct (JS.get e "schoolName") as [school|err]; [|discriminate].
  rewrite Hperiod, Ha, Hb in Hclean.
  simpl in Hclean. injection Hclean as <-.
  change (JS.field (JObj _) "period") with (JStr (JS.strip_dashes (a +:+ "-" +:+ b))).
  rewrite strip_dashes_years by assumption. reflexivity.
Qed.

Lemma education_period_witness :
  exists v,
    DataCleaners.clean_education
      (JObj [ ("schoolName", JStr "MIT"); ("startDate", JObj [ ("year", JNum 2015) ]) ])
    = Ok v /\
    JS.field v "period" = JStr "2015".
Proof.
  eexists. split; [reflexivity|].
  apply (education_period
           (JObj [ ("schoolName", JStr "MIT");
                   ("startDate", JObj [ ("year", JNum 2015) ]) ])
           _ "2015" "");
    vm_compute; reflexivity.
Defined.

(** ** Arguments the catalog does not declare *)

(** Proves [k <> hidden] for a declared [k], from [Hnot], which says that
    [hidden] is none of the declared properties. *)
Ltac declared_ne Hnot :=
  let Heq := fresh in
  intros Heq; apply Hnot; rewrite <- Heq;
  repeat first [ left; reflexivity | right ].

Lemma outbound_query_undeclared (name hidden : string) (a b : gmap string jsval) :
  ~ In hidden (declared name) ->
  agree_except hidden a b ->
  outbound_query name a = outbound_query name b.
Proof.
  unfold outbound_query.
  by_tool name ltac:(
    intros Hnot Hab; vm_compute in Hnot;
    f_equal; f_equal; unfold_params;
    repeat first
      [ apply copy_if_truthy_agree
      | apply copy_if_defined_agree
      | reflexivity
      | (apply Hab; declared_ne Hnot)
      | (f_equal; apply Hab; declared_ne Hnot) ]).
  reflexivity.
Qed.

Lemma rule_satisfied_undeclared (name hidden : string) (a b : gmap string jsval) :
  ~ In hidden (declared name) ->
  agree_except hidden a b ->
  rule_satisfied name a = rule_satisfied name b.
Proof.
  unfold rule_satisfied, required_one_of.
  by_tool name ltac:(
    intros Hnot Hab; vm_compute in Hnot;
    unfold none_present; simpl forallb;
    repeat match goal with
           | |- context [prop a ?k] => rewrite (Hab k) by declared_ne Hnot
           end;
    reflexivity).
  reflexivity.
Qed.

Lemma reply_undeclared (w : World) (name hidden endpoint : string)
    (a b params : gmap string jsval) :
  outbound_query name a = Some (endpoint, params) ->
  ~ In hidden (declared name) ->
  agree_except hidden a b ->
  reply w name a endpoint params = reply w name b endpoint params.
Proof.
  intros Hq Hnot Hab. unfold reply. apply io_bind_ext. intros data.
  assert (H : prop a "save_dir" = prop b "save_dir" /\
              shaped name (prop a "max_items") data = shaped name (prop b "max_items") data).
  { revert Hq Hnot. unfold outbound_query, shaped.
    by_tool name ltac:(
      intros _ Hnot; vm_compute in Hnot;
      split; [apply Hab; declared_ne Hnot|];
      first [ reflexivity
            | rewrite (Hab "max_items") by declared_ne Hnot; reflexivity ]).
    discriminate. }
  destruct H as [-> ->]. reflexivity.
Qed.

(** X20. An argument the catalog does not declare for a tool is ignored: a
    call with such an argument, whatever its value, is the call without
    it. *)
Theorem undeclared_argument_ignored (w : World) (name k : string) (v : jsval)
    (args : gmap string jsval) :
  ~ In k (declared name) ->
  callTool w name (Some (<[k := v]> args)) = callTool w name (Some (delete k args)).
Proof.
  intros Hnot.
  pose proof (agree_insert_delete k v args) as Hab.
  assert (Hroute : route w name (<[k := v]> args) = route w name (delete k args)).
  { rewrite !route_route_table, !route_table_by_rule.
    rewrite <- (outbound_query_undeclared name k _ _ Hnot Hab).
    rewrite <- (rule_satisfied_undeclared name k _ _ Hnot Hab).
    destruct (outbound_query name (<[k := v]> args)) as [[endpoint params]|] eqn:Hq;
      [|reflexivity].
    rewrite (reply_undeclared w name k endpoint _ _ params Hq Hnot Hab).
    reflexivity. }
  unfold callTool. rewrite Hroute. reflexivity.
Qed.

Lemma undeclared_argument_ignored_witness :
  callTool demo_world "get_job" (Some (<["max_items" := JNum 1]> {[ "jobId" := JStr "7" ]}))
  = callTool demo_world "get_job" (Some (delete "max_items" {[ "jobId" := JStr "7" ]})).
Proof.
  apply (undeclared_argument_ignored demo_world "get_job" "max_items" (JNum 1)).
  vm_compute. intros [H|[H|[H|[]]]]; discriminate H.
Defined.

(** ** The note of a saved reply *)

(** X21. Whatever the file system does, a reply that was to be saved ends
    with a note in brackets, which gives the path of the file or the error of
    the save; and when the directory is missing and cannot be created, the
    save stops there: no file is written. *)
Theorem save_always_noted (w : World) (cleaned : jsval) (options : FormatOptions) :
  JS.truthy (saveDir options) = true ->
  toolName options <> "" ->
  (forall dir file, path_join w dir file <> Ok "") ->
  exists evs saved,
    formatResponse w cleaned options
    = (evs, Ok {| content_text :=
                    encode w (format_output cleaned (pagination options)) +:+
                    newline +:+ newline +:+ "[Cleaned data saved to: " +:+ saved +:+ "]" |}) /\
    saved <> "" /\
    requests evs = [] /\
    (forall e, exists_sync w (saveDir options) = false ->
               mkdir_sync w (saveDir options) = Some e ->
               evs = [Mkdir (saveDir options)] /\
               saved = "Error saving: " +:+ exn_to_string e).
Proof.
  intros Hdir Htool Hjoin. unfold formatResponse. rewrite Hdir.
  destruct (String.eqb_spec (toolName options) "") as [|_]; [contradiction|]. simpl.
  set (output := format_output cleaned (pagination options)).
  assert (Hsave : exists evs saved,
             saveData w output (saveDir options) (toolName options) = (evs, Ok saved) /\
             saved <> "" /\ requests evs = [] /\
             (forall e, exists_sync w (saveDir options) = false ->
                        mkdir_sync w (saveDir options) = Some e ->
                        evs = [Mkdir (saveDir options)] /\
                        saved = "Error saving: " +:+ exn_to_string e)).
  { unfold saveData, try_catch, emit, throw, lift.
    destruct (exists_sync w (saveDir options)) eqn:Hex; simpl.
    - destruct (path_join w (saveDir options) _) as [path|e] eqn:Hp; simpl.
      + destruct (write_file_sync w path _); simpl; do 2 eexists;
          (split; [reflexivity|]); (split; [|split; [reflexivity|discriminate]]).
        * discriminate.
        * intros ->. exact (Hjoin _ _ Hp).
      + do 2 eexists. split; [reflexivity|].
        split; [discriminate|]. split; [reflexivity|discriminate].
    - destruct (mkdir_sync w (saveDir options)) as [e|] eqn:Hmk; simpl.
      + do 2 eexists. split; [reflexivity|].
        split; [discriminate|]. split; [reflexivity|].
        intros e' _ [= <-]. split; reflexivity.
      + destruct (path_join w (saveDir options) _) as [path|e] eqn:Hp; simpl.
        * destruct (write_file_sync w path _); simpl; do 2 eexists;
            (split; [reflexivity|]); (split; [|split; [reflexivity|discriminate]]).
          -- discriminate.
          -- intros ->. exact (Hjoin _ _ Hp).
        * do 2 eexists. split; [reflexivity|].
          split; [discriminate|]. split; [reflexivity|discriminate]. }
  destruct Hsave as (evs & saved & -> & Hne & Hreq & Hmk). simpl.
  exists evs, saved. rewrite app_nil_r.
  destruct (String.eqb_spec saved "") as [|_]; [contradiction|]. simpl.
  split; [reflexivity|]. split; [assumption|]. split; assumption.
Qed.

Lemma save_always_noted_witness :
  exists evs saved,
    formatResponse demo_world (JArr [])
      {| saveDir := JStr "/readonly"; toolName := "search_jobs"; pagination := JUndef |}
    = (evs, Ok {| content_text :=
                    "{data:[]}" +:+ newline +:+ newline +:+
                    "[Cleaned data saved to: " +:+ saved +:+ "]" |}) /\
    saved <> "".
Proof.
  destruct (save_always_noted demo_world (JArr [])
              {| saveDir := JStr "/readonly"; toolName := "search_jobs"; pagination := JUndef |})
    as (evs & saved & Hf & Hne & _).
  - reflexivity.
  - discriminate.
  - intros dir file H. simpl in H. injection H as H.
    destruct dir as [| | | |[|]| |]; discriminate H.
  - exists evs, saved. split; [exact Hf | exact Hne].
Defined.
